(** * CYBERCOM phase2 plugin: first blood, signed cache, consent-gated
      suspicion findings and the verdict audit trail

    A shallow embedding of [CTFd/plugins/phase2] ([utils.py], [hooks.py],
    [detection.py], [models.py], [api.py]) and the properties its design
    document states about it.

    Conventions.
    - A Python [str] is a [string]; each character stands for one code point
      in U+0000..U+00FF.
    - A Python [int] is a [Z]; [None] is the [None] of an [option].
    - A [datetime] is a [Z]: microseconds since the epoch.
    - The confidence of a pattern, its weights and its thresholds are
      binary64 floats, as in Python; time differences and ratios of
      integers are kept as exact rationals.
    - Code that talks to the database, the cache or the clock is a program of
      the free monad [prog] over the operations [op]; the replies of the
      outside world (a lock that times out, a statement that raises) are
      chosen by the environment.
    - A printed line is kept by its fixed text: the ids, scores and dates
      the source formats into it are left out. *)

From Stdlib Require Import PrimFloat.
From Stdlib Require Import ZArith NArith Ascii String List QArith Lia Sorted.
From Stdlib.Strings Require Import Byte.
From stdpp Require Import base option list strings gmap fin_maps pretty.

Local Open Scope string_scope.
Local Open Scope Z_scope.

Set Warnings "-register-all".
Set Warnings "-inexact-float".

(** ** Python string methods *)

Module Py.

Definition code (c : ascii) : Z := Z.of_N (N_of_ascii c).
Definition chr (z : Z) : ascii := ascii_of_N (Z.to_N z).

(** [str.lower] on one code point: A-Z, and the upper-case letters of the
    Latin-1 block (all of U+00C0..U+00DE except the multiplication sign). *)
Definition lower_char (c : ascii) : ascii :=
  let n := code c in
  if ((65 <=? n) && (n <=? 90)) || ((192 <=? n) && (n <=? 222) && negb (n =? 215))
  then chr (n + 32) else c.

Fixpoint lower (s : string) : string :=
  match s with
  | EmptyString => EmptyString
  | String c r => String (lower_char c) (lower r)
  end.

(** [s.startswith(p)] *)
Fixpoint startswith (p s : string) : bool :=
  match p, s with
  | EmptyString, _ => true
  | String a p', String b s' => if Ascii.eqb a b then startswith p' s' else false
  | String _ _, EmptyString => false
  end.

(** [sub in s] *)
Fixpoint contains (sub s : string) : bool :=
  startswith sub s ||
  match s with
  | EmptyString => false
  | String _ r => contains sub r
  end.

(** [s[:n]] *)
Fixpoint take (n : nat) (s : string) : string :=
  match n, s with
  | S m, String c r => String c (take m r)
  | _, _ => EmptyString
  end.

Fixpoint drop (n : nat) (s : string) : string :=
  match n, s with
  | S m, String _ r => drop m r
  | _, _ => s
  end.

(** [s.endswith(p)] *)
Definition endswith (p s : string) : bool :=
  (String.length p <=? String.length s)%nat &&
  String.eqb (drop (String.length s - String.length p) s) p.

(** [s.replace(old, new)] for a non-empty [old]: left to right, without
    overlap. [fuel] bounds the scan and is the length of [s]. *)
Fixpoint replace_go (fuel : nat) (old new s : string) : string :=
  match fuel with
  | O => s
  | S f =>
      match s with
      | EmptyString => EmptyString
      | String c r =>
          if startswith old s
          then new +:+ replace_go f old new (drop (String.length old) s)
          else String c (replace_go f old new r)
      end
  end.

Definition replace (old new s : string) : string :=
  replace_go (String.length s) old new s.

(** [str.isspace] for one code point below U+0100. *)
Definition is_space (c : ascii) : bool :=
  let n := code c in
  ((9 <=? n) && (n <=? 13)) || ((28 <=? n) && (n <=? 32)) || (n =? 133) || (n =? 160).

Fixpoint lstrip (s : string) : string :=
  match s with
  | String c r => if is_space c then lstrip r else s
  | EmptyString => EmptyString
  end.

Definition rstrip (s : string) : string :=
  String.rev (lstrip (String.rev s)).

(** [s.strip()] *)
Definition strip (s : string) : string := rstrip (lstrip s).

(** Truth value of a [str]: false exactly for the empty string. *)
Definition truthy_str (s : string) : bool :=
  match s with EmptyString => false | _ => true end.

(** [s.encode('utf-8')] *)
Fixpoint encode_utf8 (s : string) : list byte :=
  match s with
  | EmptyString => []
  | String c r =>
      let n := code c in
      if n <? 128 then byte_of_ascii c :: encode_utf8 r
      else byte_of_ascii (chr (Z.lor 192 (Z.shiftr n 6)))
           :: byte_of_ascii (chr (Z.lor 128 (Z.land n 63)))
           :: encode_utf8 r
  end.

(** The double quote, and a way to write text that holds double quotes:
    [quoted] turns each apostrophe of a literal into a double quote. *)
Definition dquote : ascii := "034"%char.

Fixpoint quoted (s : string) : string :=
  match s with
  | EmptyString => EmptyString
  | String c r => String (if Ascii.eqb c "'"%char then dquote else c) (quoted r)
  end.

(** [str(n)] for an [int]. *)
Definition str_of_int (z : Z) : string := pretty z.

End Py.

(** ** SHA-256 and HMAC (hashlib, hmac)

    The digest functions of the standard library, after FIPS 180-4 and
    RFC 2104. The round constants are computed as the standard defines them:
    fractional parts of the square and cube roots of the first primes. *)

Module SHA256.

Definition mask32 : Z := 4294967295.
Definition w32 (x : Z) : Z := Z.land x mask32.
Definition add32 (x y : Z) : Z := w32 (x + y).
Definition rotr (n x : Z) : Z := Z.lor (Z.shiftr x n) (w32 (Z.shiftl x (32 - n))).

Definition Ch (e f g : Z) : Z := Z.lxor (Z.land e f) (Z.land (Z.lxor e mask32) g).
Definition Maj (a b c : Z) : Z :=
  Z.lxor (Z.lxor (Z.land a b) (Z.land a c)) (Z.land b c).
Definition bsig0 (a : Z) : Z := Z.lxor (Z.lxor (rotr 2 a) (rotr 13 a)) (rotr 22 a).
Definition bsig1 (e : Z) : Z := Z.lxor (Z.lxor (rotr 6 e) (rotr 11 e)) (rotr 25 e).
Definition ssig0 (x : Z) : Z := Z.lxor (Z.lxor (rotr 7 x) (rotr 18 x)) (Z.shiftr x 3).
Definition ssig1 (x : Z) : Z := Z.lxor (Z.lxor (rotr 17 x) (rotr 19 x)) (Z.shiftr x 10).

Definition is_prime (n : Z) : bool :=
  (2 <=? n) && forallb (fun d => negb (n mod (Z.of_nat d) =? 0)) (seq 2 (Z.to_nat n - 2)).

Definition first_primes (k : nat) : list Z :=
  firstn k (filter (fun n => is_prime n) (map Z.of_nat (seq 2 400))).

(** Largest [r] below [2^bits] with [r^3 <= n], given [acc^3 <= n]. *)
Fixpoint icbrt_go (bits : nat) (n acc : Z) : Z :=
  match bits with
  | O => acc
  | S b =>
      let cand := acc + Z.shiftl 1 (Z.of_nat b) in
      icbrt_go b n (if cand * cand * cand <=? n then cand else acc)
  end.

Definition K : list Z :=
  Eval vm_compute in
    map (fun p => w32 (icbrt_go 40 (p * 2 ^ 96) 0)) (first_primes 64).

Definition H0 : list Z :=
  Eval vm_compute in
    map (fun p => w32 (Z.sqrt (p * 2 ^ 64))) (first_primes 8).

Definition byteZ (b : byte) : Z := Z.of_N (Byte.to_N b).

(** Big-endian bytes of the low [n] bytes of [x]. *)
Fixpoint be_bytes (n : nat) (x : Z) : list Z :=
  match n with
  | O => []
  | S m => Z.land (Z.shiftr x (8 * Z.of_nat m)) 255 :: be_bytes m x
  end.

Definition pad (msg : list Z) : list Z :=
  let len := Z.of_nat (length msg) in
  let zeros := Z.to_nat ((55 - len) mod 64) in
  msg ++ 128 :: repeat 0 zeros ++ be_bytes 8 (8 * len).

Fixpoint words_of (fuel : nat) (bs : list Z) : list Z :=
  match fuel, bs with
  | S f, a :: b :: c :: d :: r =>
      (Z.shiftl a 24 + Z.shiftl b 16 + Z.shiftl c 8 + d) :: words_of f r
  | _, _ => []
  end.

Definition schedule_next (ws : list Z) : list Z :=
  let i := length ws in
  let w k := nth (i - k) ws 0 in
  ws ++ [add32 (add32 (ssig1 (w 2%nat)) (w 7%nat)) (add32 (ssig0 (w 15%nat)) (w 16%nat))].

Definition schedule (block : list Z) : list Z :=
  Nat.iter 48 schedule_next block.

Record regs := Regs { ra : Z; rb : Z; rc : Z; rd : Z; re : Z; rf : Z; rg : Z; rh : Z }.

Definition round (r : regs) (kw : Z * Z) : regs :=
  let t1 := add32 (add32 (add32 (rh r) (bsig1 (re r))) (add32 (Ch (re r) (rf r) (rg r)) (fst kw))) (snd kw) in
  let t2 := add32 (bsig0 (ra r)) (Maj (ra r) (rb r) (rc r)) in
  Regs (add32 t1 t2) (ra r) (rb r) (rc r) (add32 (rd r) t1) (re r) (rf r) (rg r).

Definition compress (h : regs) (block : list Z) : regs :=
  let r := fold_left round (combine K (schedule block)) h in
  Regs (add32 (ra h) (ra r)) (add32 (rb h) (rb r)) (add32 (rc h) (rc r))
       (add32 (rd h) (rd r)) (add32 (re h) (re r)) (add32 (rf h) (rf r))
       (add32 (rg h) (rg r)) (add32 (rh h) (rh r)).

Fixpoint blocks (fuel : nat) (ws : list Z) : list (list Z) :=
  match fuel, ws with
  | _, [] => []
  | O, _ => []
  | S f, _ => firstn 16 ws :: blocks f (skipn 16 ws)
  end.

Definition init : regs :=
  Regs (nth 0 H0 0) (nth 1 H0 0) (nth 2 H0 0) (nth 3 H0 0)
       (nth 4 H0 0) (nth 5 H0 0) (nth 6 H0 0) (nth 7 H0 0).

Definition regs_words (r : regs) : list Z :=
  [ra r; rb r; rc r; rd r; re r; rf r; rg r; rh r].

(** The eight words of the digest. *)
Definition digest_regs (msg : list Z) : regs :=
  let p := pad msg in
  let ws := words_of (length p) p in
  fold_left compress (blocks (length ws) ws) init.

(** [hashlib.sha256(msg).digest()], as numbers below 256. *)
Definition digest (msg : list Z) : list Z :=
  flat_map (be_bytes 4) (regs_words (digest_regs msg)).

Definition hexdigit (n : Z) : ascii :=
  Py.chr (if n <? 10 then 48 + n else 87 + n).

Definition hex_byte (b : Z) : string :=
  String (hexdigit (Z.land (Z.shiftr b 4) 15)) (String (hexdigit (Z.land b 15)) EmptyString).

Fixpoint hex (bs : list Z) : string :=
  match bs with
  | [] => EmptyString
  | b :: r => hex_byte b +:+ hex r
  end.

(** [hashlib.sha256(msg).hexdigest()] *)
Definition hexdigest (msg : list byte) : string := hex (digest (map byteZ msg)).

Definition xor_pad (c : Z) (key : list Z) : list Z :=
  map (fun k => Z.lxor k c) (key ++ repeat 0 (64 - length key)).

(** [hmac.new(key, msg, hashlib.sha256).hexdigest()] *)
Definition hmac_hexdigest (key msg : list byte) : string :=
  let k := map byteZ key in
  let k' := if (64 <? length k)%nat then digest k else k in
  hex (digest (xor_pad 92 k' ++ digest (xor_pad 54 k' ++ map byteZ msg))).

End SHA256.

(** ** Exceptions and results *)

(** The exception classes the plugin's handlers distinguish, and the ones the
    modelled library calls raise. All of them derive from [Exception]. *)
Inductive exn_class :=
| AttributeError | TypeError | JSONDecodeError | KeyError
| IntegrityError | OperationalError | StatementError | ConnectionError | RuntimeError.

Record exn := Exn { exn_cls : exn_class; exn_msg : string }.

Inductive result (A : Type) :=
| Ok (a : A)
| Err (e : exn).
Arguments Ok {A} a.
Arguments Err {A} e.

Global Instance exn_class_eq_dec : EqDecision exn_class.
Proof. solve_decision. Defined.

Definition result_bind {A B} (r : result A) (f : A -> result B) : result B :=
  match r with Ok a => f a | Err e => Err e end.

(** ** Evidence dictionaries *)

Inductive value :=
| VNone
| VInt (z : Z)
| VFloat (q : Q)
| VStr (s : string).

(** [bool(v)] *)
Definition truthy (v : value) : bool :=
  match v with
  | VNone => false
  | VInt z => negb (z =? 0)
  | VFloat q => negb (Qeq_bool q 0)
  | VStr s => Py.truthy_str s
  end.

(** A [dict] with [str] keys, in insertion order. *)
Definition dict := list (string * value).

(** [d[k] = v] *)
Fixpoint dict_set (k : string) (v : value) (d : dict) : dict :=
  match d with
  | [] => [(k, v)]
  | (k', v') :: r => if String.eqb k' k then (k, v) :: r else (k', v') :: dict_set k v r
  end.

(** [x in l] for a list of strings. *)
Definition str_in (x : string) (l : list string) : bool :=
  existsb (String.eqb x) l.

(** ** utils.py: PII sanitization *)

(** [hash_ip]: the first 16 hex digits of the SHA-256 of the address. *)
Definition hash_ip (ip_address : value) : result value :=
  if negb (truthy ip_address) then Ok VNone
  else match ip_address with
       | VStr s => Ok (VStr (Py.take 16 (SHA256.hexdigest (Py.encode_utf8 s))))
       | _ => Err (Exn AttributeError "object has no attribute 'encode'")
       end.

Definition browser_family (ua_lower : string) : string :=
  if Py.contains "chrome" ua_lower && negb (Py.contains "edg" ua_lower) then "Chrome"
  else if Py.contains "firefox" ua_lower then "Firefox"
  else if Py.contains "safari" ua_lower && negb (Py.contains "chrome" ua_lower) then "Safari"
  else if Py.contains "edg" ua_lower then "Edge"
  else if Py.contains "opera" ua_lower || Py.contains "opr" ua_lower then "Opera"
  else if Py.contains "msie" ua_lower || Py.contains "trident" ua_lower then "Internet Explorer"
  else "Unknown Browser".

Definition os_family (ua_lower : string) : string :=
  if Py.contains "windows" ua_lower then "Windows"
  else if Py.contains "mac" ua_lower && negb (Py.contains "iphone" ua_lower)
          && negb (Py.contains "ipad" ua_lower) then "macOS"
  else if Py.contains "linux" ua_lower && negb (Py.contains "android" ua_lower) then "Linux"
  else if Py.contains "android" ua_lower then "Android"
  else if Py.contains "iphone" ua_lower || Py.contains "ipad" ua_lower then "iOS"
  else "Unknown OS".

(** [generalize_user_agent] *)
Definition generalize_user_agent (user_agent : value) : result value :=
  if negb (truthy user_agent) then Ok (VStr "Unknown")
  else match user_agent with
       | VStr s =>
           let ua_lower := Py.lower s in
           Ok (VStr (browser_family ua_lower +:+ " on " +:+ os_family ua_lower))
       | _ => Err (Exn AttributeError "object has no attribute 'lower'")
       end.

(** One turn of the loop of [sanitize_evidence]. *)
Definition sanitize_item (sanitized : dict) (key : string) (v : value) : result dict :=
  if Py.contains "ip" (Py.lower key) && truthy v
     && negb (str_in key ["ip_hash"; "ip_1_hash"; "ip_2_hash"]) then
    let hash_key := if negb (Py.endswith "_hash" key) then key +:+ "_hash" else key in
    result_bind (hash_ip v) (fun h => Ok (dict_set hash_key h sanitized))
  else if Py.contains "user_agent" (Py.lower key) && truthy v then
    let gen_key := Py.replace "user_agent" "browser_os" key in
    result_bind (generalize_user_agent v) (fun g => Ok (dict_set gen_key g sanitized))
  else if Py.contains "submission" (Py.lower key) && Py.contains "text" (Py.lower key) then
    Ok (dict_set key (VStr "[REDACTED]") sanitized)
  else
    Ok (dict_set key v sanitized).

Fixpoint sanitize_loop (items : dict) (sanitized : dict) : result dict :=
  match items with
  | [] => Ok sanitized
  | (key, v) :: r => result_bind (sanitize_item sanitized key v) (sanitize_loop r)
  end.

(** [sanitize_evidence] *)
Definition sanitize_evidence (evidence : dict) : result dict :=
  sanitize_loop evidence [].

(** ** JSON text (json.dumps, json.loads)

    The values [json.loads] returns and the text [json.dumps] writes with its
    default arguments ([ensure_ascii], separators [", "] and [": "]). A
    number keeps its lexeme. Escapes of code points above U+00FF are outside
    the string model and are refused. *)

Module Json.

Inductive json :=
| JNull
| JBool (b : bool)
| JNum (lexeme : string)
| JStr (s : string)
| JArr (items : list json)
| JObj (members : list (string * json)).

Definition hex4 (n : Z) : string :=
  String (SHA256.hexdigit (Z.land (Z.shiftr n 12) 15))
    (String (SHA256.hexdigit (Z.land (Z.shiftr n 8) 15))
       (String (SHA256.hexdigit (Z.land (Z.shiftr n 4) 15))
          (String (SHA256.hexdigit (Z.land n 15)) EmptyString))).

(** One character of a string, as [json.dumps] writes it. *)
Definition escape_char (c : ascii) : string :=
  let n := Py.code c in
  if n =? 34 then String "\"%char (String Py.dquote EmptyString)
  else if n =? 92 then "\\"
  else if n =? 10 then "\n"
  else if n =? 13 then "\r"
  else if n =? 9 then "\t"
  else if n =? 8 then "\b"
  else if n =? 12 then "\f"
  else if (32 <=? n) && (n <=? 126) then String c EmptyString
  else "\u" +:+ hex4 n.

Fixpoint escape (s : string) : string :=
  match s with
  | EmptyString => EmptyString
  | String c r => escape_char c +:+ escape r
  end.

Definition quote (s : string) : string :=
  String Py.dquote (escape s +:+ String Py.dquote EmptyString).

Fixpoint dumps (j : json) : string :=
  match j with
  | JNull => "null"
  | JBool true => "true"
  | JBool false => "false"
  | JNum lexeme => lexeme
  | JStr s => quote s
  | JArr items =>
      "[" +:+ (fix go (l : list json) : string :=
                 match l with
                 | [] => ""
                 | [x] => dumps x
                 | x :: r => dumps x +:+ ", " +:+ go r
                 end) items +:+ "]"
  | JObj members =>
      "{" +:+ (fix go (l : list (string * json)) : string :=
                 match l with
                 | [] => ""
                 | [(k, x)] => quote k +:+ ": " +:+ dumps x
                 | (k, x) :: r => quote k +:+ ": " +:+ dumps x +:+ ", " +:+ go r
                 end) members +:+ "}"
  end.

Definition hexval (c : ascii) : option Z :=
  let n := Py.code c in
  if (48 <=? n) && (n <=? 57) then Some (n - 48)
  else if (97 <=? n) && (n <=? 102) then Some (n - 87)
  else if (65 <=? n) && (n <=? 70) then Some (n - 55)
  else None.

Definition cons_char (c : ascii) (r : option (string * string)) : option (string * string) :=
  match r with
  | Some (s, rest) => Some (String c s, rest)
  | None => None
  end.

(** The body of a string after its opening quote: the decoded string and
    the text after the closing quote. *)
Fixpoint scanstring (s : string) : option (string * string) :=
  match s with
  | EmptyString => None
  | String c r =>
      let n := Py.code c in
      if n =? 34 then Some (EmptyString, r)
      else if n =? 92 then
        match r with
        | EmptyString => None
        | String e r' =>
            let m := Py.code e in
            if m =? 34 then cons_char e (scanstring r')
            else if m =? 92 then cons_char e (scanstring r')
            else if m =? 47 then cons_char e (scanstring r')
            else if m =? 98 then cons_char (Py.chr 8) (scanstring r')
            else if m =? 102 then cons_char (Py.chr 12) (scanstring r')
            else if m =? 110 then cons_char (Py.chr 10) (scanstring r')
            else if m =? 114 then cons_char (Py.chr 13) (scanstring r')
            else if m =? 116 then cons_char (Py.chr 9) (scanstring r')
            else if m =? 117 then
              match r' with
              | String h1 (String h2 (String h3 (String h4 r''))) =>
                  match hexval h1, hexval h2, hexval h3, hexval h4 with
                  | Some a, Some b, Some c', Some d =>
                      let cp := 4096 * a + 256 * b + 16 * c' + d in
                      if cp <? 256 then cons_char (Py.chr cp) (scanstring r'') else None
                  | _, _, _, _ => None
                  end
              | _ => None
              end
            else None
        end
      else if n <? 32 then None
      else cons_char c (scanstring r)
  end.

Definition is_ws (c : ascii) : bool :=
  match c with
  | " "%char | "009"%char | "010"%char | "013"%char => true
  | _ => false
  end.

Fixpoint skip_ws (s : string) : string :=
  match s with
  | String c r => if is_ws c then skip_ws r else s
  | EmptyString => EmptyString
  end.

Definition is_digit (c : ascii) : bool :=
  let n := Py.code c in (48 <=? n) && (n <=? 57).

(** The leading digits of [s] and what follows them. *)
Fixpoint digits (s : string) : string * string :=
  match s with
  | String c r =>
      if is_digit c then let '(d, rest) := digits r in (String c d, rest)
      else (EmptyString, s)
  | EmptyString => (EmptyString, EmptyString)
  end.

(** The number at the head of [s]: an optional minus sign, an integer part
    (a single zero, or digits that do not start with zero), an optional
    fraction and an optional exponent; a dot or an [e] that no digit follows
    is left in the text. *)
Definition scan_number (s : string) : option (string * string) :=
  let '(sign, s1) :=
    match s with
    | String "-"%char r => ("-", r)
    | _ => ("", s)
    end in
  let int_part :=
    match s1 with
    | String "0"%char r => Some ("0", r)
    | _ => match digits s1 with
           | (EmptyString, _) => None
           | (d, r) => Some (d, r)
           end
    end in
  match int_part with
  | None => None
  | Some (i, s2) =>
      let '(frac, s3) :=
        match s2 with
        | String "."%char r =>
            match digits r with
            | (EmptyString, _) => ("", s2)
            | (d, r') => ("." +:+ d, r')
            end
        | _ => ("", s2)
        end in
      let '(ex, s4) :=
        match s3 with
        | String e r =>
            if (Py.code e =? 101) || (Py.code e =? 69) then
              let '(sg, r1) :=
                match r with
                | String "+"%char r1 => ("+", r1)
                | String "-"%char r1 => ("-", r1)
                | _ => ("", r)
                end in
              match digits r1 with
              | (EmptyString, _) => ("", s3)
              | (d, r2) => (String e (sg +:+ d), r2)
              end
            else ("", s3)
        | EmptyString => ("", s3)
        end in
      Some (sign +:+ i +:+ frac +:+ ex, s4)
  end.

Definition scan_literal (s : string) : option (json * string) :=
  if Py.startswith "null" s then Some (JNull, Py.drop 4 s)
  else if Py.startswith "true" s then Some (JBool true, Py.drop 4 s)
  else if Py.startswith "false" s then Some (JBool false, Py.drop 5 s)
  else match scan_number s with
       | Some (lexeme, r) => Some (JNum lexeme, r)
       | None =>
           if Py.startswith "NaN" s then Some (JNum "NaN", Py.drop 3 s)
           else if Py.startswith "Infinity" s then Some (JNum "Infinity", Py.drop 8 s)
           else if Py.startswith "-Infinity" s then Some (JNum "-Infinity", Py.drop 9 s)
           else None
       end.

(** The value at the head of [s] and the text after it. [fuel] bounds the
    nesting and the number of items; [loads] gives enough of it. *)
Fixpoint scan_once (fuel : nat) (s : string) : option (json * string) :=
  match fuel with
  | O => None
  | S f =>
      match s with
      | String "034"%char r =>
          match scanstring r with
          | Some (str, rest) => Some (JStr str, rest)
          | None => None
          end
      | String "{"%char r =>
          match skip_ws r with
          | String "}"%char rest => Some (JObj [], rest)
          | r1 => scan_members f r1 []
          end
      | String "["%char r =>
          match skip_ws r with
          | String "]"%char rest => Some (JArr [], rest)
          | r1 => scan_items f r1 []
          end
      | _ => scan_literal s
      end
  end
with scan_items (fuel : nat) (s : string) (acc : list json) : option (json * string) :=
  match fuel with
  | O => None
  | S f =>
      match scan_once f s with
      | None => None
      | Some (v, r) =>
          match skip_ws r with
          | String "]"%char rest => Some (JArr (rev (v :: acc)), rest)
          | String ","%char rest => scan_items f (skip_ws rest) (v :: acc)
          | _ => None
          end
      end
  end
with scan_members (fuel : nat) (s : string) (acc : list (string * json)) : option (json * string) :=
  match fuel with
  | O => None
  | S f =>
      match s with
      | String "034"%char r =>
          match scanstring r with
          | None => None
          | Some (k, r1) =>
              match skip_ws r1 with
              | String ":"%char r2 =>
                  match scan_once f (skip_ws r2) with
                  | None => None
                  | Some (v, r3) =>
                      match skip_ws r3 with
                      | String "}"%char rest => Some (JObj (rev ((k, v) :: acc)), rest)
                      | String ","%char rest => scan_members f (skip_ws rest) ((k, v) :: acc)
                      | _ => None
                      end
                  end
              | _ => None
              end
          end
      | _ => None
      end
  end.

(** [json.loads]: [None] stands for [JSONDecodeError]. *)
Definition loads (s : string) : option json :=
  match scan_once (S (String.length s)) (skip_ws s) with
  | Some (v, rest) =>
      match skip_ws rest with
      | EmptyString => Some v
      | _ => None
      end
  | None => None
  end.

(** [d.get(k)] on the dict built from the members: the last pair of a
    repeated key wins, a missing key gives [None]. *)
Fixpoint obj_get (k : string) (members : list (string * json)) : json :=
  match members with
  | [] => JNull
  | (k', v) :: r =>
      if String.eqb k' k && negb (existsb (fun kv => String.eqb (fst kv) k) r)
      then v else obj_get k r
  end.

(** Is the number written by [lexeme] zero? *)
Fixpoint lexeme_is_zero (lexeme : string) : bool :=
  match lexeme with
  | EmptyString => true
  | String c r =>
      let n := Py.code c in
      if (n =? 101) || (n =? 69) then true
      else if (49 <=? n) && (n <=? 57) then false
      else if (n =? 78) || (n =? 73) then false
      else lexeme_is_zero r
  end.

(** [bool(v)] for the Python value of [v]. *)
Definition truthy (v : json) : bool :=
  match v with
  | JNull => false
  | JBool b => b
  | JNum lexeme => negb (lexeme_is_zero lexeme)
  | JStr s => Py.truthy_str s
  | JArr items => match items with [] => false | _ => true end
  | JObj members => match members with [] => false | _ => true end
  end.

End Json.

(** The text of a cache entry: [json.dumps] of the value and its signature. *)
Definition signed_text (v sg : string) : string :=
  Json.dumps (Json.JObj [("value", Json.JStr v); ("signature", Json.JStr sg)]).

(** ** Tables (models.py and the CTFd tables the plugin reads) *)

(** A row of [solves] joined with its [submissions] row, which holds the
    date. *)
Record Solve := {
  s_id : Z;
  s_challenge_id : Z;
  s_user_id : option Z;
  s_team_id : option Z;
  s_date : option Z
}.

(** [FirstBloodPrestige]: [solve_id] and [challenge_id] are each UNIQUE. *)
Record FirstBloodPrestige := {
  fb_id : Z;
  fb_solve_id : Z;
  fb_challenge_id : Z;
  fb_user_id : option Z;
  fb_team_id : option Z;
  fb_prestige_score : Z;
  fb_timestamp : Z
}.

(** A row of [submissions], with the optional [user_agent] column. Rows
    written by CTFd always carry a user and the submitted text. *)
Record Submission := {
  sub_id : Z;
  sub_user_id : Z;
  sub_challenge_id : Z;
  sub_ip : option string;
  sub_user_agent : option string;
  sub_type : string;
  sub_provided : string;
  sub_date : Z
}.

(** [UserConsent]: one row per user ([user_id] is UNIQUE). *)
Record UserConsent := {
  uc_user_id : Z;
  uc_consented : bool;
  uc_consented_at : option Z;
  uc_withdrawn_at : option Z
}.

(** [FlagSharingSuspicion] *)
Record FlagSharingSuspicion := {
  fs_id : Z;
  fs_user_id_1 : Z;
  fs_user_id_2 : option Z;
  fs_challenge_id : Z;
  fs_detection_type : string;
  fs_confidence_score : float;
  fs_risk_level : string;
  fs_evidence : dict;
  fs_admin_verdict : option string;
  fs_reviewed_at : option Z;
  fs_reviewed_by : option Z;
  fs_created_at : Z
}.

(** [VerdictHistory] *)
Record VerdictHistory := {
  vh_id : Z;
  vh_suspicion_id : Z;
  vh_verdict : string;
  vh_reviewed_by : option Z;
  vh_admin_ip : option string;
  vh_notes : Json.json;
  vh_created_at : Z
}.

(** The tables the ORM session writes: the consent ledger, the findings and
    the audit trail, in insertion order. *)
Record tables := {
  consent : list UserConsent;
  suspicion : list FlagSharingSuspicion;
  verdict_history : list VerdictHistory
}.

(** ** The world outside the plugin's code

    [solves], [first_blood], [challenges] and [submissions] are what the
    statements of a connection see; [session] is the view of the ORM session
    with its uncommitted changes, [committed] what a rollback returns to;
    [cache] is the key-value cache; [now] the wall clock. [log] collects what
    is printed and [trace] names the operations performed, in order. *)

Inductive kind :=
| KCacheGet | KCacheSet | KCacheDelete
| KGetLock | KReleaseLock
| KSelectFirstBlood | KSelectEarlierSolve | KSelectChallengeValue | KInsertFirstBlood
| KUtcnow | KQuerySubmissions
| KBeginNested | KReleaseNested | KRollbackNested
| KConsentFirst | KAddConsent | KUpdateConsent
| KAddSuspicion | KSuspicionFirst | KUpdateSuspicion | KAddVerdict
| KCommit | KRollback.

Global Instance kind_eq_dec : EqDecision kind.
Proof. solve_decision. Defined.

Record world := {
  solves : list Solve;
  first_blood : list FirstBloodPrestige;
  challenges : gmap Z (option Z);
  submissions : list Submission;
  cache : gmap string string;
  session : tables;
  committed : tables;
  savepoints : list tables;
  now : Z;
  log : list string;
  trace : list kind
}.

Definition set_first_blood (v : list FirstBloodPrestige) (w : world) : world :=
  {| solves := solves w; first_blood := v; challenges := challenges w;
     submissions := submissions w; cache := cache w; session := session w;
     committed := committed w; savepoints := savepoints w; now := now w;
     log := log w; trace := trace w |}.

Definition set_cache (v : gmap string string) (w : world) : world :=
  {| solves := solves w; first_blood := first_blood w; challenges := challenges w;
     submissions := submissions w; cache := v; session := session w;
     committed := committed w; savepoints := savepoints w; now := now w;
     log := log w; trace := trace w |}.

Definition set_orm (s c : tables) (sp : list tables) (w : world) : world :=
  {| solves := solves w; first_blood := first_blood w; challenges := challenges w;
     submissions := submissions w; cache := cache w; session := s;
     committed := c; savepoints := sp; now := now w;
     log := log w; trace := trace w |}.

Definition set_session (s : tables) (w : world) : world :=
  set_orm s (committed w) (savepoints w) w.

Definition add_log (msg : string) (w : world) : world :=
  {| solves := solves w; first_blood := first_blood w; challenges := challenges w;
     submissions := submissions w; cache := cache w; session := session w;
     committed := committed w; savepoints := savepoints w; now := now w;
     log := log w ++ [msg]; trace := trace w |}.

Definition add_trace (k : kind) (w : world) : world :=
  {| solves := solves w; first_blood := first_blood w; challenges := challenges w;
     submissions := submissions w; cache := cache w; session := session w;
     committed := committed w; savepoints := savepoints w; now := now w;
     log := log w; trace := trace w ++ [k] |}.

(** The wall clock reads [d] microseconds more; less when [d] is negative,
    as after the clock was set back. *)
Definition tick (d : Z) (w : world) : world :=
  {| solves := solves w; first_blood := first_blood w; challenges := challenges w;
     submissions := submissions w; cache := cache w; session := session w;
     committed := committed w; savepoints := savepoints w; now := now w + d;
     log := log w; trace := trace w |}.

(** A transaction of the submission pipeline inserts a solve. *)
Definition insert_solve (s : Solve) (w : world) : world :=
  {| solves := solves w ++ [s]; first_blood := first_blood w; challenges := challenges w;
     submissions := submissions w; cache := cache w; session := session w;
     committed := committed w; savepoints := savepoints w; now := now w;
     log := log w; trace := trace w |}.

(** ** Operations on the world *)

Inductive op : Type -> Type :=
(* Flask-Caching *)
| CacheGet (key : string) : op (option string)
| CacheSet (key data : string) (timeout : option Z) : op unit
| CacheDelete (key : string) : op unit
(* statements of hooks.py on the connection *)
| GetLock (name : string) (timeout : Z) : op (option Z)
| ReleaseLock (name : string) : op unit
| SelectFirstBlood (challenge_id : Z) : op (option Z)
| SelectEarlierSolve (challenge_id : Z) (solve_timestamp : Z) (user_id : option Z)
    : op (option Solve)
| SelectChallengeValue (id : Z) : op (option (option Z))
| InsertFirstBlood (solve_id challenge_id : Z) (user_id team_id : option Z)
    (prestige timestamp : Z) : op unit
(* datetime.datetime.utcnow() *)
| Utcnow : op Z
(* the ORM session *)
| QuerySubmissions (cutoff : Z) (limit : nat) : op (list Submission)
| BeginNested : op unit
| ReleaseNested : op unit
| RollbackNested : op unit
| ConsentFirst (user_id : Z) (for_update : bool) : op (option UserConsent)
| AddConsent (row : UserConsent) : op unit
| UpdateConsent (row : UserConsent) : op unit
| AddSuspicion (row : FlagSharingSuspicion) : op FlagSharingSuspicion
| SuspicionFirst (id : Z) : op (option FlagSharingSuspicion)
| UpdateSuspicion (row : FlagSharingSuspicion) : op unit
| AddVerdict (row : VerdictHistory) : op VerdictHistory
| Commit : op unit
| Rollback : op unit.

Definition kind_of {X} (o : op X) : kind :=
  match o with
  | CacheGet _ => KCacheGet | CacheSet _ _ _ => KCacheSet | CacheDelete _ => KCacheDelete
  | GetLock _ _ => KGetLock | ReleaseLock _ => KReleaseLock
  | SelectFirstBlood _ => KSelectFirstBlood
  | SelectEarlierSolve _ _ _ => KSelectEarlierSolve
  | SelectChallengeValue _ => KSelectChallengeValue
  | InsertFirstBlood _ _ _ _ _ _ => KInsertFirstBlood
  | Utcnow => KUtcnow | QuerySubmissions _ _ => KQuerySubmissions
  | BeginNested => KBeginNested | ReleaseNested => KReleaseNested
  | RollbackNested => KRollbackNested
  | ConsentFirst _ _ => KConsentFirst | AddConsent _ => KAddConsent
  | UpdateConsent _ => KUpdateConsent | AddSuspicion _ => KAddSuspicion
  | SuspicionFirst _ => KSuspicionFirst | UpdateSuspicion _ => KUpdateSuspicion
  | AddVerdict _ => KAddVerdict | Commit => KCommit | Rollback => KRollback
  end.

(** What the environment decides about one operation: it goes through, it
    raises, or (for [GET_LOCK]) the server answers 1, 0 or NULL. A lock reply
    given to another operation counts as [Go]. *)
Inductive choice :=
| Go
| Fault (e : exn)
| LockReply (r : option Z).

(** SQL comparison of a nullable column with a nullable parameter: NULL
    compares as unknown, which selects no row. *)
Definition sql_lt (a b : option Z) : bool :=
  match a, b with Some x, Some y => x <? y | _, _ => false end.
Definition sql_eq (a b : option Z) : bool :=
  match a, b with Some x, Some y => x =? y | _, _ => false end.

(** The WHERE clause of the timestamp query of [on_solve_inserted]. *)
Definition earlier_solve (challenge_id solve_timestamp : Z) (user_id : option Z)
    (s : Solve) : bool :=
  (s_challenge_id s =? challenge_id) &&
  (sql_lt (s_date s) (Some solve_timestamp)
   || (sql_eq (s_date s) (Some solve_timestamp) && sql_lt (s_user_id s) user_id)).

(** ORDER BY date ASC, user_id ASC: is [a] before [b]? *)
Definition solve_before (a b : Solve) : bool :=
  sql_lt (s_date a) (s_date b)
  || (sql_eq (s_date a) (s_date b) && sql_lt (s_user_id a) (s_user_id b)).

(** The first row of [l] in that order (LIMIT 1). *)
Fixpoint first_by_date (l : list Solve) : option Solve :=
  match l with
  | [] => None
  | s :: r =>
      match first_by_date r with
      | Some m => if solve_before m s then Some m else Some s
      | None => Some s
      end
  end.

(** ORDER BY date DESC, by insertion. *)
Fixpoint insert_newest (s : Submission) (l : list Submission) : list Submission :=
  match l with
  | [] => [s]
  | x :: r => if sub_date x <? sub_date s then s :: l else x :: insert_newest s r
  end.

Definition newest_first (l : list Submission) : list Submission :=
  fold_right insert_newest [] l.

(** [UserConsent.query.filter_by(user_id=u).first()] *)
Definition consent_of (user_id : Z) (rows : list UserConsent) : option UserConsent :=
  head (List.filter (fun c => uc_user_id c =? user_id) rows).

(** AUTO_INCREMENT: one more than the largest id in use. *)
Definition next_id (ids : list Z) : Z := 1 + fold_right Z.max 0 ids.

Definition duplicate_entry : exn :=
  Exn IntegrityError "(1062, Duplicate entry for key 'challenge_id')".

(** The effect of an operation that goes through. *)
Definition perform {X} (o : op X) (w : world) : result X * world :=
  match o in op X return result X * world with
  | CacheGet key => (Ok (cache w !! key), w)
  | CacheSet key data _ => (Ok tt, set_cache (<[key := data]> (cache w)) w)
  | CacheDelete key => (Ok tt, set_cache (delete key (cache w)) w)
  | GetLock _ _ => (Ok (Some 1), w)
  | ReleaseLock _ => (Ok tt, w)
  | SelectFirstBlood c =>
      (Ok (fb_id <$> head (List.filter (fun r => fb_challenge_id r =? c) (first_blood w))), w)
  | SelectEarlierSolve c ts u =>
      (Ok (first_by_date (List.filter (earlier_solve c ts u) (solves w))), w)
  | SelectChallengeValue id => (Ok (challenges w !! id), w)
  | InsertFirstBlood solve_id c u t prestige ts =>
      if existsb (fun r => (fb_challenge_id r =? c) || (fb_solve_id r =? solve_id))
                 (first_blood w)
      then (Err duplicate_entry, w)
      else (Ok tt,
            set_first_blood
              (first_blood w ++
               [{| fb_id := next_id (map fb_id (first_blood w)); fb_solve_id := solve_id;
                   fb_challenge_id := c; fb_user_id := u; fb_team_id := t;
                   fb_prestige_score := prestige; fb_timestamp := ts |}]) w)
  | Utcnow => (Ok (now w), w)
  | QuerySubmissions cutoff limit =>
      (Ok (take limit (newest_first
                         (List.filter (fun s => cutoff <=? sub_date s) (submissions w)))), w)
  | BeginNested => (Ok tt, set_orm (session w) (committed w) (session w :: savepoints w) w)
  | ReleaseNested => (Ok tt, set_orm (session w) (committed w) (tail (savepoints w)) w)
  | RollbackNested =>
      (Ok tt, set_orm (default (session w) (head (savepoints w))) (committed w)
                      (tail (savepoints w)) w)
  | ConsentFirst u _ => (Ok (consent_of u (consent (session w))), w)
  | AddConsent row =>
      match consent_of (uc_user_id row) (consent (session w)) with
      | Some _ => (Err duplicate_entry, w)
      | None =>
          (Ok tt, set_session {| consent := consent (session w) ++ [row];
                                 suspicion := suspicion (session w);
                                 verdict_history := verdict_history (session w) |} w)
      end
  | UpdateConsent row =>
      (Ok tt, set_session {| consent :=
                               map (fun c => if uc_user_id c =? uc_user_id row then row else c)
                                   (consent (session w));
                             suspicion := suspicion (session w);
                             verdict_history := verdict_history (session w) |} w)
  | AddSuspicion row =>
      let row' :=
        {| fs_id := next_id (map fs_id (suspicion (session w)));
           fs_user_id_1 := fs_user_id_1 row; fs_user_id_2 := fs_user_id_2 row;
           fs_challenge_id := fs_challenge_id row; fs_detection_type := fs_detection_type row;
           fs_confidence_score := fs_confidence_score row; fs_risk_level := fs_risk_level row;
           fs_evidence := fs_evidence row; fs_admin_verdict := fs_admin_verdict row;
           fs_reviewed_at := fs_reviewed_at row; fs_reviewed_by := fs_reviewed_by row;
           fs_created_at := now w |} in
      (Ok row', set_session {| consent := consent (session w);
                               suspicion := suspicion (session w) ++ [row'];
                               verdict_history := verdict_history (session w) |} w)
  | SuspicionFirst id =>
      (Ok (head (List.filter (fun r => fs_id r =? id) (suspicion (session w)))), w)
  | UpdateSuspicion row =>
      (Ok tt, set_session {| consent := consent (session w);
                             suspicion := map (fun r => if fs_id r =? fs_id row then row else r)
                                              (suspicion (session w));
                             verdict_history := verdict_history (session w) |} w)
  | AddVerdict row =>
      let row' :=
        {| vh_id := next_id (map vh_id (verdict_history (session w)));
           vh_suspicion_id := vh_suspicion_id row; vh_verdict := vh_verdict row;
           vh_reviewed_by := vh_reviewed_by row; vh_admin_ip := vh_admin_ip row;
           vh_notes := vh_notes row; vh_created_at := now w |} in
      (Ok row', set_session {| consent := consent (session w);
                               suspicion := suspicion (session w);
                               verdict_history := verdict_history (session w) ++ [row'] |} w)
  | Commit => (Ok tt, set_orm (session w) (session w) [] w)
  | Rollback => (Ok tt, set_orm (committed w) (committed w) [] w)
  end.

(** One operation under the environment's choice. An operation that raises
    leaves the world as it was. *)
Definition exec {X} (o : op X) (ch : choice) (w : world) : result X * world :=
  let w1 := add_trace (kind_of o) w in
  match ch with
  | Fault e => (Err e, w1)
  | LockReply r =>
      match o in op X return result X * world with
      | GetLock _ _ => (Ok r, w1)
      | o' => perform o' w1
      end
  | Go => perform o w1
  end.

(** ** Programs *)

Inductive prog (A : Type) : Type :=
| Ret (a : A)
| Raise (e : exn)
| Log (msg : string) (p : prog A)
| Vis {X : Type} (o : op X) (k : result X -> prog A).
Arguments Ret {A} a.
Arguments Raise {A} e.
Arguments Log {A} msg p.
Arguments Vis {A X} o k.

Fixpoint bind {A B} (p : prog A) (f : A -> prog B) : prog B :=
  match p with
  | Ret a => f a
  | Raise e => Raise e
  | Log msg p' => Log msg (bind p' f)
  | Vis o k => Vis o (fun r => bind (k r) f)
  end.

(** [try: p except Exception as e: h e] *)
Fixpoint try_except {A} (p : prog A) (h : exn -> prog A) : prog A :=
  match p with
  | Ret a => Ret a
  | Raise e => h e
  | Log msg p' => Log msg (try_except p' h)
  | Vis o k => Vis o (fun r => try_except (k r) h)
  end.

(** An operation as a statement: its value, or the exception it raises. *)
Definition call {X} (o : op X) : prog X :=
  Vis o (fun r => match r with Ok x => Ret x | Err e => Raise e end).

(** [print(msg)] *)
Definition print (msg : string) : prog unit := Log msg (Ret tt).

(** A pure computation that may raise. *)
Definition lift {A} (r : result A) : prog A :=
  match r with Ok a => Ret a | Err e => Raise e end.

Notation "'let!' x := p 'in' q" := (bind p (fun x => q))
  (at level 10, x name, p at level 100, q at level 200).
Notation "p ;;; q" := (bind p (fun _ => q))
  (at level 100, right associativity).

(** Running a program: the environment's choices are taken from [chs], one
    for each operation, and [Go] once the list is used up. [exec_prog] also
    returns the choices left over. *)
Fixpoint exec_prog {A} (p : prog A) (chs : list choice) (w : world)
    : result A * world * list choice :=
  match p with
  | Ret a => (Ok a, w, chs)
  | Raise e => (Err e, w, chs)
  | Log msg p' => exec_prog p' chs (add_log msg w)
  | Vis o k =>
      let '(r, w') := exec o (hd Go chs) w in
      exec_prog (k r) (tl chs) w'
  end.

Definition run {A} (p : prog A) (chs : list choice) (w : world) : result A * world :=
  fst (exec_prog p chs w).

(** [try: p except (c1, c2, ...): h]: other exceptions pass through. *)
Definition try_except_of {A} (classes : list exn_class) (p : prog A) (h : exn -> prog A)
    : prog A :=
  try_except p (fun e =>
    if existsb (fun c => bool_decide (exn_cls e = c)) classes then h e else Raise e).

(** [str(e)] *)
Definition str_of_exn (e : exn) : string := exn_msg e.

(** ** config.py and the application's secrets *)

Inductive secret :=
| SecretStr (s : string)
| SecretBytes (b : list byte).

(** [Phase2Config] as read from the environment at import time, the
    [PHASE2_HMAC_SECRET] variable and the application's [SECRET_KEY]. *)
Record config := {
  FIRST_BLOOD_ENABLED : bool;
  SUSPICION_ENABLED : bool;
  SUSPICION_THRESHOLD : float;
  ANALYTICS_INTERVAL_SECONDS : Z;
  PHASE2_HMAC_SECRET : option string;
  SECRET_KEY : option secret
}.

Definition FIRST_BLOOD_REDIS_TTL : Z := 86400.
Definition WEIGHT_SAME_IP : float := 0.4.
Definition WEIGHT_DUPLICATE_WRONG : float := 0.3.
Definition WEIGHT_SIMILAR_UA : float := 0.2.
Definition WEIGHT_TEMPORAL_PROXIMITY : float := 0.1.
Definition TEMPORAL_WINDOW_SECONDS : Z := 60.
Definition UA_SIMILARITY_THRESHOLD : Q := 95 # 100.

(** The defaults of config.py, with no secret configured. *)
Definition default_config : config :=
  {| FIRST_BLOOD_ENABLED := true; SUSPICION_ENABLED := true;
     SUSPICION_THRESHOLD := 0.75; ANALYTICS_INTERVAL_SECONDS := 30;
     PHASE2_HMAC_SECRET := None; SECRET_KEY := None |}.

(** ** utils.py: scores *)

(** [calculate_prestige_score]. The product with 1.5 is exact in floating
    point for every value of an INTEGER column, so [int(value * 1.5)] is the
    quotient of [3 * value] by 2, truncated. *)
Definition calculate_prestige_score (challenge_value : option Z) : Z :=
  let challenge_value :=
    match challenge_value with
    | None => 100
    | Some v => if (v =? 0) || (v <=? 0) then 100 else v
    end in
  Z.quot (challenge_value * 3) 2.

(** [calculate_suspicion_confidence], in binary64 arithmetic. [min(score,
    1.0)] is [1.0] when [1.0 < score] and [score] otherwise. *)
Definition calculate_suspicion_confidence (patterns : list string) : float :=
  let score := 0%float in
  let score := if str_in "same_ip" patterns
               then PrimFloat.add score WEIGHT_SAME_IP else score in
  let score := if str_in "duplicate_wrong" patterns
               then PrimFloat.add score WEIGHT_DUPLICATE_WRONG else score in
  let score := if str_in "similar_ua" patterns
               then PrimFloat.add score WEIGHT_SIMILAR_UA else score in
  let score := if str_in "temporal_proximity" patterns
               then PrimFloat.add score WEIGHT_TEMPORAL_PROXIMITY else score in
  if PrimFloat.ltb 1 score then 1%float else score.

(** [determine_risk_level] *)
Definition determine_risk_level (confidence : float) : string :=
  if PrimFloat.leb 0.75 confidence then "HIGH"
  else if PrimFloat.leb 0.5 confidence then "MEDIUM"
  else "LOW".

(** One row of the edit-distance table: [left] is the entry to the left,
    [prev] the row above from the diagonal on. *)
Fixpoint levenshtein_row (c2 : ascii) (s1 : string) (prev : list Z) (left : Z) : list Z :=
  match s1, prev with
  | String c1 r, diag :: ((above :: _) as prev') =>
      let add := above + 1 in
      let delete := left + 1 in
      let change := if Ascii.eqb c1 c2 then diag else diag + 1 in
      let v := Z.min (Z.min add delete) change in
      v :: levenshtein_row c2 r prev' v
  | _, _ => []
  end.

Fixpoint levenshtein_rows (s1 s2 : string) (i : Z) (current_row : list Z) : list Z :=
  match s2 with
  | EmptyString => current_row
  | String c2 r =>
      levenshtein_rows s1 r (i + 1) (i :: levenshtein_row c2 s1 current_row i)
  end.

(** [levenshtein_ratio], as a rational. *)
Definition levenshtein_ratio (s1 s2 : string) : Q :=
  if negb (Py.truthy_str s1) || negb (Py.truthy_str s2) then 0%Q
  else
    let s1 := Py.lower s1 in
    let s2 := Py.lower s2 in
    if String.eqb s1 s2 then 1%Q
    else
      let '(s1, s2) :=
        if (String.length s2 <? String.length s1)%nat then (s2, s1) else (s1, s2) in
      let len1 := String.length s1 in
      let current_row :=
        levenshtein_rows s1 s2 1 (map Z.of_nat (seq 0 (S len1))) in
      let distance := nth len1 current_row 0 in
      let max_len := Z.of_nat (Nat.max (String.length s1) (String.length s2)) in
      if 0 <? max_len then (1 - Qmake distance (Z.to_pos max_len))%Q else 0%Q.

(** ** utils.py: the signed cache *)

Section SignedCache.

Context (cfg : config).

(** [get_hmac_secret] *)
Definition get_hmac_secret : list byte :=
  let secret :=
    match PHASE2_HMAC_SECRET cfg with
    | Some s => if Py.truthy_str s then Some (SecretStr s) else None
    | None => None
    end in
  let secret :=
    match secret with
    | Some s => s
    | None => default (SecretStr "default-insecure-key") (SECRET_KEY cfg)
    end in
  match secret with
  | SecretBytes b => b
  | SecretStr s => Py.encode_utf8 s
  end.

(** [sign_redis_value]: only a [str] has [encode]. *)
Definition sign_redis_value (value : Json.json) : result string :=
  match value with
  | Json.JStr s => Ok (SHA256.hmac_hexdigest get_hmac_secret (Py.encode_utf8 s))
  | _ => Err (Exn AttributeError "object has no attribute 'encode'")
  end.

Definition is_ascii (s : string) : bool :=
  forallb (fun c => Py.code c <? 128) (list_ascii_of_string s).

(** [hmac.compare_digest] on two values of which the first is a [str]: both
    must be ASCII strings. *)
Definition compare_digest (a : string) (b : Json.json) : result bool :=
  match b with
  | Json.JStr s =>
      if is_ascii a && is_ascii s then Ok (String.eqb a s)
      else Err (Exn TypeError "comparing strings with non-ASCII characters is not supported")
  | _ => Err (Exn TypeError "unsupported operand types")
  end.

(** [verify_redis_signature] *)
Definition verify_redis_signature (value signature : Json.json) : result bool :=
  if negb (Json.truthy signature) then Ok false
  else result_bind (sign_redis_value value) (fun expected_signature =>
       compare_digest expected_signature signature).

(** [set_signed_cache] *)
Definition set_signed_cache (key value : string) (timeout : option Z) : prog unit :=
  let! signature := lift (sign_redis_value (Json.JStr value)) in
  let signed_data := signed_text value signature in
  call (CacheSet key signed_data timeout).

(** [data.get(k)]: only a [dict] has [get]. *)
Definition py_get (data : Json.json) (k : string) : result Json.json :=
  match data with
  | Json.JObj members => Ok (Json.obj_get k members)
  | _ => Err (Exn AttributeError "object has no attribute 'get'")
  end.

Definition json_loads (s : string) : result Json.json :=
  match Json.loads s with
  | Some j => Ok j
  | None => Err (Exn JSONDecodeError "Expecting value")
  end.

(** What [get_signed_cache] does with the entry the cache returned: the
    [try] block and its handler. The value returned after a successful
    check is a [str]: [sign_redis_value] raised for anything else. *)
Definition check_signed_entry (key cached_data : string) : prog (option string) :=
  try_except_of [JSONDecodeError; KeyError; TypeError]
    (let! data := lift (json_loads cached_data) in
     let! value := lift (py_get data "value") in
     let! signature := lift (py_get data "signature") in
     let! valid := lift (verify_redis_signature value signature) in
     if valid then
       Ret (match value with Json.JStr s => Some s | _ => None end)
     else
       print ("[PHASE2 SECURITY WARNING] Invalid Redis signature for key: " +:+ key) ;;;
       call (CacheDelete key) ;;;
       Ret None)
    (fun _ =>
       print ("[PHASE2 SECURITY WARNING] Malformed Redis data for key: " +:+ key) ;;;
       call (CacheDelete key) ;;;
       Ret None).

(** [get_signed_cache] *)
Definition get_signed_cache (key : string) : prog (option string) :=
  let! cached_data := call (CacheGet key) in
  match cached_data with
  | None => Ret None
  | Some cached_data =>
      if negb (Py.truthy_str cached_data) then Ret None
      else check_signed_entry key cached_data
  end.

End SignedCache.

(** The cache entries [get_signed_cache] deals with: text that is not JSON
    (it is dropped), and an object whose signature is missing or empty (it
    is dropped), or whose value is a string (it is checked). For the others,
    JSON text that is not an object, and an object with a signature whose
    value is not a string, [data.get] or [value.encode] raises an
    [AttributeError] that no handler of [get_signed_cache] catches. *)
Definition readable_entry (cached_data : string) : bool :=
  match Json.loads cached_data with
  | None => true
  | Some (Json.JObj members) =>
      negb (Json.truthy (Json.obj_get "signature" members))
      || match Json.obj_get "value" members with
         | Json.JStr _ => true
         | _ => false
         end
  | Some _ => false
  end.

(** ** hooks.py: first blood *)

Section Hooks.

Context (cfg : config).

Definition redis_key_of (challenge_id : Z) : string :=
  "phase2:first_blood_claimed:" +:+ Py.str_of_int challenge_id.

Definition lock_name_of (challenge_id : Z) : string :=
  "phase2_first_blood_" +:+ Py.str_of_int challenge_id.

(** The test of the handler around the INSERT: does the message speak of a
    uniqueness violation? *)
Definition is_unique_violation (e : exn) : bool :=
  Py.contains "unique" (Py.lower (str_of_exn e))
  || Py.contains "duplicate" (Py.lower (str_of_exn e)).

(** STEP 1 of [on_solve_inserted]: the advisory lock. [false] stands for the
    [return] after a reply other than 1; an exception of the statement is
    caught and the hook goes on without the lock. *)
Definition acquire_lock (challenge_id : Z) : prog bool :=
  try_except
    (let! lock_result := call (GetLock (lock_name_of challenge_id) 10) in
     if negb (bool_decide (lock_result = Some 1)) then
       print "[PHASE2 FIRST BLOOD WARNING] Failed to acquire advisory lock (timeout or error)" ;;;
       Ret false
     else Ret true)
    (fun lock_error =>
       print ("[PHASE2 FIRST BLOOD INFO] Advisory locks not supported, relying on UNIQUE constraint: "
              +:+ str_of_exn lock_error) ;;;
       Ret true).

(** STEP 4 and the release of the lock. *)
Definition record_first_blood (redis_key : string) (target : Solve)
    (solve_timestamp prestige : Z) : prog unit :=
  try_except
    (call (InsertFirstBlood (s_id target) (s_challenge_id target) (s_user_id target)
             (s_team_id target) prestige solve_timestamp) ;;;
     set_signed_cache cfg redis_key "1" (Some FIRST_BLOOD_REDIS_TTL) ;;;
     print "[PHASE2 FIRST BLOOD] first blood recorded")
    (fun insert_error =>
       if is_unique_violation insert_error then
         print "[PHASE2 FIRST BLOOD INFO] Concurrent first blood detected, another transaction won" ;;;
         set_signed_cache cfg redis_key "1" (Some FIRST_BLOOD_REDIS_TTL)
       else Raise insert_error) ;;;
  try_except (call (ReleaseLock (lock_name_of (s_challenge_id target)))) (fun _ => Ret tt).

(** STEP 2 onwards: what the hook does once the lock step lets it go on. *)
Definition decide_first_blood (redis_key : string) (target : Solve) (solve_timestamp : Z)
    : prog unit :=
  let challenge_id := s_challenge_id target in
  let! existing_fb_record := call (SelectFirstBlood challenge_id) in
  match existing_fb_record with
  | Some _ => set_signed_cache cfg redis_key "1" (Some FIRST_BLOOD_REDIS_TTL)
  | None =>
      let! existing_earlier_solve :=
        call (SelectEarlierSolve challenge_id solve_timestamp (s_user_id target)) in
      match existing_earlier_solve with
      | Some _ => set_signed_cache cfg redis_key "1" (Some FIRST_BLOOD_REDIS_TTL)
      | None =>
          let! challenge := call (SelectChallengeValue challenge_id) in
          let challenge_value :=
            match challenge with
            | Some value => value
            | None => Some 100
            end in
          let prestige := calculate_prestige_score challenge_value in
          record_first_blood redis_key target solve_timestamp prestige
      end
  end.

(** The body of the outer [try] of [on_solve_inserted]. The cache hint is
    read and checked, and not looked at again. *)
Definition on_solve_inserted_body (target : Solve) : prog unit :=
  let challenge_id := s_challenge_id target in
  let! solve_timestamp :=
    match s_date target with
    | Some d => Ret d
    | None => call Utcnow
    end in
  let redis_key := redis_key_of challenge_id in
  let! cached_hint := get_signed_cache cfg redis_key in
  let! locked := acquire_lock challenge_id in
  if negb locked then Ret tt
  else decide_first_blood redis_key target solve_timestamp.

(** [on_solve_inserted] *)
Definition on_solve_inserted (target : Solve) : prog unit :=
  if negb (FIRST_BLOOD_ENABLED cfg) then Ret tt
  else
    try_except (on_solve_inserted_body target)
      (fun e =>
         print ("[PHASE2 FIRST BLOOD ERROR] Failed to record first blood: " +:+ str_of_exn e) ;;;
         print "Traceback (most recent call last)").

(** ** Transactions running side by side

    Every statement is atomic; the hooks of several transactions take turns
    in any order. An [action] is one turn: a flush inserts a solve (its id
    is the primary key, so an id in use inserts nothing); the [after_insert]
    hook of an inserted solve starts; or the hook at position
    [i] performs its next operation under the environment's choice (or
    prints its next line). The advisory lock only removes interleavings, so
    what holds for all of them holds with the lock as well. *)

Inductive action :=
| Insert (s : Solve)
| Start (s : Solve)
| Step (i : nat) (ch : choice).

Definition pool := list (Solve * prog unit).

Definition solve_eqb (a b : Solve) : bool :=
  (s_id a =? s_id b) && (s_challenge_id a =? s_challenge_id b)
  && bool_decide (s_user_id a = s_user_id b) && bool_decide (s_team_id a = s_team_id b)
  && bool_decide (s_date a = s_date b).

Definition step1 (a : action) (st : world * pool) : world * pool :=
  let '(w, ts) := st in
  match a with
  | Insert s =>
      if existsb (fun x => s_id x =? s_id s) (solves w) then st
      else (insert_solve s w, ts)
  | Start s =>
      if existsb (solve_eqb s) (solves w)
      then (w, (ts ++ [(s, on_solve_inserted s)])%list)
      else st
  | Step i ch =>
      match ts !! i with
      | Some (s, Vis o k) =>
          let '(r, w') := exec o ch w in (w', <[i := (s, k r)]> ts)
      | Some (s, Log msg p) => (add_log msg w, <[i := (s, p)]> ts)
      | _ => st
      end
  end.

Definition interleave (acts : list action) (st : world * pool) : world * pool :=
  fold_left (fun st a => step1 a st) acts st.

(** A choice that lets the hook decide: the operation goes through and the
    lock is granted, or the lock statements are not supported. *)
Definition benign {X} (o : op X) (ch : choice) : bool :=
  match ch with
  | Go => true
  | LockReply r => match o with GetLock _ _ => bool_decide (r = Some 1) | _ => true end
  | Fault _ => match o with GetLock _ _ | ReleaseLock _ => true | _ => false end
  end.

Definition benign_action (a : action) (st : world * pool) : bool :=
  match a with
  | Step i ch =>
      match snd st !! i with
      | Some (_, Vis o _) => benign o ch
      | _ => true
      end
  | _ => true
  end.

Fixpoint benign_schedule (acts : list action) (st : world * pool) : bool :=
  match acts with
  | [] => true
  | a :: r => benign_action a st && benign_schedule r (step1 a st)
  end.




(** A solve is inserted and its hook runs to the end, each operation going
    through: the turns of one request handled alone. *)
Definition submit (s : Solve) (i : nat) : list action :=
  Insert s :: Start s :: repeat (Step i Go) 16.


(** *** Reasoning about hooks that take turns

    [wp R G ok p Q w]: started in [w], with the other transactions changing
    the world along [R] between any two operations, [p] only performs
    operations that [G] allows and ends in a result and a world that satisfy
    [Q]. The flag tells [Q] whether every choice so far was [benign]. *)

Section Logic.

Context (R : world -> world -> Prop) (G : forall X, op X -> world -> Prop).

Fixpoint wp {A} (ok : bool) (p : prog A) (Q : bool -> result A -> world -> Prop)
    (w : world) : Prop :=
  match p with
  | Ret a => Q ok (Ok a) w
  | Raise e => Q ok (Err e) w
  | Log msg p' => forall w1, R w w1 -> wp ok p' Q (add_log msg w1)
  | Vis o k =>
      forall w1 ch, R w w1 ->
        G _ o w1 /\
        wp (ok && benign o ch) (k (fst (exec o ch w1))) Q (snd (exec o ch w1))
  end.

End Logic.

(** The text [set_signed_cache] stores for the value ['1']. *)
Definition hint_text : string :=
  signed_text "1" (SHA256.hmac_hexdigest (get_hmac_secret cfg) (Py.encode_utf8 "1")).

(** No cache entry is one on which [get_signed_cache] raises. *)
Definition cache_readable (w : world) : Prop :=
  forall k t, cache w !! k = Some t -> readable_entry t = true.

(** [solves.id] is a primary key, and a first-blood row refers to a solve of
    its challenge. *)
Definition store_ok (w : world) : Prop :=
  NoDup (map s_id (solves w)) /\
  forall r, r ∈ first_blood w ->
    exists s, s ∈ solves w /\ s_id s = fb_solve_id r /\ s_challenge_id s = fb_challenge_id r.

(** What the transactions do to the world between two operations of a hook:
    rows are added and none is changed or removed. With [sound], the world
    also stays well formed. *)
Definition grows (sound : bool) (w w1 : world) : Prop :=
  solves w ⊆ solves w1 /\
  first_blood w ⊆ first_blood w1 /\
  challenges w1 = challenges w /\
  (sound = true -> cache_readable w1 /\ store_ok w1).

(** The operations the hook of [target] may perform. [known] are solves
    that were in the table when the hook started. *)
Definition hook_op (known : list Solve) (target : Solve) (X : Type) (o : op X) (w : world)
    : Prop :=
  match o with
  | CacheSet _ data _ => data = hint_text
  | InsertFirstBlood solve_id challenge_id user_id team_id prestige timestamp =>
      solve_id = s_id target /\ challenge_id = s_challenge_id target /\
      user_id = s_user_id target /\ team_id = s_team_id target /\
      prestige = calculate_prestige_score (default (Some 100) (challenges w !! challenge_id)) /\
      (forall d, s_date target = Some d -> timestamp = d) /\
      (forall s, s ∈ known -> earlier_solve challenge_id timestamp user_id s = false)
  | CacheGet _ | CacheDelete _ | GetLock _ _ | ReleaseLock _
  | SelectFirstBlood _ | SelectEarlierSolve _ _ _ | SelectChallengeValue _ | Utcnow => True
  | _ => False
  end.

(** The operations a hook may perform at any time: everything but the
    INSERT, whose values depend on what the hook has read. *)
Definition quiet_op (X : Type) (o : op X) : Prop :=
  match o with
  | CacheSet _ data _ => data = hint_text
  | CacheGet _ | CacheDelete _ | GetLock _ _ | ReleaseLock _
  | SelectFirstBlood _ | SelectEarlierSolve _ _ _ | SelectChallengeValue _ | Utcnow => True
  | _ => False
  end.

(** What [target] has to show for its hook when it returns: a first-blood
    row of the challenge, or a solve that comes before it. *)
Definition decided (target : Solve) (w : world) : Prop :=
  (exists r, r ∈ first_blood w /\ fb_challenge_id r = s_challenge_id target) \/
  (exists s ts, s ∈ solves w /\ (forall d, s_date target = Some d -> ts = d) /\
                earlier_solve (s_challenge_id target) ts (s_user_id target) s = true).

(** What a hook knows about the table at any time after it started. *)
Definition hook_facts (sound : bool) (known : list Solve) (target : Solve) (w : world)
    : Prop :=
  target ∈ solves w /\ known ⊆ solves w /\ (sound = true -> cache_readable w /\ store_ok w).

(** What the hooks of a pool know about the table. *)
Definition world_ok (sound : bool) (known : list Solve) (w : world) : Prop :=
  known ⊆ solves w /\ (sound = true -> cache_readable w /\ store_ok w).

Definition hook_post (sound : bool) (target : Solve) (ok : bool) (r : result unit)
    (w : world) : Prop :=
  r = Ok tt /\ (sound = true -> ok = true -> decided target w).

(** A started hook: its solve is in the table and, from here on, it only
    performs the operations allowed to it and returns. [B] says that the
    schedule was benign so far. *)
Definition thread_ok (sound : bool) (known : list Solve) (B : bool) (w : world)
    (th : Solve * prog unit) : Prop :=
  fst th ∈ solves w /\
  exists ok, (B = true -> ok = true) /\
    wp (grows sound) (hook_op known (fst th)) ok (snd th) (hook_post sound (fst th)) w.

Definition pool_ok (sound : bool) (known : list Solve) (B : bool) (st : world * pool)
    : Prop :=
  world_ok sound known (fst st) /\ Forall (thread_ok sound known B (fst st)) (snd st).


(** The row the hook of [m] inserts. *)
Definition records_solve (m : Solve) (r : FirstBloodPrestige) : Prop :=
  fb_solve_id r = s_id m /\ fb_challenge_id r = s_challenge_id m /\
  fb_user_id r = s_user_id m /\ fb_team_id r = s_team_id m /\
  forall d, s_date m = Some d -> fb_timestamp r = d.




(** Every row added since [w0] has the prestige score computed from the
    value of its challenge. *)
Definition prestige_inv (w0 w : world) : Prop :=
  challenges w = challenges w0 /\
  forall r, r ∈ first_blood w ->
    r ∈ first_blood w0 \/
    fb_prestige_score r
      = calculate_prestige_score (default (Some 100) (challenges w0 !! fb_challenge_id r)).




(** The solves a schedule may insert. *)
Definition allowed_action (allowed : Solve -> Prop) (a : action) : Prop :=
  match a with Insert s => allowed s | _ => True end.

End Hooks.

(** A program none of whose paths ends in an exception, whatever the world
    replies. *)
Inductive never_raises {A} : prog A -> Prop :=
| never_raises_ret a : never_raises (Ret a)
| never_raises_log msg p : never_raises p -> never_raises (Log msg p)
| never_raises_vis X (o : op X) k :
    (forall r, never_raises (k r)) -> never_raises (Vis o k).

(** A program all of whose operations satisfy [P]. *)
Inductive only_ops {A} (P : forall X, op X -> Prop) : prog A -> Prop :=
| only_ops_ret a : only_ops P (Ret a)
| only_ops_raise e : only_ops P (Raise e)
| only_ops_log msg p : only_ops P p -> only_ops P (Log msg p)
| only_ops_vis X (o : op X) k :
    P X o -> (forall r, only_ops P (k r)) -> only_ops P (Vis o k).

(** ** models.py: the consent ledger *)

(** The test [consent and consent.consented] on the row a query returned. *)
Definition consented (consent : option UserConsent) : bool :=
  match consent with Some c => uc_consented c | None => false end.

(** [UserConsent.has_consent] *)
Definition has_consent (user_id : Z) : prog bool :=
  let! consent := call (ConsentFirst user_id false) in
  Ret (consented consent).

(** [UserConsent.grant_consent] *)
Definition grant_consent (user_id : Z) : prog unit :=
  let! consent := call (ConsentFirst user_id false) in
  match consent with
  | None =>
      let! now := call Utcnow in
      call (AddConsent {| uc_user_id := user_id; uc_consented := true;
                          uc_consented_at := Some now; uc_withdrawn_at := None |})
  | Some c =>
      let! now := call Utcnow in
      call (UpdateConsent {| uc_user_id := uc_user_id c; uc_consented := true;
                             uc_consented_at := Some now; uc_withdrawn_at := None |})
  end ;;;
  call Commit ;;;
  print "[PHASE2 GDPR] User granted consent".

(** [UserConsent.withdraw_consent] *)
Definition withdraw_consent (user_id : Z) : prog unit :=
  let! consent := call (ConsentFirst user_id false) in
  match consent with
  | None =>
      let! now := call Utcnow in
      call (AddConsent {| uc_user_id := user_id; uc_consented := false;
                          uc_consented_at := None; uc_withdrawn_at := Some now |})
  | Some c =>
      let! now := call Utcnow in
      call (UpdateConsent {| uc_user_id := uc_user_id c; uc_consented := false;
                             uc_consented_at := uc_consented_at c;
                             uc_withdrawn_at := Some now |})
  end ;;;
  call Commit ;;;
  print "[PHASE2 GDPR] User withdrew consent - data will be deleted in 30 days".

(** Does the session see an active consent of the user? *)
Definition active_consent (w : world) (user_id : Z) : bool :=
  consented (consent_of user_id (consent (session w))).

(** ** models.py: the verdict audit trail *)

(** What the driver can bind to the [Text] column [notes]: [None] and a
    string as they are, a number or a boolean as its literal; a dict or a
    list is no parameter of a statement, and the flush of the INSERT
    raises. *)
Definition bindable (notes : Json.json) : bool :=
  match notes with
  | Json.JObj _ | Json.JArr _ => false
  | _ => true
  end.

Definition unbindable_notes : exn :=
  Exn StatementError "(builtins.TypeError) dict or list can not be used as parameter".

(** [VerdictHistory.record_verdict]. The id and [created_at] are column
    defaults, filled in when the row is written. [notes] is whatever the
    caller passes: the commit flushes the INSERT, which raises before
    anything is committed when [notes] cannot be bound, and the entry stays
    pending in the session until it is rolled back. *)
Definition record_verdict (suspicion_id : Z) (verdict : string) (admin_id : Z)
    (admin_ip : option string) (notes : Json.json) : prog VerdictHistory :=
  let! entry := call (AddVerdict {| vh_id := 0; vh_suspicion_id := suspicion_id;
                                    vh_verdict := verdict; vh_reviewed_by := Some admin_id;
                                    vh_admin_ip := admin_ip; vh_notes := notes;
                                    vh_created_at := 0 |}) in
  (if bindable notes then call Commit else Raise unbindable_notes) ;;;
  print "[PHASE2 AUDIT TRAIL] Verdict recorded" ;;;
  Ret entry.

(** ORDER BY created_at ASC, by insertion. *)
Fixpoint insert_oldest (e : VerdictHistory) (l : list VerdictHistory) : list VerdictHistory :=
  match l with
  | [] => [e]
  | x :: r => if vh_created_at e <? vh_created_at x then e :: l else x :: insert_oldest e r
  end.

Definition oldest_first (l : list VerdictHistory) : list VerdictHistory :=
  fold_right insert_oldest [] l.

(** [VerdictHistory.get_history], read from the tables the session sees. *)
Definition get_history (suspicion_id : Z) (limit : nat) (t : tables) : list VerdictHistory :=
  take limit
    (oldest_first (List.filter (fun e => vh_suspicion_id e =? suspicion_id) (verdict_history t))).

(** ** detection.py *)

(** A pattern dict of the detection passes. *)
Record Pattern := {
  p_user_id_1 : Z;
  p_user_id_2 : option Z;
  p_challenge_id : Z;
  p_detection_type : string;
  p_confidence : float;
  p_evidence : dict
}.

(** [defaultdict(list)] filled by [groups[k].append(v)]: the groups in the
    order their keys were first seen. *)
Fixpoint group_add {K V} (eqb : K -> K -> bool) (k : K) (v : V) (groups : list (K * list V))
    : list (K * list V) :=
  match groups with
  | [] => [(k, [v])]
  | (k', vs) :: r =>
      if eqb k' k then (k', (vs ++ [v])%list) :: r else (k', vs) :: group_add eqb k v r
  end.

(** The pairs [(l[i], l[j])] with [i < j], in the order of the two loops. *)
Fixpoint pairs {A} (l : list A) : list (A * A) :=
  match l with
  | [] => []
  | x :: r => (map (pair x) r ++ pairs r)%list
  end.

(** [abs((sub2.date - sub1.date).total_seconds())], as a rational. *)
Definition time_delta (sub1 sub2 : Submission) : Q :=
  Qmake (Z.abs (sub_date sub2 - sub_date sub1)) 1000000.

Definition within_window (delta : Q) : bool :=
  Qle_bool delta (inject_Z TEMPORAL_WINDOW_SECONDS).

(** An address column as a value of an evidence dict. *)
Definition ip_value (ip : option string) : value :=
  match ip with Some s => VStr s | None => VNone end.

(** [detect_same_ip_pattern] *)
Definition detect_same_ip_pattern (submissions : list Submission) : list Pattern :=
  let ip_groups :=
    fold_left (fun groups sub =>
                 match sub_ip sub with
                 | Some ip => if Py.truthy_str ip then group_add String.eqb ip sub groups
                              else groups
                 | None => groups
                 end) submissions [] in
  flat_map (fun '(ip, subs) =>
    if (length subs <? 2)%nat then []
    else
      flat_map (fun '(sub1, sub2) =>
        if sub_user_id sub1 =? sub_user_id sub2 then []
        else if within_window (time_delta sub1 sub2) then
          [{| p_user_id_1 := sub_user_id sub1;
              p_user_id_2 := Some (sub_user_id sub2);
              p_challenge_id := sub_challenge_id sub1;
              p_detection_type := "same_ip";
              p_confidence := calculate_suspicion_confidence ["same_ip"; "temporal_proximity"];
              p_evidence :=
                [("ip", VStr ip);
                 ("time_delta_seconds", VFloat (time_delta sub1 sub2));
                 ("submission_1_id", VInt (sub_id sub1));
                 ("submission_2_id", VInt (sub_id sub2));
                 ("submission_1_text", VStr (Py.take 100 (sub_provided sub1)));
                 ("submission_2_text", VStr (Py.take 100 (sub_provided sub2)))]
           |}]
        else []) (pairs subs)) ip_groups.

(** [detect_duplicate_wrong_pattern] *)
Definition detect_duplicate_wrong_pattern (submissions : list Submission) : list Pattern :=
  let wrong_submissions :=
    List.filter (fun s => negb (String.eqb (sub_type s) "correct")) submissions in
  if (length wrong_submissions <? 2)%nat then []
  else
    let text_groups :=
      fold_left (fun groups sub =>
                   if Py.truthy_str (sub_provided sub) then
                     group_add String.eqb (Py.lower (Py.strip (sub_provided sub))) sub groups
                   else groups) wrong_submissions [] in
    flat_map (fun '(text, subs) =>
      if (length subs <? 2)%nat then []
      else
        flat_map (fun '(sub1, sub2) =>
          if sub_user_id sub1 =? sub_user_id sub2 then []
          else
            let delta := time_delta sub1 sub2 in
            let detected_patterns :=
              if within_window delta then ["duplicate_wrong"; "temporal_proximity"]
              else ["duplicate_wrong"] in
            [{| p_user_id_1 := sub_user_id sub1;
                p_user_id_2 := Some (sub_user_id sub2);
                p_challenge_id := sub_challenge_id sub1;
                p_detection_type := "duplicate_wrong";
                p_confidence := calculate_suspicion_confidence detected_patterns;
                p_evidence :=
                  [("submission_text", VStr (Py.take 200 text));
                   ("time_delta_seconds", VFloat delta);
                   ("submission_1_id", VInt (sub_id sub1));
                   ("submission_2_id", VInt (sub_id sub2));
                   ("ip_1", ip_value (sub_ip sub1));
                   ("ip_2", ip_value (sub_ip sub2))]
             |}]) (pairs subs)) text_groups.

(** [detect_similar_ua_pattern] *)
Definition detect_similar_ua_pattern (submissions : list Submission) : list Pattern :=
  let ua_submissions :=
    List.filter (fun s => Py.truthy_str (default "" (sub_user_agent s))) submissions in
  if (length ua_submissions <? 2)%nat then []
  else
    flat_map (fun '(sub1, sub2) =>
      if sub_user_id sub1 =? sub_user_id sub2 then []
      else
        let user_agent_1 := default "" (sub_user_agent sub1) in
        let user_agent_2 := default "" (sub_user_agent sub2) in
        let similarity := levenshtein_ratio user_agent_1 user_agent_2 in
        if Qle_bool UA_SIMILARITY_THRESHOLD similarity then
          let delta := time_delta sub1 sub2 in
          let detected_patterns := ["similar_ua"] in
          let detected_patterns :=
            if within_window delta then (detected_patterns ++ ["temporal_proximity"])%list
            else detected_patterns in
          let detected_patterns :=
            if bool_decide (sub_ip sub1 = sub_ip sub2) then (detected_patterns ++ ["same_ip"])%list
            else detected_patterns in
          [{| p_user_id_1 := sub_user_id sub1;
              p_user_id_2 := Some (sub_user_id sub2);
              p_challenge_id := sub_challenge_id sub1;
              p_detection_type := "similar_ua";
              p_confidence := calculate_suspicion_confidence detected_patterns;
              p_evidence :=
                [("ua_similarity", VFloat similarity);
                 ("user_agent_1", VStr (Py.take 200 user_agent_1));
                 ("user_agent_2", VStr (Py.take 200 user_agent_2));
                 ("time_delta_seconds", VFloat delta);
                 ("submission_1_id", VInt (sub_id sub1));
                 ("submission_2_id", VInt (sub_id sub2));
                 ("ip_1", ip_value (sub_ip sub1));
                 ("ip_2", ip_value (sub_ip sub2))]
           |}]
        else []) (pairs ua_submissions).

(** [with db.session.begin_nested(): body]. The savepoint is released when
    the body ends or returns; when the body or the release raises, the
    session rolls back to the savepoint and the exception goes on to the
    caller. *)
Definition with_nested {A} (body : prog A) : prog A :=
  call BeginNested ;;;
  let! r := try_except body (fun e => call RollbackNested ;;; Raise e) in
  try_except (call ReleaseNested) (fun e => call RollbackNested ;;; Raise e) ;;;
  Ret r.

(** [if user_id_2:] *)
Definition truthy_id (user_id : option Z) : bool :=
  match user_id with Some u => negb (u =? 0) | None => false end.

(** [create_suspicion_record] *)
Definition create_suspicion_record (pattern : Pattern) : prog (option FlagSharingSuspicion) :=
  let user_id_1 := p_user_id_1 pattern in
  let user_id_2 := p_user_id_2 pattern in
  try_except
    (let! created :=
       with_nested
         (let! consent_1 := call (ConsentFirst user_id_1 true) in
          if negb (consented consent_1) then
            print "[PHASE2 GDPR] Skipping suspicion for user - no consent" ;;;
            Ret None
          else
            let! refused :=
              if truthy_id user_id_2 then
                let! consent_2 := call (ConsentFirst (default 0 user_id_2) true) in
                if negb (consented consent_2) then
                  print "[PHASE2 GDPR] Skipping suspicion for user - no consent" ;;;
                  Ret true
                else Ret false
              else Ret false in
            if refused : bool then Ret None
            else
              let confidence := p_confidence pattern in
              let risk_level := determine_risk_level confidence in
              let raw_evidence := p_evidence pattern in
              let! sanitized_evidence := lift (sanitize_evidence raw_evidence) in
              let! suspicion :=
                call (AddSuspicion
                        {| fs_id := 0; fs_user_id_1 := user_id_1; fs_user_id_2 := user_id_2;
                           fs_challenge_id := p_challenge_id pattern;
                           fs_detection_type := p_detection_type pattern;
                           fs_confidence_score := confidence; fs_risk_level := risk_level;
                           fs_evidence := sanitized_evidence; fs_admin_verdict := None;
                           fs_reviewed_at := None; fs_reviewed_by := None;
                           fs_created_at := 0 |}) in
              Ret (Some suspicion)) in
     match created with
     | None => Ret None
     | Some suspicion =>
         call Commit ;;;
         print "[PHASE2 ANALYTICS] Created suspicion [GDPR compliant: ATOMIC consent check + sanitized evidence]" ;;;
         Ret (Some suspicion)
     end)
    (fun e =>
       call Rollback ;;;
       print ("[PHASE2 GDPR ERROR] Failed to create suspicion (consent may have been withdrawn): "
              +:+ str_of_exn e) ;;;
       Ret None).

Definition MAX_SUBMISSIONS : nat := 5000.

Section Detection.

Context (cfg : config).

(** The loop over [patterns_found]. The counter goes up whenever
    [create_suspicion_record] returns, whatever it returns. *)
Fixpoint create_records (patterns_found : list Pattern) (suspicions_created : Z) : prog Z :=
  match patterns_found with
  | [] => Ret suspicions_created
  | pattern :: rest =>
      if PrimFloat.leb (SUSPICION_THRESHOLD cfg) (p_confidence pattern) then
        let! n :=
          try_except
            (create_suspicion_record pattern ;;; Ret (suspicions_created + 1))
            (fun e =>
               print ("[PHASE2 ANALYTICS ERROR] Failed to create suspicion: " +:+ str_of_exn e) ;;;
               Ret suspicions_created) in
        create_records rest n
      else create_records rest suspicions_created
  end.

Definition patterns_of (submissions : list Submission) : list Pattern :=
  (detect_same_ip_pattern submissions ++ detect_duplicate_wrong_pattern submissions
   ++ detect_similar_ua_pattern submissions)%list.

(** The loop over [submissions_by_challenge]. *)
Fixpoint analyze_challenges (groups : list (Z * list Submission)) (suspicions_created : Z)
    : prog Z :=
  match groups with
  | [] => Ret suspicions_created
  | (_, submissions) :: rest =>
      if (length submissions <? 2)%nat then analyze_challenges rest suspicions_created
      else
        let! n := create_records (patterns_of submissions) suspicions_created in
        analyze_challenges rest n
  end.

(** [detect_flag_sharing_patterns] *)
Definition detect_flag_sharing_patterns : prog Z :=
  if negb (SUSPICION_ENABLED cfg) then Ret 0
  else
    print "[PHASE2 ANALYTICS] Running flag sharing pattern detection..." ;;;
    let window_seconds := ANALYTICS_INTERVAL_SECONDS cfg * 2 in
    let! now := call Utcnow in
    let cutoff_time := now - window_seconds * 1000000 in
    let! fetched :=
      try_except
        (let! recent_submissions := call (QuerySubmissions cutoff_time MAX_SUBMISSIONS) in
         (if (MAX_SUBMISSIONS <=? length recent_submissions)%nat then
            print "[PHASE2 ANALYTICS WARNING] Hit MAX_SUBMISSIONS limit. Possible DoS or high traffic event. Analyzing most recent submissions only."
          else Ret tt) ;;;
         print "[PHASE2 ANALYTICS] Analyzing recent submissions" ;;;
         Ret (Some recent_submissions))
        (fun e =>
           print ("[PHASE2 ANALYTICS ERROR] Failed to fetch submissions: " +:+ str_of_exn e) ;;;
           Ret None) in
    match fetched with
    | None => Ret 0
    | Some recent_submissions =>
        let submissions_by_challenge :=
          fold_left (fun groups sub => group_add Z.eqb (sub_challenge_id sub) sub groups)
                    recent_submissions [] in
        let! suspicions_created := analyze_challenges submissions_by_challenge 0 in
        print "[PHASE2 ANALYTICS] Created suspicion records" ;;;
        Ret suspicions_created
    end.

(** ** api.py: the review of a finding *)

Definition valid_verdicts : list string := ["innocent"; "suspicious"; "confirmed"].

(** [verdict not in valid_verdicts], for the value the body holds. *)
Definition valid_verdict (verdict : Json.json) : option string :=
  match verdict with
  | Json.JStr s => if str_in s valid_verdicts then Some s else None
  | _ => None
  end.

(** The three assignments to [suspicion.admin_verdict], [reviewed_at] and
    [reviewed_by]. *)
Definition reviewed (suspicion : FlagSharingSuspicion) (verdict : string) (reviewed_at : Z)
    (admin_id : Z) : FlagSharingSuspicion :=
  {| fs_id := fs_id suspicion;
     fs_user_id_1 := fs_user_id_1 suspicion;
     fs_user_id_2 := fs_user_id_2 suspicion;
     fs_challenge_id := fs_challenge_id suspicion;
     fs_detection_type := fs_detection_type suspicion;
     fs_confidence_score := fs_confidence_score suspicion;
     fs_risk_level := fs_risk_level suspicion;
     fs_evidence := fs_evidence suspicion;
     fs_admin_verdict := Some verdict;
     fs_reviewed_at := Some reviewed_at;
     fs_reviewed_by := Some admin_id;
     fs_created_at := fs_created_at suspicion |}.

(** [SuspiciousActivityReview.put]: the status of the response. [data] is
    what [request.get_json()] returned, [admin_id] and [admin_ip] are the
    id of the current user and [request.remote_addr]. *)
Definition put (suspicion_id : Z) (data : Json.json) (admin_id : Z)
    (admin_ip : option string) : prog Z :=
  if negb (SUSPICION_ENABLED cfg) then Ret 404
  else
    try_except
      (let! verdict := lift (py_get data "verdict") in
       let! notes := lift (py_get data "notes") in
       match valid_verdict verdict with
       | None => Ret 400
       | Some verdict =>
           let! suspicion := call (SuspicionFirst suspicion_id) in
           match suspicion with
           | None => Ret 404
           | Some suspicion =>
               let! audit_entry :=
                 record_verdict suspicion_id verdict admin_id admin_ip notes in
               let! reviewed_at := call Utcnow in
               call (UpdateSuspicion (reviewed suspicion verdict reviewed_at admin_id)) ;;;
               call Commit ;;;
               print "[PHASE2 AUDIT] Suspicion reviewed" ;;;
               Ret 200
           end
       end)
      (fun e =>
         call Rollback ;;;
         print ("[PHASE2 API ERROR] review suspicion failed: " +:+ str_of_exn e) ;;;
         Ret 500).

End Detection.

(** *** What the specification lets stored evidence hold *)

Definition browsers : list string :=
  ["Chrome"; "Firefox"; "Safari"; "Edge"; "Opera"; "Internet Explorer"; "Unknown Browser"].

Definition operating_systems : list string :=
  ["Windows"; "macOS"; "Linux"; "Android"; "iOS"; "Unknown OS"].

(** The generalized browser-on-OS forms: [Unknown] and the 42 pairs of a
    browser family and an operating system family. *)
Definition generalized_forms : list string :=
  "Unknown" :: flat_map (fun b => map (fun o => b +:+ " on " +:+ o) operating_systems) browsers.

(** A string of sanitized evidence, in the words of the specification:
    nothing, the redaction marker, a one-way hash (the first 16 hex digits
    of the SHA-256 of some string), or a generalized browser-on-OS form.
    This is stated without reference to [sanitize_evidence]. *)
Definition sanitized_string (s : string) : Prop :=
  s = ""
  \/ s = "[REDACTED]"
  \/ (exists hashed : string, s = Py.take 16 (SHA256.hexdigest (Py.encode_utf8 hashed)))
  \/ In s generalized_forms.

Definition sanitized_value (v : value) : Prop :=
  match v with
  | VStr s => sanitized_string s
  | VNone | VInt _ | VFloat _ => True
  end.

Definition evidence_sanitized (d : dict) : Prop :=
  Forall (fun kv => sanitized_value (snd kv)) d.

Definition tables_sanitized (t : tables) : Prop :=
  Forall (fun f => evidence_sanitized (fs_evidence f)) (suspicion t).

(** Every finding the session sees, the database holds or a savepoint
    keeps has sanitized evidence. *)
Definition findings_sanitized (w : world) : Prop :=
  tables_sanitized (session w) /\ tables_sanitized (committed w)
  /\ Forall tables_sanitized (savepoints w).

(** The findings a program may write: their evidence is sanitized, and it
    changes no finding there is. *)
Definition writes_sanitized (X : Type) (o : op X) : Prop :=
  match o with
  | AddSuspicion row => evidence_sanitized (fs_evidence row)
  | UpdateSuspicion _ => False
  | _ => True
  end.

(** The test of the last branch of [sanitize_evidence]: the item is stored
    as it is. *)
Definition kept_as_is (key : string) (v : value) : bool :=
  negb (Py.contains "ip" (Py.lower key) && truthy v
        && negb (str_in key ["ip_hash"; "ip_1_hash"; "ip_2_hash"]))
  && negb (Py.contains "user_agent" (Py.lower key) && truthy v)
  && negb (Py.contains "submission" (Py.lower key) && Py.contains "text" (Py.lower key)).

(** Evidence whose strings all reach one of the first three branches, but
    for those that are sanitized already. *)
Definition sanitizable (evidence : dict) : Prop :=
  Forall (fun kv => kept_as_is (fst kv) (snd kv) = true -> sanitized_value (snd kv)) evidence.

(** What the outcome of [create_suspicion_record] looks like when no
    finding was created: nothing is returned, nothing was committed, and
    the session is as it was or as the database is. *)
Definition no_finding (w : world) (out : result (option FlagSharingSuspicion) * world) : Prop :=
  (fst out = Ok None \/ exists e, fst out = Err e) /\
  committed (snd out) = committed w /\
  (session (snd out) = session w \/ session (snd out) = committed w).

(** The users of a pattern whose consent [create_suspicion_record] asks
    for. *)
Definition involved (pattern : Pattern) : list Z :=
  p_user_id_1 pattern ::
  (if truthy_id (p_user_id_2 pattern) then [default 0 (p_user_id_2 pattern)] else []).

(** An evidence item [sanitize_evidence] can handle: a number is not
    under a key that sends it to [hash_ip] or [generalize_user_agent], which
    call [encode] and [lower] on it. *)
Definition hashable (kv : string * value) : bool :=
  let key := fst kv in
  match snd kv with
  | VInt _ | VFloat _ =>
      negb (Py.contains "ip" (Py.lower key)
            && negb (str_in key ["ip_hash"; "ip_1_hash"; "ip_2_hash"]))
      && negb (Py.contains "user_agent" (Py.lower key))
  | _ => true
  end.

Definition is_hex_digit (c : ascii) : bool :=
  existsb (Ascii.eqb c) (list_ascii_of_string "0123456789abcdef").

(** ** utils.py: challenge health *)

Record Health := {
  h_solves : Z;
  h_attempts : Z;
  h_solve_rate : Q;
  h_health_score : Z;
  h_status : string
}.

(** [calculate_challenge_health], from the two counts. The solve rate is a
    rational here. *)
Definition challenge_health (solves attempts : Z) : Health :=
  let solve_rate := if 0 <? attempts then Qmake solves (Z.to_pos attempts) else 0%Q in
  let health_score := 100 in
  let health_score :=
    if negb (Qle_bool solve_rate (90 # 100)) then health_score - 20
    else if negb (Qle_bool (5 # 100) solve_rate) && (10 <=? attempts) then health_score - 30
    else health_score in
  let health_score := if attempts <? 10 then health_score - 15 else health_score in
  let health_score := Z.max 0 (Z.min 100 health_score) in
  let status :=
    if 70 <=? health_score then "HEALTHY"
    else if 40 <=? health_score then "UNDERPERFORMING"
    else "BROKEN" in
  {| h_solves := solves; h_attempts := attempts; h_solve_rate := solve_rate;
     h_health_score := health_score; h_status := status |}.

(** The two [count()] queries, on the tables of the world. *)
Definition calculate_challenge_health (challenge_id : Z) (w : world) : Health :=
  challenge_health
    (Z.of_nat (length (List.filter (fun s => s_challenge_id s =? challenge_id) (solves w))))
    (Z.of_nat (length (List.filter (fun s => sub_challenge_id s =? challenge_id)
                                   (submissions w)))).

Definition trail_kept (w0 w : world) : Prop :=
  verdict_history (committed w0) `prefix_of` verdict_history (committed w)
  /\ verdict_history (committed w0) `prefix_of` verdict_history (session w).

Definition review_op (X : Type) (o : op X) : Prop :=
  match o with
  | SuspicionFirst _ | AddVerdict _ | UpdateSuspicion _ | Utcnow | Commit | Rollback => True
  | _ => False
  end.

Definition older_or_same (a b : VerdictHistory) : Prop := vh_created_at a <= vh_created_at b.

Definition only_appended (w0 w : world) : Prop :=
  challenges w = challenges w0
  /\ first_blood w0 `prefix_of` first_blood w
  /\ solves w0 `prefix_of` solves w.

(** ** Worlds and requests of the examples *)

Definition empty_tables : tables :=
  {| consent := []; suspicion := []; verdict_history := [] |}.

(** A fresh deployment: challenge 3 is worth 200 points, challenge 4 is worth
    5 points, and nothing was solved or cached yet. *)
Definition fresh_world : world :=
  {| solves := []; first_blood := []; challenges := {[ 3 := Some 200; 4 := Some 5 ]};
     submissions := []; cache := ∅; session := empty_tables; committed := empty_tables;
     savepoints := []; now := 1000; log := []; trace := [] |}.

(** Solve number [id] of challenge [challenge_id] by user [user] at time [date]. *)
Definition solve_of (id challenge_id user date : Z) : Solve :=
  {| s_id := id; s_challenge_id := challenge_id; s_user_id := Some user; s_team_id := None;
     s_date := Some date |}.







(** The first solve of challenge 4, worth 5 points. *)
Definition odd_value_schedule : list action := submit (solve_of 1 4 1 10) 0.

Definition odd_value_row : FirstBloodPrestige :=
  {| fb_id := 1; fb_solve_id := 1; fb_challenge_id := 4; fb_user_id := Some 1;
     fb_team_id := None; fb_prestige_score := 7; fb_timestamp := 10 |}.

(** Challenge 3 has its first solve in the table and a signed hint in the
    cache, and no first-blood row. *)
Definition hinted_world : world :=
  snd (run (set_signed_cache default_config (redis_key_of 3) "1" (Some FIRST_BLOOD_REDIS_TTL))
           [] (insert_solve (solve_of 1 3 1 10) fresh_world)).

(** Two users send the same wrong flag for challenge 3 from one address
    and one browser, 12 seconds apart. *)
Definition sharing_submissions : list Submission :=
  [{| sub_id := 11; sub_user_id := 1; sub_challenge_id := 3; sub_ip := Some "10.0.0.7";
      sub_user_agent := Some "Mozilla/5.0 (X11; Linux x86_64) Firefox/120.0";
      sub_type := "incorrect"; sub_provided := "flag{guess}"; sub_date := 1980000000 |};
   {| sub_id := 12; sub_user_id := 2; sub_challenge_id := 3; sub_ip := Some "10.0.0.7";
      sub_user_agent := Some "Mozilla/5.0 (X11; Linux x86_64) Firefox/120.0";
      sub_type := "incorrect"; sub_provided := "flag{guess}"; sub_date := 1992000000 |}].

Definition consent_row (user_id : Z) (consented : bool) : UserConsent :=
  {| uc_user_id := user_id; uc_consented := consented; uc_consented_at := Some 900;
     uc_withdrawn_at := None |}.

Definition tables_with (rows : list UserConsent) : tables :=
  {| consent := rows; suspicion := []; verdict_history := [] |}.

(** The world of these submissions, 8 seconds after the second one, with
    the given consent ledger. *)
Definition sharing_world (rows : list UserConsent) : world :=
  {| solves := []; first_blood := []; challenges := {[ 3 := Some 200 ]};
     submissions := sharing_submissions; cache := ∅; session := tables_with rows;
     committed := tables_with rows; savepoints := []; now := 2000000000; log := [];
     trace := [] |}.

(** The defaults with the threshold lowered to 0.5. *)
Definition sensitive_config : config :=
  {| FIRST_BLOOD_ENABLED := true; SUSPICION_ENABLED := true;
     SUSPICION_THRESHOLD := 0.5; ANALYTICS_INTERVAL_SECONDS := 30;
     PHASE2_HMAC_SECRET := None; SECRET_KEY := None |}.

(** The pattern [detect_same_ip_pattern] finds in them. *)
Definition sharing_pattern : Pattern :=
  {| p_user_id_1 := 1; p_user_id_2 := Some 2; p_challenge_id := 3;
     p_detection_type := "same_ip"; p_confidence := 0.5;
     p_evidence :=
       [("ip", VStr "10.0.0.7");
        ("time_delta_seconds", VFloat (12000000 # 1000000));
        ("submission_1_id", VInt 11);
        ("submission_2_id", VInt 12);
        ("submission_1_text", VStr "flag{guess}");
        ("submission_2_text", VStr "flag{guess}")] |}.

(** A finding about users 1 and 2 waits for its review. *)
Definition pending_finding : FlagSharingSuspicion :=
  {| fs_id := 1; fs_user_id_1 := 2; fs_user_id_2 := Some 1; fs_challenge_id := 3;
     fs_detection_type := "same_ip"; fs_confidence_score := 0.5; fs_risk_level := "MEDIUM";
     fs_evidence := [("ip_hash", VStr "130e4daba9786013")];
     fs_admin_verdict := None; fs_reviewed_at := None; fs_reviewed_by := None;
     fs_created_at := 2000000000 |}.

Definition review_world : world :=
  {| solves := []; first_blood := []; challenges := ∅; submissions := []; cache := ∅;
     session := {| consent := []; suspicion := [pending_finding]; verdict_history := [] |};
     committed := {| consent := []; suspicion := [pending_finding]; verdict_history := [] |};
     savepoints := []; now := 3000000000; log := []; trace := [] |}.

(** The body of a review request. *)
Definition verdict_body (verdict : string) : Json.json :=
  Json.JObj [("verdict", Json.JStr verdict)].

(** Admin 9 finds the finding suspicious; a microsecond later admin 8
    finds it innocent. *)
Definition first_review : world :=
  snd (run (put default_config 1 (verdict_body "suspicious") 9 (Some "192.0.2.1")) []
           review_world).

Definition second_review : world :=
  snd (run (put default_config 1 (verdict_body "innocent") 8 (Some "192.0.2.2")) []
           (tick 1 first_review)).

(** The same two reviews, the second after the wall clock was set back by
    one second, and the second with the clock reading what it read at the
    first. *)
Definition set_back_review : world :=
  snd (run (put default_config 1 (verdict_body "innocent") 8 (Some "192.0.2.2")) []
           (tick (-1000000) first_review)).

Definition same_reading_review : world :=
  snd (run (put default_config 1 (verdict_body "innocent") 8 (Some "192.0.2.2")) []
           (tick 0 first_review)).

(** A cache in which the hint of challenge 3 was replaced by an entry with
    a made-up signature, and one in which it is not JSON at all. *)
Definition forged_world : world :=
  set_cache (<[redis_key_of 3 :=
                 Py.quoted "{'value': '1', 'signature': 'deadbeef'}"]> (cache fresh_world))
            fresh_world.

Definition garbled_world : world :=
  set_cache (<[redis_key_of 3 := "claimed"]> (cache fresh_world)) fresh_world.

(** * Properties *)

(** ** Checks of the library models against known values *)

Example sha256_abc :
  SHA256.hexdigest (Py.encode_utf8 "abc")
  = "ba7816bf8f01cfea414140de5dae2223b00361a396177a9cb410ff61f20015ad".
Proof. vm_compute. reflexivity. Qed.

Example hmac_rfc4231_case2 :
  SHA256.hmac_hexdigest (Py.encode_utf8 "Jefe") (Py.encode_utf8 "what do ya want for nothing?")
  = "5bdcc146bf60754e6a042426089575c75a003f089d2739839dec58b964ec3843".
Proof. vm_compute. reflexivity. Qed.

Example hash_ip_example :
  hash_ip (VStr "192.168.1.1") = Ok (VStr "c5eb5a4cc76a5cdb").
Proof. vm_compute. reflexivity. Qed.

(** The docstring's example of [generalize_user_agent]. *)
Example generalize_user_agent_example :
  generalize_user_agent
    (VStr "Mozilla/5.0 (Windows NT 10.0; Win64; x64) Chrome/119.0.0.0")
  = Ok (VStr "Chrome on Windows").
Proof. vm_compute. reflexivity. Qed.

Example sanitize_evidence_example :
  sanitize_evidence [("ip", VStr "192.168.1.1");
                     ("submission_text", VStr "flag{test}")]
  = Ok [("ip_hash", VStr "c5eb5a4cc76a5cdb");
        ("submission_text", VStr "[REDACTED]")].
Proof. vm_compute. reflexivity. Qed.

Example json_loads_object :
  Json.loads (Py.quoted "{'value': '1', 'signature': 'ab\u00e9\n', 'n': [1, -2.5e3, null, true]}")
  = Some (Json.JObj [("value", Json.JStr "1");
                     ("signature", Json.JStr (String "a"%char (String "b"%char (String (Py.chr 233) (String (Py.chr 10) EmptyString)))));
                     ("n", Json.JArr [Json.JNum "1"; Json.JNum "-2.5e3"; Json.JNull; Json.JBool true])]).
Proof. vm_compute. reflexivity. Qed.

Example json_loads_rejects :
  map (fun t => Json.loads (Py.quoted t))
      ["{'value': }"; "[1,]"; "{'a': 1} x"; ""; "{a: 1}"; "'abc"; "01"; "[1 2]"]
  = [None; None; None; None; None; None; None; None].
Proof. vm_compute. reflexivity. Qed.

Example json_dumps_signed :
  Json.dumps (Json.JObj [("value", Json.JStr "1"); ("signature", Json.JStr "ab")])
  = Py.quoted "{'value': '1', 'signature': 'ab'}".
Proof. vm_compute. reflexivity. Qed.

Example levenshtein_kitten :
  Qeq_bool (levenshtein_ratio "kitten" "Sitting") (1 - (3 # 7)) = true.
Proof. vm_compute. reflexivity. Qed.

Example prestige_examples :
  map calculate_prestige_score [Some 100; Some 5; Some 0; Some (-20); None]
  = [150; 7; 150; 150; 150].
Proof. reflexivity. Qed.

(** ** The JSON text of a signed entry reads back *)

Lemma scanstring_escape_char c r :
  Json.scanstring (Json.escape_char c +:+ r) = Json.cons_char c (Json.scanstring r).
Proof.
  destruct c as [[] [] [] [] [] [] [] []]; reflexivity.
Qed.

Lemma app_assoc_str (a b c : string) : (a +:+ b) +:+ c = a +:+ (b +:+ c).
Proof.
  induction a as [|x a IH]; [reflexivity|].
  change (String x ((a +:+ b) +:+ c) = String x (a +:+ (b +:+ c))). by rewrite IH.
Qed.

Lemma scanstring_escape s r :
  Json.scanstring (Json.escape s +:+ String Py.dquote r) = Some (s, r).
Proof.
  induction s as [|c s IH]; [reflexivity|].
  change (Json.escape (String c s)) with (Json.escape_char c +:+ Json.escape s).
  rewrite app_assoc_str, scanstring_escape_char, IH. reflexivity.
Qed.

Lemma hexdigit_ascii n : (Py.code (SHA256.hexdigit (Z.land n 15)) <? 128) = true.
Proof.
  assert (H : 0 <= Z.land n 15 < 16).
  { change 15 with (Z.ones 4). rewrite Z.land_ones by lia. apply Z.mod_pos_bound. lia. }
  set (m := Z.land n 15) in *. clearbody m.
  assert (m = 0 \/ m = 1 \/ m = 2 \/ m = 3 \/ m = 4 \/ m = 5 \/ m = 6 \/ m = 7 \/
          m = 8 \/ m = 9 \/ m = 10 \/ m = 11 \/ m = 12 \/ m = 13 \/ m = 14 \/ m = 15) by lia.
  repeat (destruct H0 as [-> | H0]; [reflexivity|]). subst. reflexivity.
Qed.

Lemma hex_ascii bs : is_ascii (SHA256.hex bs) = true.
Proof.
  induction bs as [|b bs IH]; [reflexivity|].
  unfold is_ascii in *. cbn [SHA256.hex SHA256.hex_byte].
  change (forallb (fun c => Py.code c <? 128)
            (SHA256.hexdigit (Z.land (Z.shiftr b 4) 15)
             :: SHA256.hexdigit (Z.land b 15) :: list_ascii_of_string (SHA256.hex bs)) = true).
  cbn [forallb]. rewrite !hexdigit_ascii, IH. reflexivity.
Qed.

Lemma hmac_hexdigest_shape k m :
  exists c r, SHA256.hmac_hexdigest k m = String c r.
Proof.
  unfold SHA256.hmac_hexdigest.
  set (x := (_ ++ _)%list). clearbody x. unfold SHA256.digest.
  destruct (SHA256.digest_regs x). cbn. eauto.
Qed.

Lemma append_cons c (a b : string) : String c a +:+ b = String c (a +:+ b).
Proof. reflexivity. Qed.
Lemma append_nil (b : string) : "" +:+ b = b.
Proof. reflexivity. Qed.

Ltac norm_append :=
  repeat first [rewrite append_cons | rewrite app_assoc_str | rewrite append_nil].

Lemma signed_text_eq v sg :
  signed_text v sg =
  String "{" (String Py.dquote (Json.escape "value" +:+ String Py.dquote (String ":" (String
  " " (String Py.dquote (Json.escape v +:+ String Py.dquote (String "," (String " " (String
  Py.dquote (Json.escape "signature" +:+ String Py.dquote (String ":" (String " " (String
  Py.dquote (Json.escape sg +:+ String Py.dquote (String "}" ""))))))))))))))).
Proof.
  unfold signed_text, Json.dumps, Json.quote.
  norm_append. reflexivity.
Qed.

Lemma scan_signed_text f v sg :
  Json.scan_once (S (S (S (S f)))) (signed_text v sg)
  = Some (Json.JObj [("value", Json.JStr v); ("signature", Json.JStr sg)], "").
Proof.
  rewrite signed_text_eq.
  cbn -[Json.scanstring String.append Json.escape].
  rewrite scanstring_escape.
  cbn -[Json.scanstring String.append Json.escape].
  rewrite scanstring_escape.
  cbn -[Json.scanstring String.append Json.escape].
  rewrite scanstring_escape.
  cbn -[Json.scanstring String.append Json.escape].
  rewrite scanstring_escape.
  reflexivity.
Qed.

Lemma loads_signed_text v sg :
  Json.loads (signed_text v sg)
  = Some (Json.JObj [("value", Json.JStr v); ("signature", Json.JStr sg)]).
Proof.
  unfold Json.loads.
  assert (Hs : Json.skip_ws (signed_text v sg) = signed_text v sg)
    by (rewrite signed_text_eq; reflexivity).
  rewrite Hs.
  assert (Hl : exists n, String.length (signed_text v sg) = S (S (S n)))
    by (rewrite signed_text_eq; cbn [String.length]; eauto).
  destruct Hl as [n ->]. rewrite scan_signed_text. reflexivity.
Qed.

(** ** Running programs *)

Lemma exec_prog_bind {A B} (p : prog A) (f : A -> prog B) chs w :
  exec_prog (bind p f) chs w =
  let '(r, w', chs') := exec_prog p chs w in
  match r with
  | Ok a => exec_prog (f a) chs' w'
  | Err e => (Err e, w', chs')
  end.
Proof.
  revert chs w. induction p as [a|e|msg p IH|X o k IH]; intros chs w; cbn.
  - by destruct (exec_prog (f a) chs w) as [[??]?].
  - done.
  - apply IH.
  - destruct (exec o (hd Go chs) w) as [r w']. apply IH.
Qed.

Lemma exec_prog_try_except {A} (p : prog A) h chs w :
  exec_prog (try_except p h) chs w =
  let '(r, w', chs') := exec_prog p chs w in
  match r with
  | Ok a => (Ok a, w', chs')
  | Err e => exec_prog (h e) chs' w'
  end.
Proof.
  revert chs w. induction p as [a|e|msg p IH|X o k IH]; intros chs w; cbn.
  - done.
  - by destruct (exec_prog (h e) chs w) as [[??]?].
  - apply IH.
  - destruct (exec o (hd Go chs) w) as [r w']. apply IH.
Qed.

Lemma never_raises_bind {A B} (p : prog A) (f : A -> prog B) :
  never_raises p -> (forall a, never_raises (f a)) -> never_raises (bind p f).
Proof. induction 1; intros Hf; cbn; [apply Hf | constructor; auto ..]. Qed.






(** ** The signed cache *)

Lemma sign_redis_value_str cfg s :
  sign_redis_value cfg (Json.JStr s)
  = Ok (SHA256.hmac_hexdigest (get_hmac_secret cfg) (Py.encode_utf8 s)).
Proof. reflexivity. Qed.

Lemma hmac_hexdigest_truthy k m : Py.truthy_str (SHA256.hmac_hexdigest k m) = true.
Proof. destruct (hmac_hexdigest_shape k m) as (c & r & ->). reflexivity. Qed.

Lemma hmac_hexdigest_ascii k m : is_ascii (SHA256.hmac_hexdigest k m) = true.
Proof. apply hex_ascii. Qed.

Lemma verify_own_signature cfg v :
  verify_redis_signature cfg (Json.JStr v)
    (Json.JStr (SHA256.hmac_hexdigest (get_hmac_secret cfg) (Py.encode_utf8 v)))
  = Ok true.
Proof.
  unfold verify_redis_signature. cbn [Json.truthy]. rewrite hmac_hexdigest_truthy.
  cbn [negb]. rewrite sign_redis_value_str. cbn [result_bind compare_digest].
  rewrite hmac_hexdigest_ascii. cbn [andb]. by rewrite String.eqb_refl.
Qed.

Lemma signed_text_truthy v sg : Py.truthy_str (signed_text v sg) = true.
Proof. by rewrite signed_text_eq. Qed.

(** What [get_signed_cache] does once the cache has answered with an entry
    that [set_signed_cache] wrote. *)
Lemma get_signed_cache_own_entry cfg key v w chs :
  cache w !! key
  = Some (signed_text v (SHA256.hmac_hexdigest (get_hmac_secret cfg) (Py.encode_utf8 v))) ->
  hd Go chs = Go ->
  exec_prog (get_signed_cache cfg key) chs w = (Ok (Some v), add_trace KCacheGet w, tl chs).
Proof.
  intros Hc Hgo. unfold get_signed_cache.
  cbn [bind call exec_prog]. rewrite Hgo. cbn [exec perform kind_of].
  change (cache (add_trace KCacheGet w)) with (cache w). rewrite Hc.
  cbn [bind]. rewrite signed_text_truthy. cbn [negb].
  unfold check_signed_entry, try_except_of, json_loads. rewrite loads_signed_text.
  cbn [lift bind py_get].
  change (Json.obj_get "value" _) with (Json.JStr v).
  change (Json.obj_get "signature" [("value", Json.JStr v); ("signature", Json.JStr ?s)])
    with (Json.JStr (SHA256.hmac_hexdigest (get_hmac_secret cfg) (Py.encode_utf8 v))).
  rewrite verify_own_signature. reflexivity.
Qed.


Lemma exec_set_signed_cache cfg key value timeout chs w :
  hd Go chs = Go ->
  exec_prog (set_signed_cache cfg key value timeout) chs w
  = (Ok tt,
     set_cache (<[key := signed_text value
                   (SHA256.hmac_hexdigest (get_hmac_secret cfg) (Py.encode_utf8 value))]>
                  (cache w)) (add_trace KCacheSet w),
     tl chs).
Proof.
  intros Hgo. unfold set_signed_cache. rewrite sign_redis_value_str.
  cbn [lift bind call exec_prog]. rewrite Hgo. reflexivity.
Qed.

(** C10. For every key, every string value and every timeout, under any
    secret: [set_signed_cache] stores the entry, and [get_signed_cache] on
    the same key then returns exactly the value. (Both operations go
    through, and nothing touches the cache in between.) *)
Theorem signed_cache_round_trip cfg key value timeout w :
  fst (run (set_signed_cache cfg key value timeout) [] w) = Ok tt /\
  fst (run (get_signed_cache cfg key) []
         (snd (run (set_signed_cache cfg key value timeout) [] w)))
  = Ok (Some value).
Proof.
  unfold run. rewrite exec_set_signed_cache by reflexivity.
  split; [reflexivity|].
  rewrite (get_signed_cache_own_entry cfg key value); [reflexivity | | reflexivity].
  apply lookup_insert_eq.
Qed.

(** The branch of [get_signed_cache] that drops an entry never yields a
    value. *)
Lemma exec_reject_entry msg key chs w :
  exists r w' chs',
    exec_prog (print msg ;;; call (CacheDelete key) ;;; Ret (@None string)) chs w = (r, w', chs')
    /\ (r = Ok None \/ exists e, r = Err e /\ hd Go chs = Fault e).
Proof.
  cbn [print bind call exec_prog].
  destruct (hd Go chs) as [|e|lr] eqn:Hch; cbn [exec perform kind_of exec_prog bind]; eauto 10.
Qed.

Lemma compare_digest_true_inv a b : compare_digest a b = Ok true -> b = Json.JStr a.
Proof.
  unfold compare_digest. destruct b as [| | |sg| |]; try discriminate.
  destruct (_ && _); [|discriminate].
  intros [= Heq]. apply String.eqb_eq in Heq. by subst.
Qed.

Lemma verify_true_inv cfg value signature :
  verify_redis_signature cfg value signature = Ok true ->
  exists v, value = Json.JStr v /\
    signature = Json.JStr (SHA256.hmac_hexdigest (get_hmac_secret cfg) (Py.encode_utf8 v)).
Proof.
  unfold verify_redis_signature.
  destruct (negb (Json.truthy signature)); [discriminate|].
  destruct value as [| | |v| |]; try (cbn [sign_redis_value result_bind]; discriminate).
  rewrite sign_redis_value_str. cbn [result_bind].
  intros H%compare_digest_true_inv. eauto.
Qed.

Lemma get_signed_cache_only_verified cfg key chs w v w' chs' :
  exec_prog (get_signed_cache cfg key) chs w = (Ok (Some v), w', chs') ->
  exists text members,
    cache w !! key = Some text /\
    Json.loads text = Some (Json.JObj members) /\
    Json.obj_get "value" members = Json.JStr v /\
    Json.obj_get "signature" members
    = Json.JStr (SHA256.hmac_hexdigest (get_hmac_secret cfg) (Py.encode_utf8 v)).
Proof.
  unfold get_signed_cache. rewrite exec_prog_bind.
  cbn [call exec_prog].
  assert (Hex : forall ch, exec (CacheGet key) ch w = (Ok (cache w !! key), add_trace KCacheGet w)
                       \/ exists e, exec (CacheGet key) ch w = (Err e, add_trace KCacheGet w)).
  { intros [|e|lr]; cbn [exec perform kind_of]; eauto. }
  destruct (Hex (hd Go chs)) as [-> | [e ->]]; [|discriminate].
  cbn [exec_prog]. destruct (cache w !! key) as [text|]; [|discriminate].
  destruct (negb (Py.truthy_str text)); [discriminate|].
  unfold check_signed_entry, try_except_of. rewrite exec_prog_try_except, exec_prog_bind.
  unfold json_loads. destruct (Json.loads text) as [data|] eqn:Hloads; cbn [lift exec_prog].
  2:{ change (existsb _ _) with true. cbv iota.
      destruct (exec_reject_entry ("[PHASE2 SECURITY WARNING] Malformed Redis data for key: " +:+ key)
                  key (tl chs) (add_trace KCacheGet w)) as (r & w1 & c1 & -> & [-> | (e & -> & _)]);
        discriminate. }
  destruct data as [| | | | |members]; cbn [py_get lift bind exec_prog];
    try (change (existsb _ _) with false; discriminate).
  destruct (verify_redis_signature cfg (Json.obj_get "value" members)
              (Json.obj_get "signature" members)) as [[]|e] eqn:Hver; cbn [lift bind].
  - apply verify_true_inv in Hver as (v0 & Hv & Hs). rewrite Hv.
    cbn [exec_prog]. intros [= <- <- <-]. eauto 10.
  - match goal with |- context [exec_prog (print ?m ;;; _) ?c ?x] =>
      destruct (exec_reject_entry m key c x) as (r & w1 & c1 & -> & [-> | (e & -> & _)])
    end; [discriminate|].
    destruct (existsb _ _); [|discriminate].
    match goal with |- context [exec_prog (print ?m ;;; _) ?c ?x] =>
      destruct (exec_reject_entry m key c x) as (r & w2 & c2 & -> & [-> | (e' & -> & _)])
    end; discriminate.
  - cbn [exec_prog]. destruct (existsb _ _); [|discriminate].
    match goal with |- context [exec_prog (print ?m ;;; _) ?c ?x] =>
      destruct (exec_reject_entry m key c x) as (r & w2 & c2 & -> & [-> | (e' & -> & _)])
    end; discriminate.
Qed.

(** An entry whose payload is an object with a string value and a signature
    that is not the HMAC of the value: read as absent, and dropped. *)
Lemma get_signed_cache_rejects_forged cfg key text members v sg w :
  cache w !! key = Some text ->
  Py.truthy_str text = true ->
  Json.loads text = Some (Json.JObj members) ->
  Json.obj_get "value" members = Json.JStr v ->
  Json.obj_get "signature" members = Json.JStr sg ->
  sg <> SHA256.hmac_hexdigest (get_hmac_secret cfg) (Py.encode_utf8 v) ->
  exists w',
    run (get_signed_cache cfg key) [] w = (Ok None, w') /\
    cache w' = delete key (cache w).
Proof.
  intros Hc Ht Hl Hv Hs Hne. unfold run, get_signed_cache.
  cbn [bind call exec_prog hd exec perform kind_of].
  change (cache (add_trace KCacheGet w)) with (cache w). rewrite Hc.
  cbn [bind]. rewrite Ht. cbn [negb].
  unfold check_signed_entry, try_except_of, json_loads. rewrite Hl. cbn [lift bind py_get]. rewrite Hv, Hs.
  unfold verify_redis_signature. rewrite sign_redis_value_str.
  set (h := SHA256.hmac_hexdigest _ _) in *.
  destruct (negb (Json.truthy (Json.JStr sg))) eqn:Htr; cbn [result_bind lift bind].
  - cbn [print try_except bind call exec_prog hd tl exec perform kind_of fst]. eauto.
  - unfold compare_digest. destruct (is_ascii h && is_ascii sg); cbn [lift bind].
    + destruct (String.eqb h sg) eqn:Heq; [apply String.eqb_eq in Heq; congruence|].
      cbn [print try_except bind call exec_prog hd tl exec perform kind_of fst]. eauto.
    + cbn [try_except exn_cls]. change (existsb _ _) with true. cbv iota.
      cbn [print try_except bind call exec_prog hd tl exec perform kind_of fst]. eauto.
Qed.

(** C8 (where the code departs from it). The payload
    [{"signature": "fake"}] of the repository's own injection test: the
    value is missing, [sign_redis_value] calls [encode] on [None], and the
    [AttributeError] is not among the exceptions the function catches.
    [get_signed_cache] raises instead of returning [None], and the entry
    stays in the cache. *)
Theorem get_signed_cache_missing_value_raises cfg key w :
  let w0 := set_cache (<[key := Py.quoted "{'signature': 'fake'}"]> (cache w)) w in
  run (get_signed_cache cfg key) [] w0
  = (Err (Exn AttributeError "object has no attribute 'encode'"), add_trace KCacheGet w0)
  /\ cache (add_trace KCacheGet w0) !! key = Some (Py.quoted "{'signature': 'fake'}").
Proof.
  intros w0. assert (Hc : cache w0 !! key = Some (Py.quoted "{'signature': 'fake'}"))
    by apply lookup_insert_eq.
  split; [|exact Hc].
  unfold run, get_signed_cache.
  cbn [bind call exec_prog hd exec perform kind_of].
  change (cache (add_trace KCacheGet w0)) with (cache w0). rewrite Hc.
  reflexivity.
Qed.

(** A payload that is JSON but no object, such as [[]]: [data.get] raises
    the same uncaught exception class. *)
Lemma get_signed_cache_non_object_raises cfg key w :
  let w0 := set_cache (<[key := "[]"]> (cache w)) w in
  run (get_signed_cache cfg key) [] w0
  = (Err (Exn AttributeError "object has no attribute 'get'"), add_trace KCacheGet w0).
Proof.
  intros w0. assert (Hc : cache w0 !! key = Some "[]") by apply lookup_insert_eq.
  unfold run, get_signed_cache.
  cbn [bind call exec_prog hd exec perform kind_of].
  change (cache (add_trace KCacheGet w0)) with (cache w0). rewrite Hc.
  reflexivity.
Qed.

(** ** The logic of hooks that take turns *)

Section LogicLemmas.

Context (R : world -> world -> Prop) (G : forall X, op X -> world -> Prop).
Context (R_trans : forall a b c, R a b -> R b c -> R a c).

Lemma wp_mono {A} ok (p : prog A) (Q1 Q2 : bool -> result A -> world -> Prop) w :
  (forall ok r w, Q1 ok r w -> Q2 ok r w) -> wp R G ok p Q1 w -> wp R G ok p Q2 w.
Proof.
  intros HQ. revert ok w.
  induction p as [a|e|msg p IH|X o k IH]; intros ok w; cbn [wp]; auto.
  intros H w1 ch Hr. destruct (H w1 ch Hr). split; auto.
Qed.

Lemma wp_bind {A B} ok (p : prog A) (f : A -> prog B) Q w :
  wp R G ok p
    (fun ok' r w' => wp R G ok' (match r with Ok a => f a | Err e => Raise e end) Q w') w ->
  wp R G ok (bind p f) Q w.
Proof.
  revert ok w. induction p as [a|e|msg p IH|X o k IH]; intros ok w; cbn [wp bind]; auto.
  intros H w1 ch Hr. destruct (H w1 ch Hr). split; auto.
Qed.

Lemma wp_try_except {A} ok (p : prog A) h Q w :
  wp R G ok p
    (fun ok' r w' => wp R G ok' (match r with Ok a => Ret a | Err e => h e end) Q w') w ->
  wp R G ok (try_except p h) Q w.
Proof.
  revert ok w. induction p as [a|e|msg p IH|X o k IH]; intros ok w; cbn [wp try_except]; auto.
  intros H w1 ch Hr. destruct (H w1 ch Hr). split; auto.
Qed.

Lemma wp_call {X} ok (o : op X) Q w :
  (forall w1 ch, R w w1 ->
     G _ o w1 /\ Q (ok && benign o ch) (fst (exec o ch w1)) (snd (exec o ch w1))) ->
  wp R G ok (call o) Q w.
Proof.
  intros H. cbn [wp call]. intros w1 ch Hr. destruct (H w1 ch Hr) as [Hg Hq].
  split; [done|]. by destruct (fst (exec o ch w1)).
Qed.

Lemma wp_stable {A} ok (p : prog A) Q w w1 :
  (forall ok r w w', Q ok r w -> R w w' -> Q ok r w') ->
  R w w1 -> wp R G ok p Q w -> wp R G ok p Q w1.
Proof.
  intros HQ Hr. destruct p as [a|e|msg p|X o k]; cbn [wp]; eauto.
Qed.

End LogicLemmas.

Lemma only_ops_bind {A B} P (p : prog A) (f : A -> prog B) :
  only_ops P p -> (forall a, only_ops P (f a)) -> only_ops P (bind p f).
Proof. induction 1; intros Hf; cbn [bind]; [apply Hf | constructor ..]; auto. Qed.

Lemma only_ops_try_except {A} P (p : prog A) h :
  only_ops P p -> (forall e, only_ops P (h e)) -> only_ops P (try_except p h).
Proof. induction 1; intros Hh; cbn [try_except]; [constructor | apply Hh | constructor ..]; auto. Qed.

Lemma only_ops_call {X} (P : forall X, op X -> Prop) (o : op X) : P X o -> only_ops P (call o).
Proof. intros H. constructor; [done|]. intros []; constructor. Qed.

Lemma only_ops_lift {A} P (r : result A) : only_ops P (lift r).
Proof. destruct r; constructor. Qed.

Lemma only_ops_print P msg : only_ops P (print msg).
Proof. repeat constructor. Qed.

(** ** What the operations of a hook do to the world *)

Ltac world_simpl :=
  cbn [exec perform kind_of fst snd solves first_blood challenges cache session committed
       savepoints now log trace set_first_blood set_cache set_orm set_session add_log
       add_trace tick insert_solve] in *.

Section HookWorld.

Context (cfg : config) (sound : bool).

Lemma grows_trans a b c : grows sound a b -> grows sound b c -> grows sound a c.
Proof.
  intros (H1 & H2 & H3 & H4) (H5 & H6 & H7 & H8).
  split; [by etrans|]. split; [by etrans|]. split; [congruence|done].
Qed.

Lemma grows_refl w : (sound = true -> cache_readable w /\ store_ok w) -> grows sound w w.
Proof. intros H. by repeat (split; [done|]). Qed.

Lemma hook_facts_stable known t w w1 :
  hook_facts sound known t w -> grows sound w w1 -> hook_facts sound known t w1.
Proof.
  intros (H1 & H2 & H3) (H4 & H5 & H6 & H7).
  split; [by apply H4|]. split; [by etrans|done].
Qed.

Lemma hook_facts_grows_refl known t w :
  hook_facts sound known t w -> grows sound w w.
Proof. intros (_ & _ & H). by apply grows_refl. Qed.

Lemma grows_add_log msg w :
  (sound = true -> cache_readable w /\ store_ok w) -> grows sound w (add_log msg w).
Proof. intros H. repeat (split; [done|]). exact H. Qed.

Lemma quiet_hook_op known t X (o : op X) w : quiet_op cfg X o -> hook_op cfg known t X o w.
Proof. by destruct o. Qed.

Lemma readable_hint_text : readable_entry (hint_text cfg) = true.
Proof. unfold readable_entry, hint_text. rewrite loads_signed_text. apply orb_true_r. Qed.

Lemma cache_readable_insert key w :
  cache_readable w -> cache_readable (set_cache (<[key := hint_text cfg]> (cache w)) w).
Proof.
  intros H k x. world_simpl. rewrite lookup_insert.
  case_decide; [intros [= <-]; apply readable_hint_text | apply H].
Qed.

Lemma cache_readable_delete key w :
  cache_readable w -> cache_readable (set_cache (delete key (cache w)) w).
Proof.
  intros H k x. world_simpl. rewrite lookup_delete.
  case_decide; [done | apply H].
Qed.

Lemma exec_grows known t X (o : op X) ch w :
  hook_facts sound known t w -> hook_op cfg known t X o w ->
  grows sound w (snd (exec o ch w)).
Proof.
  intros (Ht & Hk & Hs) Hg.
  assert (Hid : grows sound w (add_trace (kind_of o) w))
    by (repeat (split; [done|]); exact Hs).
  assert (Hset : forall key, grows sound w
            (set_cache (<[key := hint_text cfg]> (cache w)) (add_trace KCacheSet w))).
  { intros key. repeat (split; [done|]). intros Hsd. destruct (Hs Hsd).
    split; [|done]. by apply (cache_readable_insert key (add_trace KCacheSet w)). }
  assert (Hdel : forall key, grows sound w
            (set_cache (delete key (cache w)) (add_trace KCacheDelete w))).
  { intros key. repeat (split; [done|]). intros Hsd. destruct (Hs Hsd).
    split; [|done]. by apply (cache_readable_delete key (add_trace KCacheDelete w)). }
  destruct o; cbn [hook_op] in Hg; try done; destruct ch as [|e|lr]; try exact Hid; world_simpl;
    try (subst data; apply Hset); try apply Hdel.
  - destruct (existsb _ _); world_simpl; [exact Hid|].
    destruct Hg as (-> & -> & -> & -> & _).
    split; [done|]. split; [by apply list_subseteq_app_l|]. split; [done|].
    intros Hsd. destruct (Hs Hsd) as (Hcs & Hnd & Hfk). split; [done|]. split; [done|].
    world_simpl. intros r [Hr | ->%list_elem_of_singleton]%elem_of_app; [by apply Hfk|].
    by exists t.
  - destruct (existsb _ _); world_simpl; [exact Hid|].
    destruct Hg as (-> & -> & -> & -> & _).
    split; [done|]. split; [by apply list_subseteq_app_l|]. split; [done|].
    intros Hsd. destruct (Hs Hsd) as (Hcs & Hnd & Hfk). split; [done|]. split; [done|].
    world_simpl. intros r [Hr | ->%list_elem_of_singleton]%elem_of_app; [by apply Hfk|].
    by exists t.
Qed.

End HookWorld.

(** ** What a hook does, step by step *)

Lemma check_signed_entry_own cfg key v :
  check_signed_entry cfg key
    (signed_text v (SHA256.hmac_hexdigest (get_hmac_secret cfg) (Py.encode_utf8 v)))
  = Ret (Some v).
Proof.
  unfold check_signed_entry, try_except_of, json_loads. rewrite loads_signed_text.
  cbn [lift bind py_get].
  change (Json.obj_get "value" _) with (Json.JStr v).
  change (Json.obj_get "signature" [("value", Json.JStr v); ("signature", Json.JStr ?s)])
    with (Json.JStr (SHA256.hmac_hexdigest (get_hmac_secret cfg) (Py.encode_utf8 v))).
  rewrite verify_own_signature. reflexivity.
Qed.

Lemma check_signed_entry_quiet cfg key d :
  only_ops (quiet_op cfg) (check_signed_entry cfg key d).
Proof.
  assert (Hrej : forall msg, only_ops (quiet_op cfg)
            (print msg ;;; call (CacheDelete key) ;;; Ret (@None string))).
  { intros msg. apply only_ops_bind; [apply only_ops_print|]. intros _.
    apply only_ops_bind; [by apply only_ops_call|]. intros _. constructor. }
  unfold check_signed_entry, try_except_of. apply only_ops_try_except.
  - apply only_ops_bind; [apply only_ops_lift|]. intros data.
    apply only_ops_bind; [apply only_ops_lift|]. intros value.
    apply only_ops_bind; [apply only_ops_lift|]. intros signature.
    apply only_ops_bind; [apply only_ops_lift|]. intros [|]; [constructor|apply Hrej].
  - intros e. destruct (existsb _ _); [apply Hrej|constructor].
Qed.

(** On a readable entry the check returns the value, or prints a warning
    and deletes the entry. *)
Lemma check_signed_entry_readable cfg key d :
  readable_entry d = true ->
  (exists v, check_signed_entry cfg key d = Ret v)
  \/ (exists msg k,
        check_signed_entry cfg key d = Log msg (Vis (CacheDelete key) k)
        /\ (forall x, k (Ok x) = Ret None)
        /\ (forall e, only_ops (quiet_op cfg) (k (Err e)))).
Proof.
  assert (Hrej : forall msg, only_ops (quiet_op cfg)
            (print msg ;;; call (CacheDelete key) ;;; Ret (@None string))).
  { intros msg. apply only_ops_bind; [apply only_ops_print|]. intros _.
    apply only_ops_bind; [by apply only_ops_call|]. intros _. constructor. }
  assert (Hquiet : forall e, only_ops (quiet_op cfg)
            (if existsb (fun c => bool_decide (exn_cls e = c)) [JSONDecodeError; KeyError; TypeError]
             then print ("[PHASE2 SECURITY WARNING] Malformed Redis data for key: " +:+ key) ;;;
                  call (CacheDelete key) ;;; Ret (@None string)
             else Raise e)).
  { intros e. destruct (existsb _ _); [apply Hrej|constructor]. }
  assert (Hinvalid : exists msg k,
            try_except
              (print ("[PHASE2 SECURITY WARNING] Invalid Redis signature for key: " +:+ key) ;;;
               call (CacheDelete key) ;;; Ret (@None string))
              (fun e => if existsb (fun c => bool_decide (exn_cls e = c))
                                   [JSONDecodeError; KeyError; TypeError]
                        then print ("[PHASE2 SECURITY WARNING] Malformed Redis data for key: "
                                    +:+ key) ;;;
                             call (CacheDelete key) ;;; Ret None
                        else Raise e)
            = Log msg (Vis (CacheDelete key) k)
            /\ (forall x, k (Ok x) = Ret None)
            /\ (forall e, only_ops (quiet_op cfg) (k (Err e)))).
  { eexists _, _. split; [reflexivity|]. split; [done|]. intros e. apply Hquiet. }
  assert (Hmalformed : exists msg k,
            (print ("[PHASE2 SECURITY WARNING] Malformed Redis data for key: " +:+ key) ;;;
             call (CacheDelete key) ;;; Ret (@None string))
            = Log msg (Vis (CacheDelete key) k)
            /\ (forall x, k (Ok x) = Ret None)
            /\ (forall e, only_ops (quiet_op cfg) (k (Err e)))).
  { eexists _, _. split; [reflexivity|]. split; [done|]. intros e. constructor. }
  unfold readable_entry, check_signed_entry, try_except_of, json_loads.
  destruct (Json.loads d) as [data|]; cbn [lift bind try_except].
  2:{ intros _. right. exact Hmalformed. }
  destruct data as [| | | | |members]; try done. cbn [py_get lift bind try_except].
  unfold verify_redis_signature.
  destruct (negb (Json.truthy (Json.obj_get "signature" members))); cbn [orb].
  { intros _. cbn [lift bind try_except]. right. exact Hinvalid. }
  destruct (Json.obj_get "value" members) as [| | |v| |]; try done. intros _.
  cbn [sign_redis_value result_bind]. unfold compare_digest.
  destruct (Json.obj_get "signature" members) as [| | |sg| |];
    cbn [lift bind try_except existsb]; try (right; exact Hmalformed).
  destruct (is_ascii _ && is_ascii sg); cbn [lift bind try_except];
    [|right; exact Hmalformed].
  destruct (String.eqb _ sg); cbn [lift bind try_except]; [left; by eexists|right; exact Hinvalid].
Qed.

Lemma get_signed_cache_quiet cfg key : only_ops (quiet_op cfg) (get_signed_cache cfg key).
Proof.
  unfold get_signed_cache. apply only_ops_bind; [by apply only_ops_call|].
  intros [d|]; [|constructor]. destruct (negb _); [constructor|].
  apply check_signed_entry_quiet.
Qed.

Lemma set_signed_cache_hint cfg key timeout :
  set_signed_cache cfg key "1" timeout = call (CacheSet key (hint_text cfg) timeout).
Proof. reflexivity. Qed.

Section HookSpec.

Context (cfg : config) (sound : bool) (known : list Solve) (t : Solve).

Local Abbreviation R := (grows sound).
Local Abbreviation G := (hook_op cfg known t).
Local Abbreviation F := (hook_facts sound known t).

Lemma exec_facts X (o : op X) ch w :
  F w -> G X o w -> F (snd (exec o ch w)) /\ R w (snd (exec o ch w)).
Proof.
  intros Hf Hg. pose proof (exec_grows cfg sound known t X o ch w Hf Hg) as Hr.
  split; [|done]. by eapply hook_facts_stable.
Qed.

Lemma log_facts msg w : F w -> F (add_log msg w) /\ R w (add_log msg w).
Proof.
  intros Hf. assert (Hr : R w (add_log msg w)) by (apply grows_add_log, Hf).
  split; [|done]. by eapply hook_facts_stable.
Qed.

(** A program of quiet operations leaves the world grown, whatever it
    returns. *)
Lemma wp_frame {A} (p : prog A) ok (Q : bool -> result A -> world -> Prop) w :
  only_ops (quiet_op cfg) p -> F w ->
  (forall ok' r w', R w w' -> F w' -> (ok' = true -> ok = true) -> Q ok' r w') ->
  wp R G ok p Q w.
Proof.
  intros Hp. revert ok Q w.
  induction Hp as [a|e|msg p _ IH|X o k Ho _ IH]; intros ok Q w Hf HQ; cbn [wp].
  - apply HQ; [by eapply hook_facts_grows_refl|done..].
  - apply HQ; [by eapply hook_facts_grows_refl|done..].
  - intros w1 Hr. pose proof (hook_facts_stable _ _ _ _ _ Hf Hr) as Hf1.
    destruct (log_facts msg w1 Hf1) as [Hf2 Hr2].
    apply IH; [done|]. intros ok' r w' Hr' Hf' Hok. apply HQ; [|done..].
    exact (grows_trans _ _ _ _ Hr (grows_trans _ _ _ _ Hr2 Hr')).
  - intros w1 ch Hr. pose proof (hook_facts_stable _ _ _ _ _ Hf Hr) as Hf1.
    assert (Hg : G X o w1) by (by apply quiet_hook_op).
    split; [done|]. destruct (exec_facts X o ch w1 Hf1 Hg) as [Hf2 Hr2].
    apply IH; [done|]. intros ok' r w' Hr' Hf' Hok. apply HQ; [|done|].
    + exact (grows_trans _ _ _ _ Hr (grows_trans _ _ _ _ Hr2 Hr')).
    + intros H%Hok. by apply andb_true_iff in H as [? _].
Qed.

(** Reading the hint: with a readable cache and benign choices it
    returns. *)
Lemma spec_get_signed_cache key ok Q w :
  F w ->
  (forall ok' r w', R w w' -> F w' -> (ok' = true -> ok = true) ->
     (sound = true -> ok' = true -> exists a, r = Ok a) -> Q ok' r w') ->
  wp R G ok (get_signed_cache cfg key) Q w.
Proof.
  intros Hf HQ. destruct (decide (sound = true)) as [Hsound|Hsound].
  2:{ apply wp_frame; [apply get_signed_cache_quiet|done|].
      intros ok' r w' Hr Hf' Hok. by apply HQ. }
  assert (Hentry : forall ok1 d w2, F w2 -> R w w2 -> (ok1 = true -> ok = true) ->
            readable_entry d = true ->
            wp R G ok1 (if negb (Py.truthy_str d) then Ret None
                        else check_signed_entry cfg key d) Q w2).
  { intros ok1 d w2 Hf2 Hr2 Hok Hd. destruct (negb (Py.truthy_str d)).
    { cbn [wp]. apply HQ; eauto. }
    destruct (check_signed_entry_readable cfg key d Hd) as [[v ->]|(msg & k & -> & Hk1 & Hk2)].
    { cbn [wp]. apply HQ; eauto. }
    cbn [wp]. intros w3 Hr3.
    pose proof (hook_facts_stable _ _ _ _ _ Hf2 Hr3) as Hf3.
    destruct (log_facts msg w3 Hf3) as [Hf4 Hr4].
    intros w5 ch Hr5. pose proof (hook_facts_stable _ _ _ _ _ Hf4 Hr5) as Hf5.
    split; [done|].
    destruct (exec_facts _ (CacheDelete key) ch w5 Hf5 I) as [Hf6 Hr6].
    assert (Hr7 : R w (snd (exec (CacheDelete key) ch w5))).
    { exact (grows_trans _ _ _ _ Hr2 (grows_trans _ _ _ _ Hr3
              (grows_trans _ _ _ _ Hr4 (grows_trans _ _ _ _ Hr5 Hr6)))). }
    destruct ch as [|e|lr]; cbn [exec perform kind_of fst snd benign] in *.
    - rewrite andb_true_r, Hk1. cbn [wp]. apply HQ; eauto.
    - rewrite andb_false_r. apply wp_frame; [apply Hk2|done|].
      intros ok' r w' Hr' Hf' Hok'. apply HQ; [by eapply grows_trans|done|by intros ?%Hok'|by intros _ ?%Hok'].
    - rewrite andb_true_r, Hk1. cbn [wp]. apply HQ; eauto. }
  unfold get_signed_cache. cbn [bind call wp].
  intros w1 ch Hr. pose proof (hook_facts_stable _ _ _ _ _ Hf Hr) as Hf1.
  split; [done|].
  destruct (exec_facts _ (CacheGet key) ch w1 Hf1 I) as [Hf2 Hr2].
  assert (Hr3 : R w (snd (exec (CacheGet key) ch w1))) by (by eapply grows_trans).
  destruct ch as [|e|lr]; cbn [exec perform kind_of fst snd bind wp benign] in *.
  - rewrite andb_true_r.
    destruct Hf1 as (_ & _ & Hs). destruct (Hs Hsound) as [Hcs _].
    change (cache (add_trace KCacheGet w1)) with (cache w1).
    destruct (cache w1 !! key) as [d|] eqn:Hd; cbn [bind wp].
    + apply Hentry; [done..|]. by eapply Hcs.
    + apply HQ; eauto.
  - rewrite andb_false_r. apply HQ; try done.
  - rewrite andb_true_r.
    destruct Hf1 as (_ & _ & Hs). destruct (Hs Hsound) as [Hcs _].
    change (cache (add_trace KCacheGet w1)) with (cache w1).
    destruct (cache w1 !! key) as [d|] eqn:Hd; cbn [bind wp].
    + apply Hentry; [done..|]. by eapply Hcs.
    + apply HQ; eauto.
Qed.

(** Writing the hint. *)
Lemma spec_set_hint key timeout ok Q w :
  F w ->
  (forall ok' r w', R w w' -> F w' -> (ok' = true -> ok = true /\ r = Ok tt) -> Q ok' r w') ->
  wp R G ok (set_signed_cache cfg key "1" timeout) Q w.
Proof.
  intros Hf HQ. rewrite set_signed_cache_hint. apply wp_call.
  intros w1 ch Hr. pose proof (hook_facts_stable _ _ _ _ _ Hf Hr) as Hf1.
  assert (Hg : G _ (CacheSet key (hint_text cfg) timeout) w1) by done.
  split; [done|].
  destruct (exec_facts _ (CacheSet key (hint_text cfg) timeout) ch w1 Hf1 Hg) as [Hf2 Hr2].
  apply HQ; [by eapply grows_trans|done|].
  destruct ch; cbn [benign exec perform fst]; rewrite ?andb_true_r, ?andb_false_r; done.
Qed.

(** The advisory lock: [false] only after a reply that is not benign. *)
Lemma spec_acquire_lock c ok Q w :
  F w ->
  (forall ok' b w', R w w' -> F w' -> (ok' = true -> ok = true /\ b = true) ->
     Q ok' (Ok b) w') ->
  wp R G ok (acquire_lock c) Q w.
Proof.
  intros Hf HQ. unfold acquire_lock. cbn [bind call try_except wp].
  intros w1 ch Hr. pose proof (hook_facts_stable _ _ _ _ _ Hf Hr) as Hf1.
  split; [done|].
  destruct (exec_facts _ (GetLock (lock_name_of c) 10) ch w1 Hf1 I) as [Hf2 Hr2].
  assert (Hr3 : R w (snd (exec (GetLock (lock_name_of c) 10) ch w1)))
    by (by eapply grows_trans).
  destruct ch as [|e|lr]; cbn [exec perform kind_of fst snd bind try_except wp benign] in *.
  - rewrite andb_true_r. apply HQ; done.
  - rewrite andb_true_r. cbn [print bind try_except wp].
    intros w2 Hr4. pose proof (hook_facts_stable _ _ _ _ _ Hf2 Hr4) as Hf3.
    destruct (log_facts
      ("[PHASE2 FIRST BLOOD INFO] Advisory locks not supported, relying on UNIQUE constraint: "
       +:+ str_of_exn e) w2 Hf3) as [Hf4 Hr5].
    apply HQ; [|done..].
    exact (grows_trans _ _ _ _ Hr3 (grows_trans _ _ _ _ Hr4 Hr5)).
  - destruct (bool_decide (lr = Some 1)); cbn [negb print bind try_except wp].
    + rewrite andb_true_r. apply HQ; done.
    + rewrite andb_false_r.
      intros w2 Hr4. pose proof (hook_facts_stable _ _ _ _ _ Hf2 Hr4) as Hf3.
      destruct (log_facts
        "[PHASE2 FIRST BLOOD WARNING] Failed to acquire advisory lock (timeout or error)"
        w2 Hf3) as [Hf4 Hr5].
      apply HQ; [|done..].
    exact (grows_trans _ _ _ _ Hr3 (grows_trans _ _ _ _ Hr4 Hr5)).
Qed.

(** Releasing the lock never fails the hook. *)
Lemma spec_release_lock c ok Q w :
  F w ->
  (forall w', R w w' -> F w' -> Q ok (Ok tt) w') ->
  wp R G ok (try_except (call (ReleaseLock (lock_name_of c))) (fun _ => Ret tt)) Q w.
Proof.
  intros Hf HQ. cbn [call try_except wp].
  intros w1 ch Hr. pose proof (hook_facts_stable _ _ _ _ _ Hf Hr) as Hf1.
  split; [done|].
  destruct (exec_facts _ (ReleaseLock (lock_name_of c)) ch w1 Hf1 I) as [Hf2 Hr2].
  assert (Hr3 : R w (snd (exec (ReleaseLock (lock_name_of c)) ch w1)))
    by (by eapply grows_trans).
  destruct ch as [|e|lr]; cbn [exec perform kind_of fst snd try_except wp benign] in *;
    rewrite andb_true_r; by apply HQ.
Qed.

End HookSpec.

(** ** Queries on lists of rows *)

Lemma head_filter_Some {A} (f : A -> bool) l x :
  head (List.filter f l) = Some x -> x ∈ l /\ f x = true.
Proof.
  induction l as [|a l IH]; cbn [List.filter head]; [done|].
  destruct (f a) eqn:Hfa; cbn [head].
  - intros [= <-]. split; [left|done].
  - intros H. destruct (IH H). split; [by right|done].
Qed.

Lemma head_filter_None {A} (f : A -> bool) l x :
  head (List.filter f l) = None -> x ∈ l -> f x = false.
Proof.
  induction l as [|a l IH]; cbn [List.filter head]; [by intros _ ?%elem_of_nil|].
  destruct (f a) eqn:Hfa; cbn [head]; [done|].
  intros H [->|Hin]%elem_of_cons; auto.
Qed.

Lemma first_by_date_in l s : first_by_date l = Some s -> s ∈ l.
Proof.
  revert s. induction l as [|a l IH]; cbn [first_by_date]; [done|]. intros s.
  destruct (first_by_date l) as [m|].
  - destruct (solve_before m a); intros [= <-]; [right; by apply IH | left].
  - intros [= <-]. left.
Qed.

Lemma first_by_date_None l : first_by_date l = None -> l = [].
Proof.
  destruct l as [|a l]; [done|]. cbn [first_by_date].
  destruct (first_by_date l) as [m|]; [by destruct (solve_before m a)|done].
Qed.

Lemma filter_nil_false {A} (f : A -> bool) l x : List.filter f l = [] -> x ∈ l -> f x = false.
Proof.
  induction l as [|a l IH]; cbn [List.filter]; [by intros _ ?%elem_of_nil|].
  destruct (f a) eqn:Hfa; [done|]. intros H [->|Hin]%elem_of_cons; auto.
Qed.

Lemma elem_of_filter_bool {A} (f : A -> bool) l x : x ∈ List.filter f l -> x ∈ l /\ f x = true.
Proof.
  induction l as [|a l IH]; cbn [List.filter]; [by intros ?%elem_of_nil|].
  destruct (f a) eqn:Hfa.
  - intros [->|Hin]%elem_of_cons; [split; [left|done]|].
    destruct (IH Hin). split; [by right|done].
  - intros Hin. destruct (IH Hin). split; [by right|done].
Qed.

Lemma existsb_elem_of {A} (f : A -> bool) l :
  existsb f l = true -> exists x, x ∈ l /\ f x = true.
Proof.
  induction l as [|a l IH]; cbn [existsb]; [done|].
  intros [H|H]%orb_true_iff.
  - exists a. split; [left|done].
  - destruct (IH H) as (x & ? & ?). exists x. split; [by right|done].
Qed.

Lemma NoDup_map_eq {A B} (f : A -> B) l x y :
  NoDup (map f l) -> x ∈ l -> y ∈ l -> f x = f y -> x = y.
Proof.
  induction l as [|a l IH]; [by intros _ ?%elem_of_nil|].
  cbn [map]. intros [Hna Hnd]%NoDup_cons.
  intros [->|Hx]%elem_of_cons [->|Hy]%elem_of_cons Heq; auto.
  - destruct Hna. rewrite Heq. apply list_elem_of_In, in_map, list_elem_of_In, Hy.
  - destruct Hna. rewrite <- Heq. apply list_elem_of_In, in_map, list_elem_of_In, Hx.
Qed.

(** ** The hook of one solve *)

Section HookProof.

Context (cfg : config) (sound : bool) (known : list Solve) (t : Solve).

Local Abbreviation R := (grows sound).
Local Abbreviation G := (hook_op cfg known t).
Local Abbreviation F := (hook_facts sound known t).

Lemma decided_stable w w' : decided t w -> R w w' -> decided t w'.
Proof.
  intros [(r & Hr & Hc) | (s & ts & Hs & Hd & He)] (H1 & H2 & _).
  - left. exists r. split; [by apply H2|done].
  - right. exists s, ts. split; [by apply H1|done].
Qed.

(** A uniqueness violation on the INSERT means the challenge has its row. *)
Lemma duplicate_means_decided w :
  F w -> sound = true ->
  existsb (fun r => (fb_challenge_id r =? s_challenge_id t) || (fb_solve_id r =? s_id t))
          (first_blood w) = true ->
  decided t w.
Proof.
  intros (Ht & _ & Hs) Hsound (r & Hr & Hor)%existsb_elem_of.
  destruct (Hs Hsound) as (_ & Hnd & Hfk). left. exists r. split; [done|].
  apply orb_true_iff in Hor as [Hc|Hi]; [lia|].
  destruct (Hfk r Hr) as (s & Hs1 & Hs2 & Hs3).
  assert (s = t) by (apply (NoDup_map_eq s_id (solves w)); [done..|lia]).
  by subst.
Qed.

(** The end of the hook after the INSERT went through or met a duplicate:
    quiet operations that return under benign choices. *)
Lemma spec_release_tail {A} (p : prog A) ok Q w :
  F w ->
  wp R G ok p (fun ok' r w' =>
    F w' /\ R w w' /\ (ok' = true -> ok = true /\ exists a, r = Ok a)) w ->
  (forall ok' r w', R w w' -> F w' -> (ok' = true -> ok = true /\ r = Ok tt) -> Q ok' r w') ->
  wp R G ok (p ;;; try_except (call (ReleaseLock (lock_name_of (s_challenge_id t))))
                     (fun _ => Ret tt)) Q w.
Proof.
  intros Hf Hp HQ. apply wp_bind. eapply wp_mono; [|exact Hp].
  intros ok' r w' (Hf' & Hr' & Hok). destruct r as [a|e].
  - apply spec_release_lock; [done|]. intros w2 Hr2 Hf2. apply HQ; [|done|].
    + by eapply grows_trans.
    + intros H. by destruct (Hok H).
  - cbn [wp]. apply HQ; [done..|]. intros H. destruct (Hok H) as (_ & a & [=]).
Qed.

Lemma spec_print msg ok (Q : bool -> result unit -> world -> Prop) w :
  F w -> (forall w', R w w' -> F w' -> Q ok (Ok tt) w') -> wp R G ok (print msg) Q w.
Proof.
  intros Hf HQ. cbn [print wp]. intros w1 Hr.
  pose proof (hook_facts_stable _ _ _ _ _ Hf Hr) as Hf1.
  destruct (log_facts sound known t msg w1 Hf1) as [Hf2 Hr2].
  apply HQ; [|done]. by eapply grows_trans.
Qed.

Lemma is_unique_violation_duplicate : is_unique_violation duplicate_entry = true.
Proof. vm_compute. reflexivity. Qed.

(** An operation other than [GET_LOCK] goes through or raises. *)
Lemma exec_cases X (o : op X) ch w :
  kind_of o <> KGetLock ->
  (exec o ch w = perform o (add_trace (kind_of o) w) /\ benign o ch = true) \/
  (exists e, ch = Fault e /\ exec o ch w = (Err e, add_trace (kind_of o) w)).
Proof.
  intros Hk. destruct ch as [|e|lr]; [by left|right; by exists e|left].
  by destruct o.
Qed.

(** STEP 4. *)
Lemma spec_record_first_blood key ts prestige ok Q w :
  F w ->
  prestige = calculate_prestige_score
               (default (Some 100) (challenges w !! s_challenge_id t)) ->
  (forall d, s_date t = Some d -> ts = d) ->
  (forall s, s ∈ known -> earlier_solve (s_challenge_id t) ts (s_user_id t) s = false) ->
  (forall ok' r w', R w w' -> F w' ->
     (ok' = true -> ok = true /\ r = Ok tt /\ (sound = true -> decided t w')) ->
     Q ok' r w') ->
  wp R G ok (record_first_blood cfg key t ts prestige) Q w.
Proof.
  intros Hf Hp Hd Hk HQ. unfold record_first_blood.
  (* what is left to do after the INSERT and the cache *)
  assert (Hdone : forall ok1 w2, R w w2 -> F w2 ->
            (ok1 = true -> ok = true /\ (sound = true -> decided t w2)) ->
            wp R G ok1
              (try_except (call (ReleaseLock (lock_name_of (s_challenge_id t))))
                 (fun _ => Ret tt)) Q w2).
  { intros ok1 w2 Hr4 Hf4 Hok. apply spec_release_lock; [done|].
    intros w3 Hr5 Hf5. apply HQ; [by eapply grows_trans|done|].
    intros H. destruct (Hok H) as [? Hdec]. split; [done|]. split; [done|].
    intros Hsd. eapply decided_stable; [by apply Hdec|done]. }
  assert (Hfail : forall e w2, R w w2 -> F w2 -> Q false (Err e) w2).
  { intros e w2 Hr4 Hf4. by apply HQ. }
  assert (Hquiet : forall (p : prog unit) w2, only_ops (quiet_op cfg) p -> R w w2 -> F w2 ->
            wp R G false p
              (fun ok' r w' =>
                 wp R G ok'
                   match r with
                   | Ok _ => try_except (call (ReleaseLock (lock_name_of (s_challenge_id t))))
                               (fun _ => Ret tt)
                   | Err e => Raise e
                   end Q w') w2).
  { intros p w2 Hp2 Hr4 Hf4. apply wp_frame; [done..|].
    intros ok' r w' Hr5 Hf5 Hok.
    assert (ok' = false) as -> by (destruct ok'; [by specialize (Hok eq_refl)|done]).
    destruct r; [|apply Hfail; [by eapply grows_trans|done]].
    apply Hdone; [by eapply grows_trans|done..]. }
  assert (Hhandler : forall e w2, R w w2 -> F w2 ->
            wp R G false
              (if is_unique_violation e
               then print "[PHASE2 FIRST BLOOD INFO] Concurrent first blood detected, another transaction won" ;;;
                    set_signed_cache cfg key "1" (Some FIRST_BLOOD_REDIS_TTL)
               else Raise e)
              (fun ok' r w' =>
                 wp R G ok'
                   match r with
                   | Ok _ => try_except (call (ReleaseLock (lock_name_of (s_challenge_id t))))
                               (fun _ => Ret tt)
                   | Err e => Raise e
                   end Q w') w2).
  { intros e w2 Hr4 Hf4. apply Hquiet; [|done..]. destruct (is_unique_violation e).
    - apply only_ops_bind; [apply only_ops_print|]. intros _.
      rewrite set_signed_cache_hint. by apply only_ops_call.
    - constructor. }
  apply wp_bind. apply wp_try_except. cbn [bind call wp].
  intros w1 ch Hr. pose proof (hook_facts_stable _ _ _ _ _ Hf Hr) as Hf1.
  assert (Hg : G _ (InsertFirstBlood (s_id t) (s_challenge_id t) (s_user_id t)
                      (s_team_id t) prestige ts) w1).
  { destruct Hr as (_ & _ & Hch & _). cbn [hook_op]. rewrite Hch. done. }
  split; [done|].
  destruct (exec_facts cfg sound known t _ _ ch w1 Hf1 Hg) as [Hf2 Hr2].
  pose proof (grows_trans _ _ _ _ Hr Hr2) as Hr3.
  destruct (exec_cases _ (InsertFirstBlood (s_id t) (s_challenge_id t) (s_user_id t)
                            (s_team_id t) prestige ts) ch w1 ltac:(done))
    as [[He Hb] | (e & -> & He)]; rewrite He in *; clear He.
  2:{ (* the statement raises *)
      cbn [benign fst snd bind try_except wp]. rewrite andb_false_r. by apply Hhandler. }
  rewrite Hb, andb_true_r. clear Hb. cbn [perform kind_of] in *.
  destruct (existsb _ _) eqn:Hdup; cbn [fst snd bind try_except wp] in Hf2, Hr2, Hr3 |- *.
  - (* a duplicate *)
    rewrite is_unique_violation_duplicate.
    apply wp_bind. apply spec_print; [done|]. intros w2 Hr4 Hf4.
    cbn match. apply spec_set_hint; [done|]. intros ok2 r2 w3 Hr5 Hf5 Hok.
    assert (Hr6 : R w w3) by (eapply grows_trans; [exact Hr3|]; by eapply grows_trans).
    destruct r2 as [[]|e2]; cbn [wp].
    + apply Hdone; [done..|]. intros H. destruct (Hok H) as [-> _]. split; [done|].
      intros Hsd. eapply decided_stable;
        [apply (duplicate_means_decided (add_trace KInsertFirstBlood w1)); done|].
      by eapply grows_trans.
    + assert (ok2 = false) as -> by (destruct ok2; [by destruct (Hok eq_refl)|done]).
      by apply Hfail.
  - (* the row is inserted *)
    apply wp_bind. rewrite set_signed_cache_hint. apply wp_call. intros w2 ch2 Hr4.
    pose proof (hook_facts_stable _ _ _ _ _ Hf2 Hr4) as Hf4.
    assert (Hg2 : G _ (CacheSet key (hint_text cfg) (Some FIRST_BLOOD_REDIS_TTL)) w2) by done.
    split; [done|].
    destruct (exec_facts cfg sound known t _ _ ch2 w2 Hf4 Hg2) as [Hf5 Hr5].
    assert (Hdec : decided t w2).
    { eapply decided_stable; [|exact Hr4]. left. eexists. split.
      - cbn [first_blood set_first_blood]. apply elem_of_app. right. left.
      - done. }
    pose proof (grows_trans _ _ _ _ Hr3 (grows_trans _ _ _ _ Hr4 Hr5)) as Hr6.
    destruct (exec_cases _ (CacheSet key (hint_text cfg) (Some FIRST_BLOOD_REDIS_TTL)) ch2 w2
                ltac:(done)) as [[He Hb] | (e2 & -> & He)]; rewrite He in *; clear He.
    + rewrite Hb, andb_true_r. cbn [perform fst snd wp print] in Hf5, Hr5, Hr6 |- *.
      intros w3 Hr7.
      pose proof (hook_facts_stable _ _ _ _ _ Hf5 Hr7) as Hf7.
      destruct (log_facts sound known t "[PHASE2 FIRST BLOOD] first blood recorded"
                  w3 Hf7) as [Hf8 Hr8].
      apply Hdone; [|done|].
      * eapply grows_trans; [exact Hr6|]. by eapply grows_trans.
      * intros ->. split; [done|]. intros _. eapply decided_stable; [exact Hdec|].
        eapply grows_trans; [exact Hr5|]. by eapply grows_trans.
    + cbn [benign fst snd wp] in Hf5, Hr5, Hr6 |- *. rewrite andb_false_r.
      by apply Hhandler.
Qed.

End HookProof.

Section HookProof2.

Context (cfg : config) (sound : bool) (known : list Solve) (t : Solve).

Local Abbreviation R := (grows sound).
Local Abbreviation G := (hook_op cfg known t).
Local Abbreviation F := (hook_facts sound known t).

(** STEP 2 and STEP 3. *)
Lemma spec_decide_first_blood key ts ok Q w :
  F w ->
  (forall d, s_date t = Some d -> ts = d) ->
  (forall ok' r w', R w w' -> F w' ->
     (ok' = true -> ok = true /\ r = Ok tt /\ (sound = true -> decided t w')) ->
     Q ok' r w') ->
  wp R G ok (decide_first_blood cfg key t ts) Q w.
Proof.
  intros Hf Hd HQ. unfold decide_first_blood. cbn [bind call wp].
  assert (Hfail : forall e w2, R w w2 -> F w2 -> Q false (Err e) w2).
  { intros e w2 Hr4 Hf4. by apply HQ. }
  assert (Hset : forall ok1 w2, R w w2 -> F w2 ->
            (ok1 = true -> ok = true /\ (sound = true -> decided t w2)) ->
            wp R G ok1 (set_signed_cache cfg key "1" (Some FIRST_BLOOD_REDIS_TTL)) Q w2).
  { intros ok1 w2 Hr2 Hf2 Hok. apply spec_set_hint; [done|].
    intros ok' r w' Hr3 Hf3 Hok'. apply HQ; [by eapply grows_trans|done|].
    intros H. destruct (Hok' H) as [H1 ->]. destruct (Hok H1) as [-> Hdec].
    split; [done|]. split; [done|]. intros Hsd. eapply decided_stable; [by apply Hdec|done]. }
  intros w1 ch Hr. pose proof (hook_facts_stable _ _ _ _ _ Hf Hr) as Hf1.
  split; [done|].
  destruct (exec_facts cfg sound known t _ (SelectFirstBlood (s_challenge_id t)) ch w1 Hf1 I)
    as [Hf2 Hr2].
  pose proof (grows_trans _ _ _ _ Hr Hr2) as Hr3.
  destruct (exec_cases _ (SelectFirstBlood (s_challenge_id t)) ch w1 ltac:(done))
    as [[He Hb] | (e & -> & He)]; rewrite He in *; clear He.
  2:{ cbn [benign fst snd bind wp]. rewrite andb_false_r. by apply Hfail. }
  rewrite Hb, andb_true_r. clear Hb. cbn [perform kind_of fst snd] in Hf2, Hr2, Hr3 |- *.
  change (first_blood (add_trace KSelectFirstBlood w1)) with (first_blood w1).
  destruct (head (List.filter _ (first_blood w1))) as [row|] eqn:Hhead;
    cbn [fmap option_fmap option_map bind wp].
  { (* the challenge has its row *)
    apply head_filter_Some in Hhead as [Hin Hc]. apply Hset; [done..|].
    intros ->. split; [done|]. intros _. left. exists row. split; [done|lia]. }
  (* STEP 3 *)
  intros w2 ch2 Hr4. pose proof (hook_facts_stable _ _ _ _ _ Hf2 Hr4) as Hf4.
  split; [done|].
  destruct (exec_facts cfg sound known t _
              (SelectEarlierSolve (s_challenge_id t) ts (s_user_id t)) ch2 w2 Hf4 I)
    as [Hf5 Hr5].
  pose proof (grows_trans _ _ _ _ Hr3 (grows_trans _ _ _ _ Hr4 Hr5)) as Hr6.
  destruct (exec_cases _ (SelectEarlierSolve (s_challenge_id t) ts (s_user_id t)) ch2 w2
              ltac:(done)) as [[He Hb] | (e & -> & He)]; rewrite He in *; clear He.
  2:{ cbn [benign fst snd bind wp]. rewrite andb_false_r. by apply Hfail. }
  rewrite Hb, andb_true_r. clear Hb. cbn [perform kind_of fst snd] in Hf5, Hr5, Hr6 |- *.
  change (solves (add_trace KSelectEarlierSolve w2)) with (solves w2).
  destruct (first_by_date _) as [s|] eqn:Hfirst; cbn [bind wp].
  { (* an earlier solve *)
    apply first_by_date_in, elem_of_filter_bool in Hfirst as [Hin He].
    apply Hset; [done..|]. intros ->. split; [done|]. intros _.
    right. exists s, ts. done. }
  apply first_by_date_None in Hfirst.
  assert (Hnone : forall s, s ∈ known ->
            earlier_solve (s_challenge_id t) ts (s_user_id t) s = false).
  { intros s Hs. eapply filter_nil_false; [exact Hfirst|]. destruct Hf4 as (_ & Hk & _).
    by apply Hk. }
  (* the value of the challenge *)
  intros w3 ch3 Hr7. pose proof (hook_facts_stable _ _ _ _ _ Hf5 Hr7) as Hf7.
  split; [done|].
  destruct (exec_facts cfg sound known t _ (SelectChallengeValue (s_challenge_id t)) ch3 w3
              Hf7 I) as [Hf8 Hr8].
  pose proof (grows_trans _ _ _ _ Hr6 (grows_trans _ _ _ _ Hr7 Hr8)) as Hr9.
  destruct (exec_cases _ (SelectChallengeValue (s_challenge_id t)) ch3 w3 ltac:(done))
    as [[He Hb] | (e & -> & He)]; rewrite He in *; clear He.
  2:{ cbn [benign fst snd bind wp]. rewrite andb_false_r. by apply Hfail. }
  rewrite Hb, andb_true_r. clear Hb. cbn [perform kind_of fst snd] in Hf8, Hr8, Hr9 |- *.
  cbn [bind].
  apply spec_record_first_blood; [done| |done|done|].
  - change (challenges (add_trace KSelectChallengeValue w3)) with (challenges w3).
    by destruct (challenges w3 !! s_challenge_id t).
  - intros ok' r w' Hr10 Hf10 Hok. apply HQ; [by eapply grows_trans|done..].
Qed.

(** The whole hook. *)
Lemma spec_on_solve_inserted w :
  F w ->
  (sound = true -> FIRST_BLOOD_ENABLED cfg = true) ->
  wp R G true (on_solve_inserted cfg t) (hook_post sound t) w.
Proof.
  intros Hf Hen. unfold on_solve_inserted.
  destruct (FIRST_BLOOD_ENABLED cfg) eqn:Henabled; cbn [negb].
  2:{ cbn [wp]. split; [done|]. intros Hsd. by specialize (Hen Hsd). }
  assert (Hpost : forall ok' r w', R w w' -> F w' ->
            (sound = true -> ok' = true -> r = Ok tt /\ decided t w') ->
            wp R G ok'
              match r with
              | Ok a => Ret a
              | Err e =>
                  print ("[PHASE2 FIRST BLOOD ERROR] Failed to record first blood: "
                         +:+ str_of_exn e) ;;;
                  print "Traceback (most recent call last)"
              end (hook_post sound t) w').
  { intros ok' r w' Hr Hf' Hok. destruct r as [[]|e].
    - cbn [wp]. split; [done|]. intros Hsd H. by destruct (Hok Hsd H).
    - cbn [print bind wp]. intros w1 _ w2 _. split; [done|].
      intros Hsd H. by destruct (Hok Hsd H) as [[=] _]. }
  apply wp_try_except. unfold on_solve_inserted_body.
  apply wp_bind.
  assert (Hrest : forall ok0 ts w0, R w w0 -> F w0 -> (forall d, s_date t = Some d -> ts = d) ->
            wp R G ok0
              (let! cached_hint := get_signed_cache cfg (redis_key_of (s_challenge_id t)) in
               let! locked := acquire_lock (s_challenge_id t) in
               if negb locked then Ret tt
               else decide_first_blood cfg (redis_key_of (s_challenge_id t)) t ts)
              (fun ok' r w' =>
                 wp R G ok'
                   match r with
                   | Ok a => Ret a
                   | Err e =>
                       print ("[PHASE2 FIRST BLOOD ERROR] Failed to record first blood: "
                              +:+ str_of_exn e) ;;;
                       print "Traceback (most recent call last)"
                   end (hook_post sound t) w') w0).
  { intros ok0 ts w0 Hr0 Hf0 Hts. apply wp_bind. apply spec_get_signed_cache; [done|].
    intros ok1 r1 w1 Hr1 Hf1 Hok1 Hres.
    pose proof (grows_trans _ _ _ _ Hr0 Hr1) as Hr01.
    destruct r1 as [hint|e1].
    2:{ apply (Hpost ok1 (Err e1) w1); [done..|]. intros Hsd H.
        by destruct (Hres Hsd H) as [a [=]]. }
    apply wp_bind. apply spec_acquire_lock; [done|].
    intros ok2 locked w2 Hr2 Hf2 Hok2.
    pose proof (grows_trans _ _ _ _ Hr01 Hr2) as Hr02.
    destruct locked; cbn [negb].
    2:{ apply (Hpost ok2 (Ok tt) w2); [done..|]. intros _ H. by destruct (Hok2 H) as [_ [=]]. }
    apply spec_decide_first_blood; [done..|].
    intros ok3 r3 w3 Hr3 Hf3 Hok3. apply Hpost; [by eapply grows_trans|done|].
    intros Hsd H. destruct (Hok3 H) as (_ & ? & Hdec). split; [done|by apply Hdec]. }
  destruct (s_date t) as [d|] eqn:Hdate.
  - apply (Hrest true d w); [by eapply hook_facts_grows_refl|done|]. by intros ? [= ->].
  - cbn [call wp]. intros w1 ch Hr. pose proof (hook_facts_stable _ _ _ _ _ Hf Hr) as Hf1.
    split; [done|].
    destruct (exec_facts cfg sound known t _ Utcnow ch w1 Hf1 I) as [Hf2 Hr2].
    pose proof (grows_trans _ _ _ _ Hr Hr2) as Hr3.
    destruct (exec_cases _ Utcnow ch w1 ltac:(done)) as [[He Hb] | (e & -> & He)];
      rewrite He in *; clear He.
    + cbn [perform fst snd] in Hf2, Hr2, Hr3 |- *. apply Hrest; [done..|]. by intros.
    + cbn [fst snd benign] in Hf2, Hr2, Hr3 |- *.
      apply (Hpost false (Err e)); [done..|]. by intros.
Qed.

End HookProof2.

(** ** Hooks that take turns *)

Lemma solve_eqb_eq a b : solve_eqb a b = true -> a = b.
Proof.
  unfold solve_eqb. rewrite !andb_true_iff, !Z.eqb_eq, !bool_decide_eq_true.
  destruct a, b; cbn. by intros ((((-> & ->) & ->) & ->) & ->).
Qed.

Lemma solve_eqb_refl a : solve_eqb a a = true.
Proof.
  unfold solve_eqb. rewrite !andb_true_iff, !Z.eqb_eq, !bool_decide_eq_true. done.
Qed.

Lemma existsb_solve_eqb s l : existsb (solve_eqb s) l = true -> s ∈ l.
Proof. by intros (x & Hx & ->%solve_eqb_eq)%existsb_elem_of. Qed.

Lemma existsb_false_elem_of {A} (f : A -> bool) l x :
  existsb f l = false -> x ∈ l -> f x = false.
Proof.
  induction l as [|a l IH]; cbn [existsb]; [by intros _ ?%elem_of_nil|].
  intros [Ha Hl]%orb_false_iff [->|Hx]%elem_of_cons; auto.
Qed.

Section Pool.

Context (cfg : config) (sound : bool) (known : list Solve).

(** A further fact about the table, kept by the operations the hooks may
    perform and by the solves a schedule is [allowed] to insert. *)
Context (J : world -> Prop) (allowed : Solve -> Prop).
Context (J_exec : forall t X (o : op X) ch w,
  J w -> hook_facts sound known t w -> hook_op cfg known t X o w -> J (snd (exec o ch w))).
Context (J_log : forall msg w, J w -> J (add_log msg w)).
Context (J_insert : forall s w, J w -> allowed s -> J (insert_solve s w)).
Context (enabled : sound = true -> FIRST_BLOOD_ENABLED cfg = true).

Local Abbreviation R := (grows sound).

Lemma hook_post_stable t ok r w w' :
  hook_post sound t ok r w -> R w w' -> hook_post sound t ok r w'.
Proof.
  intros [Hr Hd] Hg. split; [done|]. intros Hs Hok.
  eapply decided_stable; [by apply Hd|done].
Qed.

Lemma thread_ok_stable B B' w w' th :
  thread_ok cfg sound known B w th -> R w w' -> (B' = true -> B = true) ->
  thread_ok cfg sound known B' w' th.
Proof.
  intros (Hin & ok & Hok & Hwp) Hr HB. split; [by apply (proj1 Hr)|].
  exists ok. split; [auto|].
  eapply wp_stable; [apply grows_trans| |exact Hr|exact Hwp]. intros; by eapply hook_post_stable.
Qed.

Lemma world_ok_facts t w :
  world_ok sound known w -> t ∈ solves w -> hook_facts sound known t w.
Proof. intros [H1 H2] Ht. done. Qed.

Lemma facts_world_ok t w : hook_facts sound known t w -> world_ok sound known w.
Proof. by intros (_ & H1 & H2). Qed.

Lemma insert_solve_grows s w :
  world_ok sound known w ->
  existsb (fun x => s_id x =? s_id s) (solves w) = false ->
  R w (insert_solve s w).
Proof.
  intros [Hk Hs] Hfresh. split; [by apply list_subseteq_app_l|].
  split; [done|]. split; [done|].
  intros Hsd. destruct (Hs Hsd) as (Hc & Hnd & Hfk). split; [done|]. split.
  - cbn [insert_solve solves]. rewrite map_app. apply NoDup_app. split; [done|].
    split; [|apply NoDup_singleton].
    intros x Hx [= ->]%list_elem_of_singleton.
    apply list_elem_of_In, in_map_iff in Hx as (y & Hy & Hin%list_elem_of_In).
    pose proof (existsb_false_elem_of _ _ _ Hfresh Hin) as Hne. cbn in Hne.
    apply Z.eqb_neq in Hne. done.
  - cbn [insert_solve solves first_blood]. intros r Hr.
    destruct (Hfk r Hr) as (x & Hx & H1 & H2). exists x. split; [|done].
    apply elem_of_app. by left.
Qed.

Lemma grows_world_ok w w' : world_ok sound known w -> R w w' -> world_ok sound known w'.
Proof. intros [Hk Hs] (H1 & _ & _ & H4). split; [by etrans|done]. Qed.

(** One turn keeps the pool well behaved. *)
Lemma step1_sound a B st :
  pool_ok cfg sound known B st -> J (fst st) -> allowed_action allowed a ->
  pool_ok cfg sound known (B && benign_action a st) (step1 cfg a st)
  /\ J (fst (step1 cfg a st)).
Proof.
  destruct st as [w ts]. intros [Hw Hts] HJ Ha. cbn [fst snd] in *.
  assert (Hweak : forall b, Forall (thread_ok cfg sound known (B && b) w) ts).
  { intros b. eapply Forall_impl; [exact Hts|]. intros th Hth.
    eapply thread_ok_stable; [exact Hth| |].
    - apply grows_refl, Hw.
    - by intros [? _]%andb_true_iff. }
  assert (Hsame : forall b, pool_ok cfg sound known (B && b) (w, ts) /\ J (fst (w, ts))).
  { intros b. split; [split|]; [done|apply Hweak|done]. }
  destruct a as [s|s|i ch]; cbn [step1 benign_action snd].
  - destruct (existsb _ _) eqn:Hfresh; [apply Hsame|].
    pose proof (insert_solve_grows s w Hw Hfresh) as Hr.
    split; [|by apply J_insert]. split; [by eapply grows_world_ok|].
    cbn [fst snd]. eapply Forall_impl; [exact Hts|]. intros th Hth.
    eapply thread_ok_stable; [exact Hth|exact Hr|].
    by intros [? _]%andb_true_iff.
  - destruct (existsb _ _) eqn:Hin; [|apply Hsame].
    apply existsb_solve_eqb in Hin. split; [|done]. split; [done|].
    cbn [fst snd]. apply Forall_app. split; [apply Hweak|].
    apply Forall_cons. split; [|apply Forall_nil; done].
    split; [done|]. exists true. split; [done|]. cbn [fst snd].
    apply spec_on_solve_inserted; [by apply world_ok_facts|done].
  - destruct (ts !! i) as [[t p]|] eqn:Hi; [|apply Hsame].
    pose proof (proj1 (Forall_lookup _ _) Hts i _ Hi) as (Hin & ok & Hok & Hwp).
    cbn [fst snd] in Hin, Hwp.
    pose proof (world_ok_facts t w Hw Hin) as Hf.
    pose proof (grows_refl sound w (proj2 Hw)) as Hrefl.
    destruct p as [a|e|msg p|X o k]; try apply Hsame.
    + destruct (log_facts sound known t msg w Hf) as [Hf' Hr].
      split; [|by apply J_log]. split; [by eapply facts_world_ok|].
      cbn [fst snd]. apply Forall_insert.
      * eapply Forall_impl; [exact Hts|]. intros th Hth.
        eapply thread_ok_stable; [exact Hth|exact Hr|].
        by intros [? _]%andb_true_iff.
      * split; [exact (proj1 Hf')|]. exists ok. split; [intros [? _]%andb_true_iff; auto|].
        cbn [fst snd wp] in *. by apply Hwp.
    + cbn [wp] in Hwp. destruct (Hwp w ch Hrefl) as [Hg Hk].
      destruct (exec_facts cfg sound known t X o ch w Hf Hg) as [Hf' Hr].
      pose proof (J_exec t X o ch w HJ Hf Hg) as HJ'.
      destruct (exec o ch w) as [r w'] eqn:He. cbn [fst snd] in *.
      split; [|exact HJ'].
      split; [by eapply facts_world_ok|].
      cbn [fst snd]. apply Forall_insert.
      * eapply Forall_impl; [exact Hts|]. intros th Hth.
        eapply thread_ok_stable; [exact Hth|exact Hr|].
        by intros [? _]%andb_true_iff.
      * split; [exact (proj1 Hf')|]. exists (ok && benign o ch). split; [|done].
        intros [HB Hb]%andb_true_iff. by rewrite (Hok HB), Hb.
Qed.

(** Any schedule keeps the pool well behaved. *)
Lemma interleave_sound acts : forall B st,
  pool_ok cfg sound known B st -> J (fst st) -> Forall (allowed_action allowed) acts ->
  pool_ok cfg sound known (B && benign_schedule cfg acts st) (interleave cfg acts st)
  /\ J (fst (interleave cfg acts st)).
Proof.
  induction acts as [|a acts IH]; intros B st Hp HJ Ha.
  - cbn. by rewrite andb_true_r.
  - apply Forall_cons in Ha as [Ha Has].
    destruct (step1_sound a B st Hp HJ Ha) as [Hp' HJ'].
    destruct (IH _ _ Hp' HJ' Has) as [Hp'' HJ''].
    cbn [benign_schedule]. unfold interleave in *. cbn [fold_left].
    by rewrite andb_assoc.
Qed.

End Pool.

(** ** One first-blood row per challenge *)





(** *** The order of the tie-break *)










(** ** What the rows of a hook look like *)

(** An operation of the hook of [t] leaves the solves and the challenges
    alone, and adds at most one first-blood row, for [t]. *)
Lemma hook_exec_tables cfg known t X (o : op X) ch w :
  hook_op cfg known t X o w ->
  solves (snd (exec o ch w)) = solves w /\
  challenges (snd (exec o ch w)) = challenges w /\
  (first_blood (snd (exec o ch w)) = first_blood w \/
   exists r, first_blood (snd (exec o ch w)) = (first_blood w ++ [r])%list /\
     records_solve t r /\
     fb_prestige_score r
       = calculate_prestige_score (default (Some 100) (challenges w !! s_challenge_id t)) /\
     forall s, s ∈ known ->
       earlier_solve (s_challenge_id t) (fb_timestamp r) (s_user_id t) s = false).
Proof.
  intros Hg.
  assert (Hins : forall solve_id c u tm prestige ts,
    hook_op cfg known t _ (InsertFirstBlood solve_id c u tm prestige ts) w ->
    let w' := snd (perform (InsertFirstBlood solve_id c u tm prestige ts)
                           (add_trace KInsertFirstBlood w)) in
    solves w' = solves w /\ challenges w' = challenges w /\
    (first_blood w' = first_blood w \/
     exists r, first_blood w' = (first_blood w ++ [r])%list /\
       records_solve t r /\
       fb_prestige_score r
         = calculate_prestige_score (default (Some 100) (challenges w !! s_challenge_id t)) /\
       forall s, s ∈ known ->
         earlier_solve (s_challenge_id t) (fb_timestamp r) (s_user_id t) s = false)).
  { intros solve_id c u tm prestige ts (-> & -> & -> & -> & -> & Hd & Hk).
    cbn [perform first_blood add_trace].
    destruct (existsb _ _); cbn [snd solves challenges first_blood set_first_blood add_trace];
      [auto|].
    split; [done|]. split; [done|]. right. eexists. split; [done|].
    split; [by repeat split|]. split; [done|]. exact Hk. }
  destruct ch as [|e|lr]; destruct o; cbn [hook_op] in Hg; try done;
    unfold exec; cbn [kind_of]; try (by apply Hins); world_simpl; auto.
Qed.

Section Winner.

Context (cfg : config) (c : Z) (m : Solve).



End Winner.

Section Prestige.

Context (cfg : config) (w0 : world).

Lemma prestige_inv_exec t X (o : op X) ch w :
  prestige_inv w0 w -> hook_facts false [] t w -> hook_op cfg [] t X o w ->
  prestige_inv w0 (snd (exec o ch w)).
Proof.
  intros [Hc Hr] _ Hg.
  destruct (hook_exec_tables cfg [] t X o ch w Hg) as (_ & H2 & [H3 | (r & H3 & Hrec & Hp & _)]);
    (split; [by rewrite H2|]); rewrite H3; [done|].
  intros r' [Hin | ->%list_elem_of_singleton]%elem_of_app; [by apply Hr|].
  right. destruct Hrec as (_ & -> & _). by rewrite <- Hc.
Qed.

End Prestige.

Lemma calculate_prestige_score_positive v :
  0 < v -> calculate_prestige_score (Some v) = 3 * v / 2.
Proof.
  intros Hv. unfold calculate_prestige_score.
  destruct (v =? 0) eqn:H0; [apply Z.eqb_eq in H0; lia|].
  destruct (v <=? 0) eqn:H1; [apply Z.leb_le in H1; lia|]. cbn [orb].
  rewrite Z.quot_div_nonneg by lia. f_equal. lia.
Qed.

Lemma calculate_prestige_score_default v :
  v <= 0 -> calculate_prestige_score (Some v) = 150 /\ calculate_prestige_score None = 150.
Proof.
  intros Hv. unfold calculate_prestige_score. split; [|done].
  destruct (v =? 0); [done|]. apply Z.leb_le in Hv. by rewrite Hv.
Qed.

(** ** The first-blood engine under every schedule *)












(** *** What the engine leaves alone *)

Lemma only_appended_exec cfg w0 t X (o : op X) ch w :
  only_appended w0 w -> hook_facts false [] t w -> hook_op cfg [] t X o w ->
  only_appended w0 (snd (exec o ch w)).
Proof.
  intros (Hc & Hf & Hs) _ Hg.
  destruct (hook_exec_tables cfg [] t X o ch w Hg) as (H1 & H2 & [H3 | (r & H3 & _)]);
    (split; [by rewrite H2|]); rewrite H1, H3; (split; [|done]); [done|].
  by apply prefix_app_r.
Qed.

(** Whatever the hooks do, the rows there were are the first rows there
    are. *)
Lemma interleave_only_appended cfg acts w0 :
  only_appended w0 (fst (interleave cfg acts (w0, []))).
Proof.
  assert (Hp0 : pool_ok cfg false [] true (w0, [])).
  { split; [|apply Forall_nil; done]. split; [|done]. by intros x ?%elem_of_nil. }
  assert (HJ0 : only_appended w0 w0) by done.
  assert (Hins : forall (s : Solve) (w : world),
            only_appended w0 w -> True -> only_appended w0 (insert_solve s w)).
  { intros s w (Hc & Hf & Hs) _. split; [done|]. split; [done|].
    cbn [insert_solve solves]. by apply prefix_app_r. }
  destruct (interleave_sound cfg false [] (only_appended w0) (fun _ => True)
              (only_appended_exec cfg w0) ltac:(done) Hins
              ltac:(done) acts true (w0, []) Hp0 HJ0) as [_ HJ]; [|done].
  apply Forall_forall. intros a _. by destruct a.
Qed.





Lemma prestige_rows cfg acts w0 :
  prestige_inv w0 (fst (interleave cfg acts (w0, []))).
Proof.
  assert (Hp0 : pool_ok cfg false [] true (w0, [])).
  { split; [|apply Forall_nil; done]. split; [|done]. by intros x ?%elem_of_nil. }
  assert (HJ0 : prestige_inv w0 w0) by (split; [done|]; intros r Hr; by left).
  destruct (interleave_sound cfg false [] (prestige_inv w0) (fun _ => True)
              (prestige_inv_exec cfg w0) ltac:(done) ltac:(done)
              ltac:(done) acts true (w0, []) Hp0 HJ0) as [_ HJ]; [|done].
  apply Forall_forall. intros a _. by destruct a.
Qed.

(** C7 (as amended). Every first-blood row the engine adds, under any
    schedule, carries the score computed from the value the challenge has:
    for a positive value [v] the integer part of [1.5 * v] (exactly
    [1.5 * v] when [v] is even), and 150, the score of the default value
    100, when the challenge has no row, no value, or a value of zero or
    less. *)
Theorem recorded_prestige_is_truncated_multiple cfg acts w0 r :
  r ∈ first_blood (fst (interleave cfg acts (w0, []))) -> r ∉ first_blood w0 ->
  match challenges w0 !! fb_challenge_id r with
  | Some (Some v) =>
      (0 < v -> fb_prestige_score r = 3 * v / 2
                /\ (Z.even v = true -> 2 * fb_prestige_score r = 3 * v))
      /\ (v <= 0 -> fb_prestige_score r = 150)
  | _ => fb_prestige_score r = 150
  end.
Proof.
  intros Hr Hnew. destruct (prestige_rows cfg acts w0) as [_ H].
  destruct (H r Hr) as [Hold | Hp]; [done|]. rewrite Hp.
  destruct (challenges w0 !! fb_challenge_id r) as [[v|]|];
    unfold default; cbn [from_option id]; try done.
  split.
  - intros Hv. rewrite calculate_prestige_score_positive by done. split; [done|].
    intros He. apply Z.even_spec in He as [k ->].
    replace (3 * (2 * k)) with (3 * k * 2) by lia. rewrite Z.div_mul by lia. lia.
  - intros Hv. by apply calculate_prestige_score_default.
Qed.

Lemma recorded_prestige_is_truncated_multiple_witness :
  (0 < 5 -> fb_prestige_score odd_value_row = 3 * 5 / 2
            /\ (Z.even 5 = true -> 2 * fb_prestige_score odd_value_row = 3 * 5))
  /\ (5 <= 0 -> fb_prestige_score odd_value_row = 150).
Proof.
  apply (recorded_prestige_is_truncated_multiple default_config odd_value_schedule fresh_world
           odd_value_row).
  - apply list_elem_of_In. vm_compute. left. reflexivity.
  - apply not_elem_of_nil.
Defined.

(** Challenge 4 is worth 5 points: the row records 7, and 1.5 times 5 is
    not 7. *)
Lemma recorded_prestige_of_odd_value :
  challenges fresh_world !! 4 = Some (Some 5)
  /\ first_blood (fst (interleave default_config odd_value_schedule (fresh_world, [])))
     = [odd_value_row]
  /\ fb_prestige_score odd_value_row = 7
  /\ 2 * fb_prestige_score odd_value_row <> 3 * 5.
Proof. vm_compute. repeat split. done. Qed.

(** ** The cache hint *)




Lemma exec_prog_try_bind {A B} (p : prog A) (f : A -> prog B) h chs w a w' chs' :
  exec_prog p chs w = (Ok a, w', chs') ->
  exec_prog (try_except (bind p f) h) chs w = exec_prog (try_except (f a) h) chs' w'.
Proof.
  intros H. rewrite !exec_prog_try_except, exec_prog_bind, H. reflexivity.
Qed.



Section Hint.

Context (cfg : config) (t : Solve) (d : Z) (w : world).
Context (enabled : FIRST_BLOOD_ENABLED cfg = true).
Context (dated : s_date t = Some d).
Context (hint : cache w !! redis_key_of (s_challenge_id t) = Some (hint_text cfg)).

Local Abbreviation handler :=
  (fun e : exn =>
     print ("[PHASE2 FIRST BLOOD ERROR] Failed to record first blood: " +:+ str_of_exn e) ;;;
     print "Traceback (most recent call last)").




End Hint.


Lemma hinted_world_cache :
  cache hinted_world !! redis_key_of 3 = Some (hint_text default_config).
Proof. apply lookup_insert_eq. Qed.



(** ** Findings need consent *)

Ltac orm_simpl :=
  cbn [hd tl exec perform kind_of exec_prog bind try_except call print lift fst snd
       solves first_blood challenges cache session committed savepoints now log trace
       set_first_blood set_cache set_orm set_session add_log add_trace tick
       consent suspicion verdict_history head default from_option id tail negb].

Ltac next_choice :=
  match goal with
  | |- context [hd Go ?c] => is_var c; destruct c as [|[|?|?] ?]; orm_simpl
  end.

Ltac no_finding_done :=
  unfold no_finding; orm_simpl; split; [eauto|split; [reflexivity|eauto]].

(** The hook of the first user's consent: without it nothing is created. *)
Lemma no_consent_1 pattern chs w :
  active_consent w (p_user_id_1 pattern) = false ->
  no_finding w (run (create_suspicion_record pattern) chs w).
Proof.
  unfold active_consent. intros Hc. unfold run, create_suspicion_record, with_nested.
  orm_simpl.
  next_choice; try next_choice; try rewrite Hc; orm_simpl;
    repeat (first [no_finding_done | next_choice]).
Qed.

(** The second user's consent. *)
Lemma no_consent_2 pattern u chs w :
  p_user_id_2 pattern = Some u -> u <> 0 ->
  active_consent w u = false ->
  no_finding w (run (create_suspicion_record pattern) chs w).
Proof.
  unfold active_consent. intros H2 Hu Hc.
  destruct (active_consent w (p_user_id_1 pattern)) eqn:H1; [|by apply no_consent_1].
  unfold active_consent in H1.
  unfold run, create_suspicion_record, with_nested. rewrite H2.
  assert (Ht : truthy_id (Some u) = true).
  { cbn. by apply negb_true_iff, Z.eqb_neq. }
  rewrite Ht. orm_simpl.
  next_choice; try next_choice; try rewrite H1; orm_simpl;
    try next_choice; try rewrite Hc; orm_simpl;
    repeat (first [no_finding_done | next_choice]).
Qed.

Lemma involved_cases pattern u :
  u ∈ involved pattern ->
  u = p_user_id_1 pattern \/ (p_user_id_2 pattern = Some u /\ u <> 0).
Proof.
  unfold involved, truthy_id. intros [->|H]%elem_of_cons; [by left|]. right.
  destruct (p_user_id_2 pattern) as [v|]; [|by apply elem_of_nil in H].
  destruct (v =? 0) eqn:Hv; cbn in H; [by apply elem_of_nil in H|].
  apply list_elem_of_singleton in H as ->. split; [done|]. by apply Z.eqb_neq.
Qed.

Lemma no_consent_no_finding pattern u chs w :
  u ∈ involved pattern -> active_consent w u = false ->
  no_finding w (run (create_suspicion_record pattern) chs w).
Proof.
  intros [->|[H2 Hu]]%involved_cases Hc; [by apply no_consent_1|by eapply no_consent_2].
Qed.

(** When every operation goes through, the refusal leaves the session, the
    database and the savepoints as they were. *)
Lemma no_consent_quiet pattern u w :
  u ∈ involved pattern -> active_consent w u = false ->
  fst (run (create_suspicion_record pattern) [] w) = Ok None
  /\ session (snd (run (create_suspicion_record pattern) [] w)) = session w
  /\ committed (snd (run (create_suspicion_record pattern) [] w)) = committed w
  /\ savepoints (snd (run (create_suspicion_record pattern) [] w)) = savepoints w.
Proof.
  unfold active_consent. intros [->|[H2 Hu]]%involved_cases Hc.
  - unfold run, create_suspicion_record, with_nested. orm_simpl. rewrite Hc. orm_simpl.
    by destruct (session w).
  - unfold run, create_suspicion_record, with_nested. rewrite H2.
    assert (Ht : truthy_id (Some u) = true).
    { cbn. by apply negb_true_iff, Z.eqb_neq. }
    rewrite Ht. orm_simpl.
    destruct (consented (consent_of (p_user_id_1 pattern) (consent (session w)))); orm_simpl;
      try rewrite Hc; orm_simpl; by destruct (session w).
Qed.

Lemma consent_of_user u rows c : consent_of u rows = Some c -> uc_user_id c = u.
Proof.
  unfold consent_of. intros H.
  assert (Hin : c ∈ List.filter (fun c => uc_user_id c =? u) rows).
  { destruct (List.filter _ rows) as [|x l]; [done|]. cbn in H. injection H as ->. left. }
  by apply elem_of_filter_bool in Hin as [_ ?%Z.eqb_eq].
Qed.

Lemma consent_of_app_new u rows row :
  consent_of u rows = None -> uc_user_id row = u ->
  consent_of u (rows ++ [row]) = Some row.
Proof.
  unfold consent_of. intros H Hu. rewrite List.filter_app. cbn [List.filter].
  rewrite Hu, Z.eqb_refl. by destruct (List.filter _ rows).
Qed.

Lemma consent_of_update u rows row :
  is_Some (consent_of u rows) -> uc_user_id row = u ->
  consent_of u (map (fun c => if uc_user_id c =? uc_user_id row then row else c) rows)
  = Some row.
Proof.
  unfold consent_of. intros [c H] Hu. rewrite Hu.
  induction rows as [|x l IH]; [done|]. cbn [map List.filter] in *.
  destruct (uc_user_id x =? u) eqn:Hx.
  - by rewrite Hu, Z.eqb_refl.
  - rewrite Hx. auto.
Qed.

(** A withdrawal that went through leaves the user without active
    consent. *)
Lemma withdraw_consent_done u w :
  fst (run (withdraw_consent u) [] w) = Ok tt
  /\ active_consent (snd (run (withdraw_consent u) [] w)) u = false.
Proof.
  unfold run, withdraw_consent, active_consent. orm_simpl.
  destruct (consent_of u (consent (session w))) as [c|] eqn:Hc; orm_simpl.
  - split; [done|]. rewrite consent_of_update; [done|by rewrite Hc|].
    by apply consent_of_user in Hc.
  - cbn [uc_user_id]. rewrite Hc. orm_simpl. split; [done|].
    by rewrite consent_of_app_new.
Qed.

(** C3. [create_suspicion_record] creates no finding for a pattern one of
    whose users has no active consent: no consent row, or a row with
    [consented] false. (The users are [user_id_1], and [user_id_2] when the
    test [if user_id_2:] lets it count: it is given and not 0.) Whatever
    fails on the way, the call returns nothing or raises out of its own
    handler, commits nothing, and leaves the session as it was or rolled
    back to the database; when nothing fails it returns [None] and leaves
    session, database and savepoints as they were. After a withdrawal of
    the user's consent that went through, the same holds. *)
Theorem create_suspicion_record_requires_consent pattern u chs w :
  u ∈ involved pattern ->
  (active_consent w u = false ->
     no_finding w (run (create_suspicion_record pattern) chs w)
     /\ fst (run (create_suspicion_record pattern) [] w) = Ok None
     /\ session (snd (run (create_suspicion_record pattern) [] w)) = session w
     /\ committed (snd (run (create_suspicion_record pattern) [] w)) = committed w
     /\ savepoints (snd (run (create_suspicion_record pattern) [] w)) = savepoints w)
  /\ (fst (run (withdraw_consent u) [] w) = Ok tt
      /\ no_finding (snd (run (withdraw_consent u) [] w))
           (run (create_suspicion_record pattern) chs (snd (run (withdraw_consent u) [] w)))).
Proof.
  intros Hu. split.
  - intros Hc. split; [by eapply no_consent_no_finding|by eapply no_consent_quiet].
  - destruct (withdraw_consent_done u w) as [H1 H2]. split; [done|].
    by eapply no_consent_no_finding.
Qed.

(** ** Evidence is sanitized *)

Lemma dict_set_sanitized k v d :
  evidence_sanitized d -> sanitized_value v -> evidence_sanitized (dict_set k v d).
Proof.
  unfold evidence_sanitized. intros Hd Hv. induction d as [|[k' v'] r IH]; cbn [dict_set].
  - by constructor.
  - apply Forall_cons in Hd as [H1 H2].
    destruct (String.eqb k' k); constructor; auto.
Qed.

Lemma falsy_str s : Py.truthy_str s = false -> s = "".
Proof. by destruct s. Qed.

(** What [hash_ip] returns is [None] or a one-way hash. *)
Lemma hash_ip_sanitized v h : hash_ip v = Ok h -> sanitized_value h.
Proof.
  unfold hash_ip. destruct (negb (truthy v)); [by intros [= <-]|].
  destruct v as [| | |s]; try done. intros [= <-]. right. right. left. by exists s.
Qed.

Lemma str_in_In x l : str_in x l = true -> In x l.
Proof.
  unfold str_in. induction l as [|a l IH]; cbn [existsb In]; [done|].
  intros [H%String.eqb_eq|H]%orb_true_iff; [by left|right; auto].
Qed.

Lemma browser_on_os_form ua :
  str_in (browser_family ua +:+ " on " +:+ os_family ua) generalized_forms = true.
Proof.
  unfold browser_family, os_family.
  repeat match goal with |- context [if ?b then _ else _] => destruct b end; reflexivity.
Qed.

(** What [generalize_user_agent] returns is a generalized form. *)
Lemma generalize_user_agent_sanitized v g :
  generalize_user_agent v = Ok g -> sanitized_value g.
Proof.
  unfold generalize_user_agent. destruct (negb (truthy v)).
  { intros [= <-]. right. right. right. by left. }
  destruct v as [| | |s]; try done. intros [= <-]. right. right. right.
  apply str_in_In, browser_on_os_form.
Qed.

(** One turn of the loop keeps the result sanitized when the item, if it
    is stored as it is, is sanitized already. *)
Lemma sanitize_item_sanitized acc key v d :
  evidence_sanitized acc -> (kept_as_is key v = true -> sanitized_value v) ->
  sanitize_item acc key v = Ok d -> evidence_sanitized d.
Proof.
  intros Hacc Hk. unfold sanitize_item, kept_as_is in *.
  set (c1 := Py.contains "ip" (Py.lower key)) in *.
  set (ex := str_in key ["ip_hash"; "ip_1_hash"; "ip_2_hash"]) in *.
  set (c2 := Py.contains "user_agent" (Py.lower key)) in *.
  set (c3 := Py.contains "submission" (Py.lower key)) in *.
  set (c4 := Py.contains "text" (Py.lower key)) in *.
  destruct (c1 && truthy v && negb ex) eqn:B1.
  { destruct (hash_ip v) as [h|e] eqn:Hh; cbn [result_bind]; [|done].
    intros [= <-]. apply dict_set_sanitized; [done|by eapply hash_ip_sanitized]. }
  destruct (c2 && truthy v) eqn:B2.
  { destruct (generalize_user_agent v) as [g|e] eqn:Hg; cbn [result_bind]; [|done].
    intros [= <-]. apply dict_set_sanitized; [done|by eapply generalize_user_agent_sanitized]. }
  destruct (c3 && c4) eqn:B3.
  { intros [= <-]. apply dict_set_sanitized; [done|]. right. by left. }
  intros [= <-]. apply dict_set_sanitized; [done|]. by apply Hk.
Qed.

Lemma sanitize_loop_sanitized items : forall acc d,
  evidence_sanitized acc -> sanitizable items ->
  sanitize_loop items acc = Ok d -> evidence_sanitized d.
Proof.
  induction items as [|[key v] r IH]; intros acc d Hacc Hk; cbn [sanitize_loop].
  - by intros [= <-].
  - apply Forall_cons in Hk as [H1 H2].
    destruct (sanitize_item acc key v) as [acc'|e] eqn:Hi; cbn [result_bind]; [|done].
    apply IH; [|done]. by eapply sanitize_item_sanitized.
Qed.

(** What [sanitize_evidence] returns is sanitized, when the strings of its
    argument are under keys that name them. *)
Lemma sanitize_evidence_sanitized evidence d :
  sanitizable evidence -> sanitize_evidence evidence = Ok d -> evidence_sanitized d.
Proof. intros Hk. apply sanitize_loop_sanitized; [constructor|done]. Qed.

Ltac eval_keys :=
  repeat match goal with
  | |- context [Py.contains ?a (Py.lower ?k)] =>
      let v := eval vm_compute in (Py.contains a (Py.lower k)) in
      change (Py.contains a (Py.lower k)) with v
  | |- context [str_in ?k ?l] =>
      let v := eval vm_compute in (str_in k l) in
      change (str_in k l) with v
  end.

(** An item under a key that sends every non-empty string to one of the
    first three branches. *)
Ltac sanitizable_item :=
  unfold kept_as_is; cbn [fst snd truthy]; eval_keys;
  match goal with
  | |- context [Py.truthy_str ?s] =>
      destruct (Py.truthy_str s) eqn:?; cbn [negb andb]; intros ?;
      [done|left; by apply falsy_str]
  | |- _ => cbn [negb andb]; intros ?; done
  end.

Lemma ip_value_sanitizable_1 ip :
  kept_as_is "ip_1" (ip_value ip) = true -> sanitized_value (ip_value ip).
Proof. destruct ip as [s|]; [|done]. cbn [ip_value]. sanitizable_item. Qed.

Lemma ip_value_sanitizable_2 ip :
  kept_as_is "ip_2" (ip_value ip) = true -> sanitized_value (ip_value ip).
Proof. destruct ip as [s|]; [|done]. cbn [ip_value]. sanitizable_item. Qed.

Lemma Forall_flat_map_elem {A B} (P : B -> Prop) (f : A -> list B) l :
  (forall x, Forall P (f x)) -> Forall P (flat_map f l).
Proof.
  intros H. induction l as [|a l IH]; cbn [flat_map]; [constructor|].
  apply Forall_app. split; [apply H|apply IH].
Qed.

Lemma detect_same_ip_pattern_sanitizable submissions :
  Forall (fun p => sanitizable (p_evidence p)) (detect_same_ip_pattern submissions).
Proof.
  unfold detect_same_ip_pattern. apply Forall_flat_map_elem. intros [ip subs].
  destruct (_ <? _)%nat; [constructor|]. apply Forall_flat_map_elem. intros [sub1 sub2].
  destruct (_ =? _); [constructor|]. destruct (within_window _); [|constructor].
  constructor; [|constructor]. cbn [p_evidence]. unfold sanitizable.
  repeat (apply Forall_cons; split; [sanitizable_item|]). constructor.
Qed.

Lemma detect_duplicate_wrong_pattern_sanitizable submissions :
  Forall (fun p => sanitizable (p_evidence p)) (detect_duplicate_wrong_pattern submissions).
Proof.
  unfold detect_duplicate_wrong_pattern. destruct (_ <? _)%nat; [constructor|].
  apply Forall_flat_map_elem. intros [text subs].
  destruct (_ <? _)%nat; [constructor|]. apply Forall_flat_map_elem. intros [sub1 sub2].
  destruct (_ =? _); [constructor|].
  constructor; [|constructor]. cbn [p_evidence]. unfold sanitizable.
  repeat (apply Forall_cons; split;
          [first [apply ip_value_sanitizable_1|apply ip_value_sanitizable_2|sanitizable_item]|]).
  constructor.
Qed.

Lemma detect_similar_ua_pattern_sanitizable submissions :
  Forall (fun p => sanitizable (p_evidence p)) (detect_similar_ua_pattern submissions).
Proof.
  unfold detect_similar_ua_pattern. destruct (_ <? _)%nat; [constructor|].
  apply Forall_flat_map_elem. intros [sub1 sub2].
  destruct (_ =? _); [constructor|]. destruct (Qle_bool _ _); [|constructor].
  constructor; [|constructor]. cbn [p_evidence]. unfold sanitizable.
  repeat (apply Forall_cons; split;
          [first [apply ip_value_sanitizable_1|apply ip_value_sanitizable_2|sanitizable_item]|]).
  constructor.
Qed.

Lemma patterns_of_sanitizable submissions :
  Forall (fun p => sanitizable (p_evidence p)) (patterns_of submissions).
Proof.
  unfold patterns_of. repeat (apply Forall_app; split).
  - apply detect_same_ip_pattern_sanitizable.
  - apply detect_duplicate_wrong_pattern_sanitizable.
  - apply detect_similar_ua_pattern_sanitizable.
Qed.

(** *** The operations of the pipeline *)

Lemma create_suspicion_record_writes_sanitized pattern :
  sanitizable (p_evidence pattern) -> only_ops writes_sanitized (create_suspicion_record pattern).
Proof.
  intros Hk. unfold create_suspicion_record, with_nested.
  apply only_ops_try_except.
  2:{ intros e. apply only_ops_bind; [by apply only_ops_call|]. intros _.
      apply only_ops_bind; [apply only_ops_print|]. intros _. constructor. }
  apply only_ops_bind.
  2:{ intros [s|]; [|constructor]. apply only_ops_bind; [by apply only_ops_call|]. intros _.
      apply only_ops_bind; [apply only_ops_print|]. intros _. constructor. }
  apply only_ops_bind; [by apply only_ops_call|]. intros _.
  apply only_ops_bind.
  2:{ intros r. apply only_ops_bind; [|intros _; constructor].
      apply only_ops_try_except; [by apply only_ops_call|]. intros e.
      apply only_ops_bind; [by apply only_ops_call|]. intros _. constructor. }
  apply only_ops_try_except.
  2:{ intros e. apply only_ops_bind; [by apply only_ops_call|]. intros _. constructor. }
  apply only_ops_bind; [by apply only_ops_call|]. intros consent_1.
  destruct (negb (consented consent_1)).
  { apply only_ops_bind; [apply only_ops_print|]. intros _. constructor. }
  apply only_ops_bind.
  { destruct (truthy_id _); [|constructor].
    apply only_ops_bind; [by apply only_ops_call|]. intros consent_2.
    destruct (negb (consented consent_2)); [|constructor].
    apply only_ops_bind; [apply only_ops_print|]. intros _. constructor. }
  intros [|]; [constructor|].
  destruct (sanitize_evidence (p_evidence pattern)) as [d|e] eqn:Hs; cbn [lift bind];
    [|constructor].
  constructor.
  - cbn [writes_sanitized fs_evidence]. by eapply sanitize_evidence_sanitized.
  - intros [s|e]; constructor.
Qed.

Lemma create_records_writes_sanitized cfg patterns : forall n,
  Forall (fun p => sanitizable (p_evidence p)) patterns -> only_ops writes_sanitized (create_records cfg patterns n).
Proof.
  induction patterns as [|p r IH]; intros n Hk; cbn [create_records]; [constructor|].
  apply Forall_cons in Hk as [Hp Hr]. destruct (PrimFloat.leb _ _); [|by apply IH].
  apply only_ops_bind; [|intros n'; by apply IH].
  apply only_ops_try_except.
  - apply only_ops_bind; [by apply create_suspicion_record_writes_sanitized|]. intros _. constructor.
  - intros e. apply only_ops_bind; [apply only_ops_print|]. intros _. constructor.
Qed.

Lemma analyze_challenges_writes_sanitized cfg groups : forall n,
  only_ops writes_sanitized (analyze_challenges cfg groups n).
Proof.
  induction groups as [|[c subs] r IH]; intros n; cbn [analyze_challenges]; [constructor|].
  destruct (_ <? _)%nat; [apply IH|].
  apply only_ops_bind; [|intros n'; apply IH].
  apply create_records_writes_sanitized, patterns_of_sanitizable.
Qed.

Lemma detect_flag_sharing_patterns_writes_sanitized cfg :
  only_ops writes_sanitized (detect_flag_sharing_patterns cfg).
Proof.
  unfold detect_flag_sharing_patterns. destruct (negb _); [constructor|].
  apply only_ops_bind; [apply only_ops_print|]. intros _.
  apply only_ops_bind; [by apply only_ops_call|]. intros now.
  apply only_ops_bind.
  - apply only_ops_try_except.
    + apply only_ops_bind; [by apply only_ops_call|]. intros recent.
      apply only_ops_bind; [destruct (_ <=? _)%nat; [apply only_ops_print|constructor]|].
      intros _. apply only_ops_bind; [apply only_ops_print|]. intros _. constructor.
    + intros e. apply only_ops_bind; [apply only_ops_print|]. intros _. constructor.
  - intros [recent|]; [|constructor].
    apply only_ops_bind; [apply analyze_challenges_writes_sanitized|]. intros n.
    apply only_ops_bind; [apply only_ops_print|]. intros _. constructor.
Qed.

Lemma exec_findings_sanitized X (o : op X) ch w :
  writes_sanitized X o -> findings_sanitized w -> findings_sanitized (snd (exec o ch w)).
Proof.
  intros Ho (Hs & Hc & Hp).
  assert (Hid : findings_sanitized (add_trace (kind_of o) w)) by done.
  destruct ch as [|e|lr]; [|exact Hid|]; destruct o; cbn [writes_sanitized] in Ho; try done;
    unfold exec; cbn [perform kind_of]; try exact Hid;
    try (destruct (existsb _ _); exact Hid);
    try (destruct (consent_of _ _); [exact Hid|]);
    unfold findings_sanitized, tables_sanitized in *;
    cbn [snd session committed savepoints set_orm set_session add_trace suspicion
         set_first_blood set_cache];
    repeat split; try done.
  all: try (apply Forall_cons; split; done).
  all: try (destruct (savepoints w) as [|t r]; cbn [tail head default from_option id];
            [done|]; apply Forall_cons in Hp as [? ?]; done).
  all: try (apply Forall_app; split; [done|]; apply Forall_cons; split; [done|constructor]).
Qed.

(** A program that only writes sanitized findings keeps the tables sanitized,
    whatever the environment chooses. *)
Lemma exec_prog_findings_sanitized {A} (p : prog A) :
  only_ops writes_sanitized p ->
  forall chs w, findings_sanitized w -> findings_sanitized (snd (fst (exec_prog p chs w))).
Proof.
  induction 1 as [a|e|msg p _ IH|X o k Ho _ IH]; intros chs w Hw; cbn [exec_prog fst snd];
    try done.
  - by apply IH.
  - pose proof (exec_findings_sanitized X o (hd Go chs) w Ho Hw) as Hw'.
    destruct (exec o (hd Go chs) w) as [r w']. by apply IH.
Qed.

Lemma create_suspicion_record_requires_consent_witness :
  (no_finding (sharing_world [consent_row 1 true])
     (run (create_suspicion_record sharing_pattern) [] (sharing_world [consent_row 1 true]))
   /\ fst (run (create_suspicion_record sharing_pattern) [] (sharing_world [consent_row 1 true]))
      = Ok None
   /\ session (snd (run (create_suspicion_record sharing_pattern) []
                       (sharing_world [consent_row 1 true])))
      = session (sharing_world [consent_row 1 true])
   /\ committed (snd (run (create_suspicion_record sharing_pattern) []
                         (sharing_world [consent_row 1 true])))
      = committed (sharing_world [consent_row 1 true])
   /\ savepoints (snd (run (create_suspicion_record sharing_pattern) []
                          (sharing_world [consent_row 1 true])))
      = savepoints (sharing_world [consent_row 1 true]))
  /\ (fst (run (withdraw_consent 2) [] (sharing_world [consent_row 1 true])) = Ok tt
      /\ no_finding (snd (run (withdraw_consent 2) [] (sharing_world [consent_row 1 true])))
           (run (create_suspicion_record sharing_pattern) []
              (snd (run (withdraw_consent 2) [] (sharing_world [consent_row 1 true]))))).
Proof.
  destruct (create_suspicion_record_requires_consent sharing_pattern 2 []
              (sharing_world [consent_row 1 true])) as [H1 H2].
  - cbn. right. left.
  - split; [apply H1; reflexivity|exact H2].
Defined.

(** C4. Every string in the evidence of a finding that the detection run
    stores is one the specification allows: the empty string, the marker
    [[REDACTED]], a one-way hash (the first 16 hex digits of the SHA-256 of
    some string), or one of the 43 generalized browser-on-OS forms. As an
    invariant: when this holds of every finding of the session, of the
    database and of the savepoints before [detect_flag_sharing_patterns]
    runs, it holds after the run, whatever the submissions are and whatever
    fails; so it holds of every finding that any of the three passes adds. *)
Theorem pipeline_evidence_is_sanitized cfg chs w :
  findings_sanitized w ->
  findings_sanitized (snd (run (detect_flag_sharing_patterns cfg) chs w)).
Proof.
  intros Hw. unfold run.
  apply exec_prog_findings_sanitized; [apply detect_flag_sharing_patterns_writes_sanitized|done].
Qed.

Lemma findings_sanitized_no_findings rows : findings_sanitized (sharing_world rows).
Proof. repeat split; constructor. Qed.

Lemma pipeline_evidence_is_sanitized_witness :
  findings_sanitized
    (snd (run (detect_flag_sharing_patterns sensitive_config) []
              (sharing_world [consent_row 1 true; consent_row 2 true])))
  /\ map fs_evidence
       (suspicion (committed
          (snd (run (detect_flag_sharing_patterns sensitive_config) []
                    (sharing_world [consent_row 1 true; consent_row 2 true])))))
     = [[("ip_hash", VStr "130e4daba9786013");
         ("time_delta_seconds", VFloat (12000000 # 1000000));
         ("submission_1_id", VInt 12); ("submission_2_id", VInt 11);
         ("submission_1_text", VStr "[REDACTED]");
         ("submission_2_text", VStr "[REDACTED]")];
        [("ua_similarity", VFloat 1);
         ("browser_os_1", VStr "Firefox on Linux");
         ("browser_os_2", VStr "Firefox on Linux");
         ("time_delta_seconds", VFloat (12000000 # 1000000));
         ("submission_1_id", VInt 12); ("submission_2_id", VInt 11);
         ("ip_1_hash", VStr "130e4daba9786013");
         ("ip_2_hash", VStr "130e4daba9786013")]].
Proof.
  split.
  - apply (pipeline_evidence_is_sanitized sensitive_config []
             (sharing_world [consent_row 1 true; consent_row 2 true])).
    apply findings_sanitized_no_findings.
  - vm_compute. reflexivity.
Defined.

(** ** The verdict audit trail *)

Lemma next_id_above ids x : x ∈ ids -> x < next_id ids.
Proof.
  unfold next_id. induction ids as [|a l IH]; [by intros ?%elem_of_nil|].
  cbn [fold_right]. intros [->|H]%elem_of_cons; [lia|]. specialize (IH H). lia.
Qed.

Lemma head_filter_replace id f g l :
  head (List.filter (fun r => fs_id r =? id) l) = Some f -> fs_id g = id ->
  head (List.filter (fun r => fs_id r =? id)
          (map (fun r => if fs_id r =? id then g else r) l)) = Some g.
Proof.
  intros H Hg. induction l as [|x l IH]; [done|]. cbn [map List.filter] in *.
  destruct (fs_id x =? id) eqn:Hx.
  - by rewrite Hg, Z.eqb_refl.
  - rewrite Hx. auto.
Qed.

Lemma head_filter_id id f l :
  head (List.filter (fun r => fs_id r =? id) l) = Some f -> fs_id f = id.
Proof.
  intros H.
  assert (Hin : f ∈ List.filter (fun r => fs_id r =? id) l).
  { destruct (List.filter _ l) as [|x r]; [done|]. cbn in H. injection H as ->. left. }
  by apply elem_of_filter_bool in Hin as [_ ?%Z.eqb_eq].
Qed.

(** A review that goes through: one entry is appended to the audit trail,
    the finding gets the verdict, and everything is committed. *)
Lemma run_put cfg id members v admin_id admin_ip w f :
  SUSPICION_ENABLED cfg = true ->
  valid_verdict (Json.obj_get "verdict" members) = Some v ->
  bindable (Json.obj_get "notes" members) = true ->
  head (List.filter (fun r => fs_id r =? id) (suspicion (session w))) = Some f ->
  fst (run (put cfg id (Json.JObj members) admin_id admin_ip) [] w) = Ok 200
  /\ session (snd (run (put cfg id (Json.JObj members) admin_id admin_ip) [] w))
     = {| consent := consent (session w);
          suspicion := map (fun r => if fs_id r =? id then reviewed f v (now w) admin_id else r)
                           (suspicion (session w));
          verdict_history :=
            (verdict_history (session w) ++
             [{| vh_id := next_id (map vh_id (verdict_history (session w)));
                 vh_suspicion_id := id; vh_verdict := v; vh_reviewed_by := Some admin_id;
                 vh_admin_ip := admin_ip; vh_notes := Json.obj_get "notes" members;
                 vh_created_at := now w |}])%list |}
  /\ committed (snd (run (put cfg id (Json.JObj members) admin_id admin_ip) [] w))
     = session (snd (run (put cfg id (Json.JObj members) admin_id admin_ip) [] w))
  /\ now (snd (run (put cfg id (Json.JObj members) admin_id admin_ip) [] w)) = now w.
Proof.
  intros Hen Hv Hb Hf. unfold run, put, record_verdict. rewrite Hen.
  cbn [negb py_get lift bind try_except]. rewrite Hv, Hb.
  orm_simpl. rewrite Hf. orm_simpl.
  pose proof (head_filter_id _ _ _ Hf) as Hid.
  cbn [reviewed fs_id]. rewrite Hid. done.
Qed.

(** A review whose notes cannot be bound: the flush of the INSERT raises,
    the handler rolls the session back and the answer is 500. *)
Lemma run_put_unbindable cfg id members v admin_id admin_ip w f :
  SUSPICION_ENABLED cfg = true ->
  valid_verdict (Json.obj_get "verdict" members) = Some v ->
  bindable (Json.obj_get "notes" members) = false ->
  head (List.filter (fun r => fs_id r =? id) (suspicion (session w))) = Some f ->
  fst (run (put cfg id (Json.JObj members) admin_id admin_ip) [] w) = Ok 500
  /\ session (snd (run (put cfg id (Json.JObj members) admin_id admin_ip) [] w)) = committed w
  /\ committed (snd (run (put cfg id (Json.JObj members) admin_id admin_ip) [] w))
     = committed w.
Proof.
  intros Hen Hv Hb Hf. unfold run, put, record_verdict. rewrite Hen.
  cbn [negb py_get lift bind try_except]. rewrite Hv, Hb.
  orm_simpl. rewrite Hf. orm_simpl. done.
Qed.

(** C9. Two reviews of one finding, with the wall clock reading [d]
    microseconds more at the second ([d] is any integer: the code reads
    [utcnow], which can stand still or be set back). With notes the driver
    can bind, each review appends an entry to the audit trail and changes
    none; the two entries carry the two verdicts, the second has the larger
    id, both ids are new, each [created_at] is the clock's reading at its
    review, so the second is later exactly when the clock moved forward;
    and the finding's own verdict field holds the second verdict only.
    With notes that are an object or a list the review is answered with 500
    and leaves the database as it was. *)
Theorem verdicts_append_to_audit_trail cfg id members1 members2 v1 v2 admin1 ip1 admin2 ip2
    d w f :
  SUSPICION_ENABLED cfg = true ->
  valid_verdict (Json.obj_get "verdict" members1) = Some v1 ->
  valid_verdict (Json.obj_get "verdict" members2) = Some v2 ->
  head (List.filter (fun r => fs_id r =? id) (suspicion (session w))) = Some f ->
  let w1 := snd (run (put cfg id (Json.JObj members1) admin1 ip1) [] w) in
  let w2 := snd (run (put cfg id (Json.JObj members2) admin2 ip2) [] (tick d w1)) in
  (bindable (Json.obj_get "notes" members1) = true ->
   bindable (Json.obj_get "notes" members2) = true ->
   fst (run (put cfg id (Json.JObj members1) admin1 ip1) [] w) = Ok 200
   /\ fst (run (put cfg id (Json.JObj members2) admin2 ip2) [] (tick d w1)) = Ok 200
   /\ exists e1 e2,
        verdict_history (session w2) = (verdict_history (session w) ++ [e1; e2])%list
        /\ verdict_history (committed w2) = verdict_history (session w2)
        /\ vh_verdict e1 = v1 /\ vh_verdict e2 = v2
        /\ vh_suspicion_id e1 = id /\ vh_suspicion_id e2 = id
        /\ vh_id e1 < vh_id e2
        /\ (forall e, e ∈ verdict_history (session w) -> vh_id e < vh_id e1)
        /\ vh_created_at e1 = now w /\ vh_created_at e2 = now w + d
        /\ (vh_created_at e1 < vh_created_at e2 <-> 0 < d)
        /\ fs_admin_verdict
             <$> head (List.filter (fun r => fs_id r =? id) (suspicion (session w2)))
           = Some (Some v2))
  /\ (bindable (Json.obj_get "notes" members1) = false ->
      fst (run (put cfg id (Json.JObj members1) admin1 ip1) [] w) = Ok 500
      /\ session w1 = committed w /\ committed w1 = committed w).
Proof.
  intros Hen Hv1 Hv2 Hf w1 w2. split.
  2:{ intros Hb. by apply (run_put_unbindable cfg id members1 v1 admin1 ip1 w f). }
  intros Hb1 Hb2.
  destruct (run_put cfg id members1 v1 admin1 ip1 w f Hen Hv1 Hb1 Hf) as (Hr1 & Hs1 & Hc1 & Hn1).
  fold w1 in Hs1, Hc1, Hn1.
  pose proof (head_filter_id _ _ _ Hf) as Hid.
  assert (Hf1 : head (List.filter (fun r => fs_id r =? id) (suspicion (session (tick d w1))))
                = Some (reviewed f v1 (now w) admin1)).
  { cbn [tick session]. rewrite Hs1. cbn [suspicion].
    by apply (head_filter_replace id f). }
  destruct (run_put cfg id members2 v2 admin2 ip2 (tick d w1) _ Hen Hv2 Hb2 Hf1)
    as (Hr2 & Hs2 & Hc2 & Hn2).
  fold w2 in Hs2, Hc2, Hn2.
  split; [exact Hr1|]. split; [exact Hr2|].
  eexists _, _. rewrite Hc2, Hs2. cbn [verdict_history suspicion tick session now].
  rewrite Hs1, Hn1. cbn [verdict_history suspicion].
  split; [by rewrite <- app_assoc|]. split; [done|].
  cbn [vh_verdict vh_suspicion_id vh_id vh_created_at].
  repeat (split; [done|]). split; [|split; [|split; [done|split; [done|split; [lia|]]]]].
  - apply next_id_above. rewrite map_app. apply elem_of_app. right. left.
  - intros e He. apply next_id_above. apply list_elem_of_In, in_map, list_elem_of_In, He.
  - cbn [tick session] in Hf1. rewrite Hs1 in Hf1. cbn [suspicion] in Hf1.
    by rewrite (head_filter_replace id _ (reviewed (reviewed f v1 (now w) admin1) v2
                  (now w + d) admin2) _ Hf1).
Qed.

Lemma verdicts_append_to_audit_trail_witness :
  fst (run (put default_config 1 (verdict_body "suspicious") 9 (Some "192.0.2.1")) []
           review_world) = Ok 200
  /\ fst (run (put default_config 1 (verdict_body "innocent") 8 (Some "192.0.2.2")) []
              (tick 1 first_review)) = Ok 200
  /\ exists e1 e2,
       verdict_history (session second_review)
       = (verdict_history (session review_world) ++ [e1; e2])%list
       /\ verdict_history (committed second_review) = verdict_history (session second_review)
       /\ vh_verdict e1 = "suspicious" /\ vh_verdict e2 = "innocent"
       /\ vh_suspicion_id e1 = 1 /\ vh_suspicion_id e2 = 1
       /\ vh_id e1 < vh_id e2
       /\ (forall e, e ∈ verdict_history (session review_world) -> vh_id e < vh_id e1)
       /\ vh_created_at e1 = now review_world /\ vh_created_at e2 = now review_world + 1
       /\ (vh_created_at e1 < vh_created_at e2 <-> 0 < 1)
       /\ fs_admin_verdict
            <$> head (List.filter (fun r => fs_id r =? 1) (suspicion (session second_review)))
          = Some (Some "innocent").
Proof.
  apply (verdicts_append_to_audit_trail default_config 1
           [("verdict", Json.JStr "suspicious")] [("verdict", Json.JStr "innocent")]
           "suspicious" "innocent" 9 (Some "192.0.2.1") 8 (Some "192.0.2.2") 1
           review_world pending_finding); reflexivity.
Defined.

(** The second review is written after the wall clock was set back by a
    second: the later entry has the larger id and the earlier
    [created_at]. With a clock that reads the same at both reviews the two
    entries have the same [created_at]. *)
Lemma verdicts_after_clock_set_back :
  map (fun e => (vh_id e, vh_verdict e, vh_created_at e))
      (verdict_history (committed set_back_review))
  = [(1, "suspicious", 3000000000); (2, "innocent", 2999000000)]
  /\ map (fun e => (vh_id e, vh_verdict e, vh_created_at e))
        (verdict_history (committed same_reading_review))
     = [(1, "suspicious", 3000000000); (2, "innocent", 3000000000)].
Proof. vm_compute. split; reflexivity. Qed.

(** * Further properties of the code *)

(** ** utils.py: the signed cache *)

Lemma get_signed_cache_only_verified_witness :
  exists text members,
    cache hinted_world !! redis_key_of 3 = Some text /\
    Json.loads text = Some (Json.JObj members) /\
    Json.obj_get "value" members = Json.JStr "1" /\
    Json.obj_get "signature" members
    = Json.JStr (SHA256.hmac_hexdigest (get_hmac_secret default_config) (Py.encode_utf8 "1")).
Proof.
  apply (get_signed_cache_only_verified default_config (redis_key_of 3) [] hinted_world "1"
           (add_trace KCacheGet hinted_world) []).
  apply get_signed_cache_own_entry; [exact hinted_world_cache|reflexivity].
Defined.

Lemma get_signed_cache_rejects_forged_witness :
  exists w',
    run (get_signed_cache default_config (redis_key_of 3)) [] forged_world = (Ok None, w') /\
    cache w' = delete (redis_key_of 3) (cache forged_world).
Proof.
  apply (get_signed_cache_rejects_forged default_config (redis_key_of 3)
           (Py.quoted "{'value': '1', 'signature': 'deadbeef'}")
           [("value", Json.JStr "1"); ("signature", Json.JStr "deadbeef")] "1" "deadbeef").
  - apply lookup_insert_eq.
  - reflexivity.
  - vm_compute. reflexivity.
  - reflexivity.
  - reflexivity.
  - intros H. apply (f_equal String.length) in H. vm_compute in H. discriminate.
Defined.

(** An entry that is not JSON is dropped: the read returns [None] and
    deletes it. *)
Theorem get_signed_cache_drops_unparsable cfg key text w :
  cache w !! key = Some text ->
  Py.truthy_str text = true ->
  Json.loads text = None ->
  exists w',
    run (get_signed_cache cfg key) [] w = (Ok None, w') /\
    cache w' = delete key (cache w).
Proof.
  intros Hc Ht Hl. unfold run, get_signed_cache.
  cbn [bind call exec_prog hd exec perform kind_of].
  change (cache (add_trace KCacheGet w)) with (cache w). rewrite Hc.
  cbn [bind]. rewrite Ht. cbn [negb].
  unfold check_signed_entry, try_except_of, json_loads. rewrite Hl.
  cbn [lift bind try_except exn_cls]. change (existsb _ _) with true. cbv iota.
  cbn [print try_except bind call exec_prog hd tl exec perform kind_of fst]. eauto.
Qed.

Lemma get_signed_cache_drops_unparsable_witness :
  exists w',
    run (get_signed_cache default_config (redis_key_of 3)) [] garbled_world = (Ok None, w') /\
    cache w' = delete (redis_key_of 3) (cache garbled_world).
Proof.
  apply (get_signed_cache_drops_unparsable default_config (redis_key_of 3) "claimed").
  - apply lookup_insert_eq.
  - reflexivity.
  - vm_compute. reflexivity.
Defined.

(** A key that is not in the cache, or whose entry is the empty string,
    reads as [None]; the cache is left as it is (the empty entry is not
    deleted). *)
Theorem get_signed_cache_absent cfg key w :
  cache w !! key = None \/ cache w !! key = Some "" ->
  run (get_signed_cache cfg key) [] w = (Ok None, add_trace KCacheGet w).
Proof.
  intros H. unfold run, get_signed_cache.
  cbn [bind call exec_prog hd exec perform kind_of].
  change (cache (add_trace KCacheGet w)) with (cache w).
  by destruct H as [-> | ->].
Qed.

Lemma get_signed_cache_absent_witness :
  run (get_signed_cache default_config (redis_key_of 3)) [] fresh_world
  = (Ok None, add_trace KCacheGet fresh_world).
Proof.
  apply (get_signed_cache_absent default_config (redis_key_of 3) fresh_world).
  left. apply lookup_empty.
Defined.

(** [verify_redis_signature] accepts a signature for a string value
    exactly when it is the string of the HMAC-SHA256 of the value under the
    secret. *)
Theorem verify_redis_signature_iff cfg v signature :
  verify_redis_signature cfg (Json.JStr v) signature = Ok true
  <-> signature
      = Json.JStr (SHA256.hmac_hexdigest (get_hmac_secret cfg) (Py.encode_utf8 v)).
Proof.
  split.
  - intros (v0 & [= <-] & Hs)%verify_true_inv. done.
  - intros ->. apply verify_own_signature.
Qed.

(** ** utils.py: sanitization *)

(** Whenever [sanitize_evidence] returns, every string of the result is
    empty, the marker, a truncated SHA-256 or a generalized form, provided
    every string of the argument that is not under a key the function
    looks for is one already. *)
Theorem sanitize_evidence_removes_pii evidence d :
  sanitizable evidence -> sanitize_evidence evidence = Ok d -> evidence_sanitized d.
Proof. apply sanitize_evidence_sanitized. Qed.

Lemma sanitize_evidence_removes_pii_witness :
  evidence_sanitized
    [("ip_hash", VStr "130e4daba9786013");
     ("time_delta_seconds", VFloat (12000000 # 1000000));
     ("submission_1_id", VInt 11); ("submission_2_id", VInt 12);
     ("submission_1_text", VStr "[REDACTED]");
     ("submission_2_text", VStr "[REDACTED]")].
Proof.
  apply (sanitize_evidence_removes_pii (p_evidence sharing_pattern)).
  - repeat (apply Forall_cons; split;
            [first [by intros _|intros H; vm_compute in H; discriminate]|]).
    constructor.
  - vm_compute. reflexivity.
Defined.

Lemma sanitize_item_total acc key v :
  hashable (key, v) = true -> exists d, sanitize_item acc key v = Ok d.
Proof.
  unfold hashable, sanitize_item, hash_ip, generalize_user_agent. cbn [fst snd].
  set (c1 := Py.contains "ip" (Py.lower key)).
  set (ex := str_in key ["ip_hash"; "ip_1_hash"; "ip_2_hash"]).
  set (c2 := Py.contains "user_agent" (Py.lower key)).
  set (c3 := Py.contains "submission" (Py.lower key)).
  set (c4 := Py.contains "text" (Py.lower key)).
  intros H.
  destruct v as [|z|q|s]; cbn [truthy] in *.
  - destruct c1, ex, c2, c3, c4; cbn [negb andb orb result_bind]; eauto.
  - destruct (negb (z =? 0)), c1, ex, c2, c3, c4; cbn [negb andb orb result_bind] in *;
      try done; eauto.
  - destruct (negb (Qeq_bool q 0)), c1, ex, c2, c3, c4; cbn [negb andb orb result_bind] in *;
      try done; eauto.
  - destruct s as [|c r]; cbn [Py.truthy_str];
      destruct c1, ex, c2, c3, c4; cbn [negb andb orb result_bind]; eauto.
Qed.

Lemma sanitize_loop_total items : forall acc,
  forallb hashable items = true -> exists d, sanitize_loop items acc = Ok d.
Proof.
  induction items as [|[key v] r IH]; intros acc H; cbn [sanitize_loop]; [eauto|].
  cbn [forallb] in H. apply andb_true_iff in H as [H1 H2].
  destruct (sanitize_item_total acc key v H1) as [d' ->]. cbn [result_bind]. by apply IH.
Qed.

Lemma patterns_of_hashable submissions :
  Forall (fun p => forallb hashable (p_evidence p) = true) (patterns_of submissions).
Proof.
  assert (Hip : forall k ip, hashable (k, ip_value ip) = true) by (by intros k [s|]).
  unfold patterns_of. repeat (apply Forall_app; split).
  - unfold detect_same_ip_pattern. apply Forall_flat_map_elem. intros [ip subs].
    destruct (_ <? _)%nat; [constructor|]. apply Forall_flat_map_elem. intros [sub1 sub2].
    destruct (_ =? _); [constructor|]. destruct (within_window _); [|constructor].
    constructor; [|constructor]. cbn [p_evidence forallb].
    unfold hashable. cbn [fst snd]. eval_keys. reflexivity.
  - unfold detect_duplicate_wrong_pattern. destruct (_ <? _)%nat; [constructor|].
    apply Forall_flat_map_elem. intros [text subs].
    destruct (_ <? _)%nat; [constructor|]. apply Forall_flat_map_elem. intros [sub1 sub2].
    destruct (_ =? _); [constructor|].
    constructor; [|constructor]. cbn [p_evidence forallb]. rewrite !Hip.
    unfold hashable. cbn [fst snd]. eval_keys. reflexivity.
  - unfold detect_similar_ua_pattern. destruct (_ <? _)%nat; [constructor|].
    apply Forall_flat_map_elem. intros [sub1 sub2].
    destruct (_ =? _); [constructor|]. destruct (Qle_bool _ _); [|constructor].
    constructor; [|constructor]. cbn [p_evidence forallb]. rewrite !Hip.
    unfold hashable. cbn [fst snd]. eval_keys. reflexivity.
Qed.

(** On the evidence of every pattern the three detection passes produce,
    for any submissions, [sanitize_evidence] returns (it does not raise),
    and every string of what it returns is empty, the marker, a truncated
    SHA-256 or a generalized form. *)
Theorem detection_evidence_sanitizes submissions p :
  p ∈ patterns_of submissions ->
  exists d, sanitize_evidence (p_evidence p) = Ok d /\ evidence_sanitized d.
Proof.
  intros Hp.
  pose proof (proj1 (Forall_forall _ _) (patterns_of_hashable submissions) p Hp) as Hh.
  pose proof (proj1 (Forall_forall _ _) (patterns_of_sanitizable submissions) p Hp) as Hk.
  destruct (sanitize_loop_total (p_evidence p) [] Hh) as [d Hd].
  exists d. split; [done|]. exact (sanitize_evidence_sanitized _ _ Hk Hd).
Qed.

Lemma detection_evidence_sanitizes_witness :
  exists d, sanitize_evidence
              (p_evidence (default sharing_pattern (head (patterns_of sharing_submissions))))
            = Ok d /\ evidence_sanitized d.
Proof.
  apply (detection_evidence_sanitizes sharing_submissions).
  apply list_elem_of_In. vm_compute. left. reflexivity.
Defined.

(** [generalize_user_agent] has 43 possible results: ["Unknown"], or one
    of seven browser families on one of six operating systems. Nothing else
    of the string gets through. *)
Theorem generalize_user_agent_range s :
  generalize_user_agent (VStr s) = Ok (VStr "Unknown")
  \/ exists browser os,
       In browser browsers /\ In os operating_systems /\
       generalize_user_agent (VStr s) = Ok (VStr (browser +:+ " on " +:+ os)).
Proof.
  unfold generalize_user_agent. cbn [truthy]. destruct (negb (Py.truthy_str s)); [by left|].
  right. exists (browser_family (Py.lower s)), (os_family (Py.lower s)).
  split; [|split; [|done]].
  - unfold browser_family, browsers.
    repeat match goal with |- context [if ?b then _ else _] => destruct b end; cbn; tauto.
  - unfold os_family, operating_systems.
    repeat match goal with |- context [if ?b then _ else _] => destruct b end; cbn; tauto.
Qed.

Lemma hexdigit_is_hex n : is_hex_digit (SHA256.hexdigit (Z.land n 15)) = true.
Proof.
  assert (H : 0 <= Z.land n 15 < 16).
  { change 15 with (Z.ones 4). rewrite Z.land_ones by lia. apply Z.mod_pos_bound. lia. }
  set (m := Z.land n 15) in *. clearbody m.
  assert (m = 0 \/ m = 1 \/ m = 2 \/ m = 3 \/ m = 4 \/ m = 5 \/ m = 6 \/ m = 7 \/
          m = 8 \/ m = 9 \/ m = 10 \/ m = 11 \/ m = 12 \/ m = 13 \/ m = 14 \/ m = 15) by lia.
  repeat (destruct H0 as [-> | H0]; [reflexivity|]). subst. reflexivity.
Qed.

Lemma take_hex_is_hex bs : forall n,
  forallb is_hex_digit (list_ascii_of_string (Py.take n (SHA256.hex bs))) = true.
Proof.
  induction bs as [|b r IH]; intros n; [by destruct n|].
  change (SHA256.hex (b :: r))
    with (String (SHA256.hexdigit (Z.land (Z.shiftr b 4) 15))
            (String (SHA256.hexdigit (Z.land b 15)) (SHA256.hex r))).
  destruct n as [|[|n]]; cbn [Py.take list_ascii_of_string forallb]; [done|..].
  - by rewrite hexdigit_is_hex.
  - by rewrite !hexdigit_is_hex, IH.
Qed.

(** [hash_ip] returns [None] for [None] and for the empty string, and for
    any other string 16 lower-case hex digits. *)
Theorem hash_ip_shape s :
  hash_ip VNone = Ok VNone /\ hash_ip (VStr "") = Ok VNone
  /\ (s <> "" ->
      exists h, hash_ip (VStr s) = Ok (VStr h)
                /\ String.length h = 16%nat
                /\ forallb is_hex_digit (list_ascii_of_string h) = true).
Proof.
  split; [done|]. split; [done|]. intros Hs.
  unfold hash_ip. cbn [truthy]. destruct s as [|c r]; [done|]. cbn [Py.truthy_str negb].
  eexists. split; [reflexivity|]. split; [|apply take_hex_is_hex].
  unfold SHA256.hexdigest, SHA256.digest.
  destruct (SHA256.digest_regs _). reflexivity.
Qed.

Lemma hash_ip_shape_witness :
  exists h, hash_ip (VStr "10.0.0.7") = Ok (VStr h)
            /\ String.length h = 16%nat
            /\ forallb is_hex_digit (list_ascii_of_string h) = true.
Proof.
  apply (proj2 (proj2 (hash_ip_shape "10.0.0.7"))). by apply String.eqb_neq.
Defined.

(** ** utils.py: scores *)

(** The confidence is a float between 0 and 1, whatever the list of
    pattern names holds. With all four names it is 0.9999999999999999, the
    binary64 sum of the four weights. *)
Theorem calculate_suspicion_confidence_bounds patterns :
  PrimFloat.leb 0 (calculate_suspicion_confidence patterns) = true
  /\ PrimFloat.leb (calculate_suspicion_confidence patterns) 1 = true
  /\ calculate_suspicion_confidence
       ["same_ip"; "duplicate_wrong"; "similar_ua"; "temporal_proximity"]
     = 0.9999999999999999%float.
Proof.
  unfold calculate_suspicion_confidence.
  destruct (str_in "same_ip" patterns), (str_in "duplicate_wrong" patterns),
    (str_in "similar_ua" patterns), (str_in "temporal_proximity" patterns);
    vm_compute; repeat split.
Qed.

Lemma str_in_app x l1 l2 : str_in x (l1 ++ l2) = str_in x l1 || str_in x l2.
Proof. unfold str_in. apply existsb_app. Qed.

(** The confidences the three passes can report. *)
Lemma patterns_of_confidence submissions :
  Forall (fun p => In (p_confidence p)
                     [0.5; 0.3; 0.4; 0.2; 0.30000000000000004; 0.6000000000000001;
                      0.7000000000000001]%float)
         (patterns_of submissions).
Proof.
  unfold patterns_of. repeat (apply Forall_app; split).
  - unfold detect_same_ip_pattern. apply Forall_flat_map_elem. intros [ip subs].
    destruct (_ <? _)%nat; [constructor|]. apply Forall_flat_map_elem. intros [sub1 sub2].
    destruct (_ =? _); [constructor|]. destruct (within_window _); [|constructor].
    constructor; [|constructor]. vm_compute. tauto.
  - unfold detect_duplicate_wrong_pattern. destruct (_ <? _)%nat; [constructor|].
    apply Forall_flat_map_elem. intros [text subs].
    destruct (_ <? _)%nat; [constructor|]. apply Forall_flat_map_elem. intros [sub1 sub2].
    destruct (_ =? _); [constructor|].
    constructor; [|constructor]. cbn [p_confidence].
    destruct (within_window _); vm_compute; tauto.
  - unfold detect_similar_ua_pattern. destruct (_ <? _)%nat; [constructor|].
    apply Forall_flat_map_elem. intros [sub1 sub2].
    destruct (_ =? _); [constructor|]. destruct (Qle_bool _ _); [|constructor].
    constructor; [|constructor]. cbn [p_confidence].
    destruct (within_window _), (bool_decide _); vm_compute; tauto.
Qed.

(** Every pattern of the three detection passes has one of seven
    confidences, the largest of which is 0.7000000000000001 (the binary64
    sum 0.4 + 0.2 + 0.1): a pass never reports [same_ip] together with
    [duplicate_wrong]. All are below 0.75, so the risk level of what the
    passes find is never [HIGH]. *)
Theorem detection_confidence_below_high submissions p :
  p ∈ patterns_of submissions ->
  In (p_confidence p)
     [0.5; 0.3; 0.4; 0.2; 0.30000000000000004; 0.6000000000000001; 0.7000000000000001]%float
  /\ PrimFloat.ltb (p_confidence p) 0.75 = true
  /\ determine_risk_level (p_confidence p) <> "HIGH".
Proof.
  intros Hp.
  pose proof (proj1 (Forall_forall _ _) (patterns_of_confidence submissions) p Hp) as H.
  split; [exact H|]. unfold determine_risk_level. cbn [In] in H.
  repeat (destruct H as [<- | H]; [split; [reflexivity|by apply String.eqb_neq]|]). done.
Qed.

Lemma detection_confidence_below_high_witness :
  In (p_confidence (default sharing_pattern (head (patterns_of sharing_submissions))))
     [0.5; 0.3; 0.4; 0.2; 0.30000000000000004; 0.6000000000000001; 0.7000000000000001]%float
  /\ PrimFloat.ltb
       (p_confidence (default sharing_pattern (head (patterns_of sharing_submissions)))) 0.75
     = true
  /\ determine_risk_level
       (p_confidence (default sharing_pattern (head (patterns_of sharing_submissions))))
     <> "HIGH".
Proof.
  apply (detection_confidence_below_high sharing_submissions).
  apply list_elem_of_In. vm_compute. left. reflexivity.
Defined.

Lemma create_records_below cfg patterns n :
  Forall (fun p => PrimFloat.leb (SUSPICION_THRESHOLD cfg) (p_confidence p) = false) patterns ->
  create_records cfg patterns n = Ret n.
Proof.
  induction 1 as [|p r Hp _ IH]; cbn [create_records]; [done|]. by rewrite Hp.
Qed.

Lemma analyze_challenges_default groups : forall n,
  analyze_challenges default_config groups n = Ret n.
Proof.
  induction groups as [|[c subs] r IH]; intros n; cbn [analyze_challenges]; [done|].
  destruct (_ <? _)%nat; [apply IH|].
  rewrite create_records_below; [apply IH|].
  apply Forall_forall. intros p Hp.
  pose proof (proj1 (Forall_forall _ _) (patterns_of_confidence subs) p Hp) as H.
  cbn [In] in H. change (SUSPICION_THRESHOLD default_config) with 0.75%float.
  repeat (destruct H as [<- | H]; [reflexivity|]). done.
Qed.

(** With the threshold of config.py, 0.75, the detection run never
    reaches [create_suspicion_record]: whatever the submissions are and
    whatever fails, it reads the clock and the submissions and writes
    nothing. *)
Theorem default_threshold_is_never_reached chs w :
  session (snd (run (detect_flag_sharing_patterns default_config) chs w)) = session w
  /\ committed (snd (run (detect_flag_sharing_patterns default_config) chs w)) = committed w
  /\ (fst (run (detect_flag_sharing_patterns default_config) chs w) = Ok 0
      \/ exists e, fst (run (detect_flag_sharing_patterns default_config) chs w) = Err e).
Proof.
  unfold run, detect_flag_sharing_patterns.
  change (SUSPICION_ENABLED default_config) with true. cbn [negb].
  cbn [print bind call try_except exec_prog].
  destruct (hd Go chs) as [|e|lr]; cbn [exec perform kind_of exec_prog bind try_except fst snd];
    try (by eauto 6);
    destruct (hd Go (tl chs)) as [|e'|lr'];
    cbn [exec perform kind_of exec_prog bind try_except fst snd];
    try (by eauto 6);
    match goal with |- context [(?a <=? ?b)%nat] => destruct (a <=? b)%nat end;
    cbn [exec_prog bind try_except print fst snd]; rewrite analyze_challenges_default;
    cbn [exec_prog bind try_except print fst snd]; eauto 6.
Qed.

(** ** utils.py: challenge health *)

(** The health score is one of 100, 85, 80, 70 and 65, and the status is
    never [BROKEN]: the penalty for a challenge that is too hard is only
    taken with 10 attempts or more, and the one for low engagement only with
    fewer. *)
Theorem challenge_health_is_never_broken challenge_id w :
  In (h_health_score (calculate_challenge_health challenge_id w)) [100; 85; 80; 70; 65]
  /\ h_status (calculate_challenge_health challenge_id w) <> "BROKEN".
Proof.
  unfold calculate_challenge_health.
  set (s := Z.of_nat _). set (a := Z.of_nat (length (List.filter _ (submissions w)))).
  clearbody s a. unfold challenge_health. cbn [h_health_score h_status].
  set (rate := if 0 <? a then _ else _). clearbody rate.
  destruct (a <? 10) eqn:H1, (10 <=? a) eqn:H2;
    try (apply Z.ltb_lt in H1; apply Z.leb_le in H2; lia);
    try (apply Z.ltb_ge in H1; apply Z.leb_gt in H2; lia);
    destruct (negb (Qle_bool rate (90 # 100))), (negb (Qle_bool (5 # 100) rate));
    cbn [andb]; (split; [cbn; tauto|by apply String.eqb_neq]).
Qed.

(** ** models.py: consent *)

Lemma consent_of_other u v rows row :
  uc_user_id row = u -> v <> u ->
  consent_of v (rows ++ [row]) = consent_of v rows
  /\ consent_of v (map (fun c => if uc_user_id c =? uc_user_id row then row else c) rows)
     = consent_of v rows.
Proof.
  intros Hu Hv. unfold consent_of. split.
  - rewrite List.filter_app. cbn [List.filter]. rewrite Hu.
    destruct (u =? v) eqn:E; [apply Z.eqb_eq in E; congruence|]. by rewrite app_nil_r.
  - rewrite Hu. induction rows as [|x l IH]; [done|]. cbn [map List.filter].
    destruct (uc_user_id x =? u) eqn:Hx.
    + rewrite Hu. apply Z.eqb_eq in Hx.
      destruct (u =? v) eqn:E; [apply Z.eqb_eq in E; congruence|].
      rewrite Hx, E. apply IH.
    + destruct (uc_user_id x =? v); [done|]. apply IH.
Qed.

(** After [grant_consent] the user has consent, after [withdraw_consent]
    the user has none, whatever the ledger held before; either way the
    change is committed and no other user's row is touched. *)
Theorem consent_round_trip u w :
  fst (run (grant_consent u) [] w) = Ok tt
  /\ fst (run (has_consent u) [] (snd (run (grant_consent u) [] w))) = Ok true
  /\ fst (run (withdraw_consent u) [] w) = Ok tt
  /\ fst (run (has_consent u) [] (snd (run (withdraw_consent u) [] w))) = Ok false
  /\ committed (snd (run (grant_consent u) [] w)) = session (snd (run (grant_consent u) [] w))
  /\ committed (snd (run (withdraw_consent u) [] w))
     = session (snd (run (withdraw_consent u) [] w))
  /\ forall v, v <> u ->
       active_consent (snd (run (grant_consent u) [] w)) v = active_consent w v
       /\ active_consent (snd (run (withdraw_consent u) [] w)) v = active_consent w v.
Proof.
  unfold run, grant_consent, withdraw_consent, has_consent, active_consent. orm_simpl.
  destruct (consent_of u (consent (session w))) as [c|] eqn:Hc; orm_simpl.
  - pose proof (consent_of_user _ _ _ Hc) as Hu.
    rewrite !consent_of_update by (by rewrite ?Hc). cbn [consented uc_consented].
    repeat (split; [done|]). intros v Hv.
    split; f_equal; by apply (consent_of_other u v).
  - cbn [uc_user_id]. rewrite Hc. orm_simpl.
    rewrite !consent_of_app_new by done. cbn [consented uc_consented].
    repeat (split; [done|]). intros v Hv.
    split; f_equal; by apply (consent_of_other u v).
Qed.

(** The ledger keeps one row per user. *)
Theorem consent_ledger_one_row_per_user u w :
  NoDup (map uc_user_id (consent (session w))) ->
  NoDup (map uc_user_id (consent (session (snd (run (grant_consent u) [] w)))))
  /\ NoDup (map uc_user_id (consent (session (snd (run (withdraw_consent u) [] w))))).
Proof.
  intros Hnd.
  assert (Hmap : forall row, uc_user_id row = u ->
    map uc_user_id (map (fun c => if uc_user_id c =? uc_user_id row then row else c)
                        (consent (session w)))
    = map uc_user_id (consent (session w))).
  { intros row Hr. rewrite map_map. apply map_ext. intros x. rewrite Hr.
    destruct (uc_user_id x =? u) eqn:Hx; [|done]. apply Z.eqb_eq in Hx. congruence. }
  assert (Happ : forall row, uc_user_id row = u -> consent_of u (consent (session w)) = None ->
    NoDup (map uc_user_id (consent (session w) ++ [row]))).
  { intros row Hr Hnone. rewrite map_app. apply NoDup_app. split; [done|].
    split; [|apply NoDup_singleton]. cbn [map].
    intros x Hx ->%list_elem_of_singleton.
    apply list_elem_of_In, in_map_iff in Hx as (y & Hy & Hin%list_elem_of_In).
    unfold consent_of in Hnone.
    assert (Hf : y ∈ List.filter (fun c => uc_user_id c =? u) (consent (session w))).
    { apply list_elem_of_In, filter_In. split; [by apply list_elem_of_In|].
      apply Z.eqb_eq. congruence. }
    destruct (List.filter _ _); [by apply elem_of_nil in Hf|done]. }
  unfold run, grant_consent, withdraw_consent. orm_simpl.
  destruct (consent_of u (consent (session w))) as [c|] eqn:Hc; orm_simpl.
  - pose proof (consent_of_user _ _ _ Hc) as Hu.
    rewrite !Hmap by done. done.
  - cbn [uc_user_id]. rewrite Hc. orm_simpl. split; by apply Happ.
Qed.

Lemma consent_ledger_one_row_per_user_witness :
  NoDup (map uc_user_id
           (consent (session (snd (run (grant_consent 2) [] (sharing_world [consent_row 1 true]))))))
  /\ NoDup (map uc_user_id
              (consent (session (snd (run (withdraw_consent 2) []
                                          (sharing_world [consent_row 1 true])))))).
Proof.
  apply (consent_ledger_one_row_per_user 2 (sharing_world [consent_row 1 true])).
  apply NoDup_singleton.
Defined.

(** ** api.py: reviews *)

(** A body whose verdict is not one of the three valid strings is answered
    with 400 before anything is read or written. *)
Theorem put_rejects_invalid_verdict cfg id members admin_id admin_ip chs w :
  SUSPICION_ENABLED cfg = true ->
  valid_verdict (Json.obj_get "verdict" members) = None ->
  run (put cfg id (Json.JObj members) admin_id admin_ip) chs w = (Ok 400, w).
Proof.
  intros Hen Hv. unfold run, put. rewrite Hen. cbn [negb py_get lift bind try_except].
  by rewrite Hv.
Qed.

Lemma put_rejects_invalid_verdict_witness :
  run (put default_config 1 (verdict_body "guilty") 9 None) [] review_world
  = (Ok 400, review_world).
Proof.
  apply (put_rejects_invalid_verdict default_config 1 [("verdict", Json.JStr "guilty")]);
    reflexivity.
Defined.

(** A review of a finding that does not exist is answered with 404 after
    the one query; no entry is written. *)
Theorem put_unknown_finding cfg id members v admin_id admin_ip w :
  SUSPICION_ENABLED cfg = true ->
  valid_verdict (Json.obj_get "verdict" members) = Some v ->
  head (List.filter (fun r => fs_id r =? id) (suspicion (session w))) = None ->
  run (put cfg id (Json.JObj members) admin_id admin_ip) [] w
  = (Ok 404, add_trace KSuspicionFirst w).
Proof.
  intros Hen Hv Hf. unfold run, put. rewrite Hen. cbn [negb py_get lift bind try_except].
  rewrite Hv. orm_simpl. by rewrite Hf.
Qed.

Lemma put_unknown_finding_witness :
  run (put default_config 7 (verdict_body "innocent") 9 None) [] review_world
  = (Ok 404, add_trace KSuspicionFirst review_world).
Proof.
  apply (put_unknown_finding default_config 7 [("verdict", Json.JStr "innocent")] "innocent");
    reflexivity.
Defined.

(** A body that is not a JSON object (such as none at all) ends in the
    handler: the session is rolled back and the answer is 500. *)
Theorem put_without_object cfg id data admin_id admin_ip w :
  SUSPICION_ENABLED cfg = true ->
  (forall members, data <> Json.JObj members) ->
  fst (run (put cfg id data admin_id admin_ip) [] w) = Ok 500
  /\ session (snd (run (put cfg id data admin_id admin_ip) [] w)) = committed w
  /\ committed (snd (run (put cfg id data admin_id admin_ip) [] w)) = committed w.
Proof.
  intros Hen Hd. unfold run, put. rewrite Hen.
  destruct data as [| | | | |members]; try (by destruct (Hd members));
    cbn [negb py_get lift bind try_except]; orm_simpl; done.
Qed.

Lemma put_without_object_witness :
  fst (run (put default_config 1 Json.JNull 9 None) [] review_world) = Ok 500
  /\ session (snd (run (put default_config 1 Json.JNull 9 None) [] review_world))
     = committed review_world
  /\ committed (snd (run (put default_config 1 Json.JNull 9 None) [] review_world))
     = committed review_world.
Proof.
  apply (put_without_object default_config 1 Json.JNull 9 None review_world);
    [reflexivity|discriminate].
Defined.

(** The audit entry is committed before the finding is updated: when the
    second commit fails, the answer is 500 and the session is rolled back,
    but the database keeps the new entry, and the finding keeps its old
    verdict. *)
Theorem put_failure_keeps_audit_entry cfg id members v admin_id admin_ip w f e :
  SUSPICION_ENABLED cfg = true ->
  valid_verdict (Json.obj_get "verdict" members) = Some v ->
  bindable (Json.obj_get "notes" members) = true ->
  head (List.filter (fun r => fs_id r =? id) (suspicion (session w))) = Some f ->
  let out := run (put cfg id (Json.JObj members) admin_id admin_ip)
                 [Go; Go; Go; Go; Go; Fault e] w in
  fst out = Ok 500
  /\ verdict_history (committed (snd out))
     = (verdict_history (session w) ++
        [{| vh_id := next_id (map vh_id (verdict_history (session w)));
            vh_suspicion_id := id; vh_verdict := v; vh_reviewed_by := Some admin_id;
            vh_admin_ip := admin_ip; vh_notes := Json.obj_get "notes" members;
            vh_created_at := now w |}])%list
  /\ suspicion (committed (snd out)) = suspicion (session w)
  /\ session (snd out) = committed (snd out).
Proof.
  intros Hen Hv Hb Hf out. unfold out, run, put, record_verdict. rewrite Hen.
  cbn [negb py_get lift bind try_except]. rewrite Hv, Hb.
  orm_simpl. rewrite Hf. orm_simpl. done.
Qed.

Lemma put_failure_keeps_audit_entry_witness :
  fst (run (put default_config 1 (verdict_body "confirmed") 9 None)
           [Go; Go; Go; Go; Go; Fault (Exn OperationalError "(2013, Lost connection)")]
           review_world) = Ok 500
  /\ map vh_verdict
       (verdict_history (committed (snd
          (run (put default_config 1 (verdict_body "confirmed") 9 None)
               [Go; Go; Go; Go; Go; Fault (Exn OperationalError "(2013, Lost connection)")]
               review_world)))) = ["confirmed"]
  /\ map fs_admin_verdict
       (suspicion (committed (snd
          (run (put default_config 1 (verdict_body "confirmed") 9 None)
               [Go; Go; Go; Go; Go; Fault (Exn OperationalError "(2013, Lost connection)")]
               review_world)))) = [None].
Proof.
  destruct (put_failure_keeps_audit_entry default_config 1
              [("verdict", Json.JStr "confirmed")] "confirmed" 9 None review_world
              pending_finding (Exn OperationalError "(2013, Lost connection)"))
    as (H1 & H2 & H3 & _); [reflexivity..|].
  unfold verdict_body. split; [exact H1|]. split; [by rewrite H2|by rewrite H3].
Defined.

(** *** The audit trail only grows *)

Lemma exec_trail_kept w0 X (o : op X) ch w :
  review_op X o -> trail_kept w0 w -> trail_kept w0 (snd (exec o ch w)).
Proof.
  intros Ho [H1 H2].
  destruct ch as [|e|lr]; destruct o; cbn [review_op] in Ho; try done;
    unfold exec, trail_kept; cbn [perform kind_of]; orm_simpl; try done.
  all: split; [done|]; by apply prefix_app_r.
Qed.

Lemma exec_prog_trail_kept w0 {A} (p : prog A) :
  only_ops review_op p ->
  forall chs w, trail_kept w0 w -> trail_kept w0 (snd (fst (exec_prog p chs w))).
Proof.
  induction 1 as [a|e|msg p _ IH|X o k Ho _ IH]; intros chs w Hw; cbn [exec_prog fst snd];
    try done.
  - by apply IH.
  - pose proof (exec_trail_kept w0 X o (hd Go chs) w Ho Hw) as Hw'.
    destruct (exec o (hd Go chs) w) as [r w']. by apply IH.
Qed.

Lemma put_review_ops cfg id data admin_id admin_ip :
  only_ops review_op (put cfg id data admin_id admin_ip).
Proof.
  unfold put, record_verdict. destruct (negb _); [constructor|].
  apply only_ops_try_except.
  2:{ intros e. apply only_ops_bind; [by apply only_ops_call|]. intros _.
      apply only_ops_bind; [apply only_ops_print|]. intros _. constructor. }
  apply only_ops_bind; [apply only_ops_lift|]. intros verdict.
  apply only_ops_bind; [apply only_ops_lift|]. intros notes.
  destruct (valid_verdict verdict) as [v|]; [|constructor].
  apply only_ops_bind; [by apply only_ops_call|]. intros [s|]; [|constructor].
  apply only_ops_bind.
  { apply only_ops_bind; [by apply only_ops_call|]. intros entry.
    apply only_ops_bind; [destruct (bindable notes); [by apply only_ops_call|constructor]|].
    intros _. apply only_ops_bind; [apply only_ops_print|]. intros _. constructor. }
  intros entry. apply only_ops_bind; [by apply only_ops_call|]. intros at_.
  apply only_ops_bind; [by apply only_ops_call|]. intros _.
  apply only_ops_bind; [by apply only_ops_call|]. intros _.
  apply only_ops_bind; [apply only_ops_print|]. intros _. constructor.
Qed.

(** Whatever the body holds and whatever fails, a review request removes
    and changes no entry of the audit trail: the entries the database held
    before are the first entries it holds after, in the same order. *)
Theorem put_keeps_audit_trail cfg id data admin_id admin_ip chs w :
  verdict_history (committed w) `prefix_of` verdict_history (session w) ->
  verdict_history (committed w)
    `prefix_of` verdict_history (committed (snd (run (put cfg id data admin_id admin_ip) chs w))).
Proof.
  intros H. unfold run.
  apply (exec_prog_trail_kept w _ (put_review_ops cfg id data admin_id admin_ip) chs w).
  split; [done|exact H].
Qed.

Lemma put_keeps_audit_trail_witness :
  verdict_history (committed first_review)
    `prefix_of` verdict_history (committed
       (snd (run (put default_config 1 (verdict_body "innocent") 8 None) [] first_review))).
Proof.
  apply (put_keeps_audit_trail default_config 1 (verdict_body "innocent") 8 None []
           first_review).
  vm_compute. by exists [].
Defined.

(** ** models.py: reading the audit trail *)

Lemma insert_oldest_in e l x : x ∈ insert_oldest e l <-> x = e \/ x ∈ l.
Proof.
  induction l as [|y r IH]; cbn [insert_oldest].
  - rewrite list_elem_of_singleton, elem_of_nil. tauto.
  - destruct (_ <? _); rewrite !elem_of_cons; [tauto|]. rewrite IH. tauto.
Qed.

Lemma insert_oldest_sorted e l :
  StronglySorted older_or_same l -> StronglySorted older_or_same (insert_oldest e l).
Proof.
  induction 1 as [|y r Hs IH Hy]; cbn [insert_oldest]; [repeat constructor|].
  destruct (vh_created_at e <? vh_created_at y) eqn:E.
  - apply Z.ltb_lt in E. constructor; [by constructor|].
    constructor; [unfold older_or_same; lia|].
    eapply Forall_impl; [exact Hy|]. unfold older_or_same. intros; lia.
  - apply Z.ltb_ge in E. constructor; [done|].
    apply Forall_forall. intros x [->|Hx]%insert_oldest_in; [done|].
    by apply (proj1 (Forall_forall _ _) Hy).
Qed.

Lemma oldest_first_sorted l : StronglySorted older_or_same (oldest_first l).
Proof.
  induction l as [|e r IH]; cbn; [constructor|]. by apply insert_oldest_sorted.
Qed.

Lemma oldest_first_in l x : x ∈ oldest_first l <-> x ∈ l.
Proof.
  induction l as [|e r IH]; cbn [oldest_first fold_right]; [done|].
  rewrite insert_oldest_in, elem_of_cons.
  change (fold_right insert_oldest [] r) with (oldest_first r). rewrite IH. tauto.
Qed.

Lemma take_sorted {A} (R : A -> A -> Prop) n l :
  StronglySorted R l -> StronglySorted R (take n l).
Proof.
  intros H. revert n. induction H as [|x r Hs IH Hx]; intros [|n]; cbn [take];
    try constructor; [apply IH|].
  apply Forall_forall. intros y Hy.
  apply (proj1 (Forall_forall _ _) Hx). by eapply subseteq_take.
Qed.

(** [get_history] returns entries of the audit trail, all of the
    suspicion asked for, oldest first, and no more than [limit]. *)
Theorem get_history_is_a_sorted_selection suspicion_id limit t :
  (forall e, e ∈ get_history suspicion_id limit t ->
     e ∈ verdict_history t /\ vh_suspicion_id e = suspicion_id)
  /\ StronglySorted older_or_same (get_history suspicion_id limit t)
  /\ (length (get_history suspicion_id limit t) <= limit)%nat.
Proof.
  unfold get_history. split; [|split].
  - intros e He. apply subseteq_take in He. apply (proj1 (oldest_first_in _ _)) in He.
    by apply elem_of_filter_bool in He as [? ?%Z.eqb_eq].
  - apply take_sorted, oldest_first_sorted.
  - rewrite length_take. lia.
Qed.

(** Two reviews in a row read back in the order they were made. *)
Lemma get_history_of_two_reviews :
  map vh_verdict (get_history 1 100 (committed second_review)) = ["suspicious"; "innocent"].
Proof. vm_compute. reflexivity. Qed.

(** ** detection.py: what the passes report *)

(** A pattern of the three passes is about two different users, and its
    type is the name of its pass. *)
Theorem patterns_pair_different_users submissions p :
  p ∈ patterns_of submissions ->
  (exists u, p_user_id_2 p = Some u /\ u <> p_user_id_1 p)
  /\ In (p_detection_type p) ["same_ip"; "duplicate_wrong"; "similar_ua"].
Proof.
  assert (Hall : Forall (fun p =>
            (exists u, p_user_id_2 p = Some u /\ u <> p_user_id_1 p)
            /\ In (p_detection_type p) ["same_ip"; "duplicate_wrong"; "similar_ua"])
          (patterns_of submissions)).
  { unfold patterns_of. repeat (apply Forall_app; split).
    - unfold detect_same_ip_pattern. apply Forall_flat_map_elem. intros [ip subs].
      destruct (_ <? _)%nat; [constructor|]. apply Forall_flat_map_elem. intros [sub1 sub2].
      destruct (_ =? _) eqn:E; [constructor|]. destruct (within_window _); [|constructor].
      constructor; [|constructor]. apply Z.eqb_neq in E. cbn. split; [eauto|tauto].
    - unfold detect_duplicate_wrong_pattern. destruct (_ <? _)%nat; [constructor|].
      apply Forall_flat_map_elem. intros [text subs].
      destruct (_ <? _)%nat; [constructor|]. apply Forall_flat_map_elem. intros [sub1 sub2].
      destruct (_ =? _) eqn:E; [constructor|].
      constructor; [|constructor]. apply Z.eqb_neq in E. cbn. split; [eauto|tauto].
    - unfold detect_similar_ua_pattern. destruct (_ <? _)%nat; [constructor|].
      apply Forall_flat_map_elem. intros [sub1 sub2].
      destruct (_ =? _) eqn:E; [constructor|]. destruct (Qle_bool _ _); [|constructor].
      constructor; [|constructor]. apply Z.eqb_neq in E. cbn. split; [eauto|tauto]. }
  intros Hp. exact (proj1 (Forall_forall _ _) Hall p Hp).
Qed.

Lemma patterns_pair_different_users_witness :
  (exists u, p_user_id_2 (default sharing_pattern (head (patterns_of sharing_submissions)))
             = Some u
             /\ u <> p_user_id_1 (default sharing_pattern
                                    (head (patterns_of sharing_submissions))))
  /\ In (p_detection_type (default sharing_pattern (head (patterns_of sharing_submissions))))
        ["same_ip"; "duplicate_wrong"; "similar_ua"].
Proof.
  apply (patterns_pair_different_users sharing_submissions).
  apply list_elem_of_In. vm_compute. left. reflexivity.
Defined.

(** *** The number the run returns *)

(** When nothing fails, [create_suspicion_record] returns (a finding or
    [None]) and never raises. *)
Lemma create_suspicion_record_returns pattern w :
  exists r w', exec_prog (create_suspicion_record pattern) [] w = (Ok r, w', []).
Proof.
  unfold create_suspicion_record, with_nested. orm_simpl.
  destruct (consented (consent_of (p_user_id_1 pattern) (consent (session w)))); orm_simpl;
    [|eauto].
  destruct (truthy_id (p_user_id_2 pattern)); orm_simpl.
  - destruct (consented (consent_of _ _)); orm_simpl; [|eauto].
    destruct (sanitize_evidence (p_evidence pattern)); orm_simpl; eauto.
  - destruct (sanitize_evidence (p_evidence pattern)); orm_simpl; eauto.
Qed.

(** The counter of [detect_flag_sharing_patterns] counts the patterns at
    or above the threshold, not the findings: it goes up whenever
    [create_suspicion_record] returns, also when it returned [None] because
    consent was missing. *)
Theorem create_records_counts_attempts cfg patterns : forall n w,
  fst (run (create_records cfg patterns n) [] w)
  = Ok (n + Z.of_nat (length (List.filter
                                (fun p => PrimFloat.leb (SUSPICION_THRESHOLD cfg) (p_confidence p))
                                patterns))).
Proof.
  unfold run. induction patterns as [|p r IH]; intros n w; cbn [create_records List.filter].
  - cbn. f_equal. lia.
  - destruct (PrimFloat.leb _ _); [|apply IH].
    rewrite exec_prog_bind, exec_prog_try_except, exec_prog_bind.
    destruct (create_suspicion_record_returns p w) as (x & w' & ->).
    cbn [exec_prog]. rewrite IH. cbn [length]. f_equal. lia.
Qed.

(** With the consent of one of the two users missing, both patterns above
    the threshold are counted and no finding exists. *)
Lemma detection_counts_refused_patterns :
  fst (run (detect_flag_sharing_patterns sensitive_config) []
           (sharing_world [consent_row 1 true])) = Ok 2
  /\ suspicion (session (snd (run (detect_flag_sharing_patterns sensitive_config) []
                                  (sharing_world [consent_row 1 true])))) = [].
Proof. vm_compute. split; reflexivity. Qed.

(** ** hooks.py: the paths that record nothing *)

Lemma hook_without_hint cfg t d w :
  FIRST_BLOOD_ENABLED cfg = true -> s_date t = Some d ->
  cache w !! redis_key_of (s_challenge_id t) = None ->
  forall chs, hd Go chs = Go ->
  exec_prog (on_solve_inserted cfg t) chs w
  = exec_prog
      (try_except
         (let! locked := acquire_lock (s_challenge_id t) in
          if negb locked then Ret tt
          else decide_first_blood cfg (redis_key_of (s_challenge_id t)) t d)
         (fun e : exn =>
            print ("[PHASE2 FIRST BLOOD ERROR] Failed to record first blood: "
                   +:+ str_of_exn e) ;;;
            print "Traceback (most recent call last)"))
      (tl chs) (add_trace KCacheGet w).
Proof.
  intros Hen Hd Hc chs Hgo. unfold on_solve_inserted, on_solve_inserted_body.
  rewrite Hen, Hd. cbn [negb bind].
  rewrite (exec_prog_try_bind _ _ _ _ _ None (add_trace KCacheGet w) (tl chs)); [done|].
  unfold get_signed_cache. cbn [bind call exec_prog]. rewrite Hgo.
  cbn [exec perform kind_of].
  change (cache (add_trace KCacheGet w)) with (cache w). by rewrite Hc.
Qed.

(** A reply to [GET_LOCK] other than 1 (0 after the timeout, NULL on an
    error) ends the hook after two operations: it prints the warning and
    records nothing. *)
Theorem lock_refused_ends_the_hook cfg t d w reply :
  FIRST_BLOOD_ENABLED cfg = true -> s_date t = Some d ->
  cache w !! redis_key_of (s_challenge_id t) = None ->
  reply <> Some 1 ->
  run (on_solve_inserted cfg t) [Go; LockReply reply] w
  = (Ok tt,
     add_log "[PHASE2 FIRST BLOOD WARNING] Failed to acquire advisory lock (timeout or error)"
       (add_trace KGetLock (add_trace KCacheGet w))).
Proof.
  intros Hen Hd Hc Hr. unfold run.
  rewrite (hook_without_hint cfg t d w Hen Hd Hc) by reflexivity. cbn [tl].
  unfold acquire_lock. cbn [bind call try_except exec_prog hd tl exec perform kind_of].
  rewrite bool_decide_eq_false_2 by done. reflexivity.
Qed.

Lemma lock_refused_ends_the_hook_witness :
  run (on_solve_inserted default_config (solve_of 1 3 1 10)) [Go; LockReply (Some 0)]
      (insert_solve (solve_of 1 3 1 10) fresh_world)
  = (Ok tt,
     add_log "[PHASE2 FIRST BLOOD WARNING] Failed to acquire advisory lock (timeout or error)"
       (add_trace KGetLock (add_trace KCacheGet (insert_solve (solve_of 1 3 1 10) fresh_world)))).
Proof.
  apply (lock_refused_ends_the_hook default_config (solve_of 1 3 1 10) 10); try reflexivity.
  discriminate.
Defined.

(** When the challenge already has its record, or a solve that comes
    earlier, the hook takes the advisory lock, writes the cache hint and
    returns: it inserts nothing, and it does not release the lock
    ([RELEASE_LOCK] is only reached after the INSERT). *)
Theorem decided_challenge_keeps_the_lock cfg t d w :
  FIRST_BLOOD_ENABLED cfg = true -> s_date t = Some d ->
  cache w !! redis_key_of (s_challenge_id t) = None ->
  (List.filter (fun r => fb_challenge_id r =? s_challenge_id t) (first_blood w) <> []
   \/ List.filter (earlier_solve (s_challenge_id t) d (s_user_id t)) (solves w) <> []) ->
  first_blood (snd (run (on_solve_inserted cfg t) [] w)) = first_blood w
  /\ cache (snd (run (on_solve_inserted cfg t) [] w)) !! redis_key_of (s_challenge_id t)
     = Some (hint_text cfg)
  /\ exists queries,
       trace (snd (run (on_solve_inserted cfg t) [] w))
       = (trace w ++ [KCacheGet; KGetLock] ++ queries ++ [KCacheSet])%list
       /\ (queries = [KSelectFirstBlood] \/ queries = [KSelectFirstBlood; KSelectEarlierSolve]).
Proof.
  intros Hen Hd Hc Hdec. unfold run.
  rewrite (hook_without_hint cfg t d w Hen Hd Hc) by reflexivity. cbn [tl].
  unfold acquire_lock, decide_first_blood.
  cbn [bind call try_except exec_prog hd tl exec perform kind_of negb first_blood solves
       add_trace].
  rewrite bool_decide_eq_true_2 by done.
  cbn [bind call try_except exec_prog hd tl exec perform kind_of negb first_blood solves
       add_trace].
  destruct (List.filter (fun r => fb_challenge_id r =? s_challenge_id t) (first_blood w))
    as [|r rs] eqn:Hrow; cbn [head fmap option_fmap option_map].
  - destruct Hdec as [Hdec|Hdec]; [done|].
    cbn [bind call try_except exec_prog hd tl exec perform kind_of negb first_blood solves
         add_trace].
    destruct (first_by_date
                (List.filter (earlier_solve (s_challenge_id t) d (s_user_id t)) (solves w)))
      as [s|] eqn:He.
    2:{ apply first_by_date_None in He. done. }
    rewrite set_signed_cache_hint.
    cbn [bind call try_except exec_prog hd tl exec perform kind_of negb first_blood solves
         add_trace set_cache cache trace fst snd].
    split; [done|]. split; [apply lookup_insert_eq|].
    exists [KSelectFirstBlood; KSelectEarlierSolve]. split; [|by right].
    by rewrite <- !app_assoc.
  - rewrite set_signed_cache_hint.
    cbn [bind call try_except exec_prog hd tl exec perform kind_of negb first_blood solves
         add_trace set_cache cache trace fst snd].
    split; [done|]. split; [apply lookup_insert_eq|].
    exists [KSelectFirstBlood]. split; [|by left].
    by rewrite <- !app_assoc.
Qed.

Lemma decided_challenge_keeps_the_lock_witness :
  first_blood (snd (run (on_solve_inserted default_config (solve_of 2 3 2 20)) []
                        (insert_solve (solve_of 2 3 2 20)
                           (insert_solve (solve_of 1 3 1 10) fresh_world))))
  = first_blood (insert_solve (solve_of 2 3 2 20) (insert_solve (solve_of 1 3 1 10) fresh_world))
  /\ cache (snd (run (on_solve_inserted default_config (solve_of 2 3 2 20)) []
                     (insert_solve (solve_of 2 3 2 20)
                        (insert_solve (solve_of 1 3 1 10) fresh_world))))
     !! redis_key_of 3 = Some (hint_text default_config)
  /\ exists queries,
       trace (snd (run (on_solve_inserted default_config (solve_of 2 3 2 20)) []
                       (insert_solve (solve_of 2 3 2 20)
                          (insert_solve (solve_of 1 3 1 10) fresh_world))))
       = (trace (insert_solve (solve_of 2 3 2 20) (insert_solve (solve_of 1 3 1 10) fresh_world))
          ++ [KCacheGet; KGetLock] ++ queries ++ [KCacheSet])%list
       /\ (queries = [KSelectFirstBlood] \/ queries = [KSelectFirstBlood; KSelectEarlierSolve]).
Proof.
  apply (decided_challenge_keeps_the_lock default_config (solve_of 2 3 2 20) 20); try reflexivity.
  right. vm_compute. discriminate.
Defined.

(** ** hooks.py: what the engine leaves alone *)

(** Whatever the hooks of any solves do, in any order and with any
    failures, the engine changes no challenge, and removes or changes no
    solve and no first-blood row: the rows there were are the first rows
    there are. *)
Theorem engine_only_appends cfg acts w0 :
  challenges (fst (interleave cfg acts (w0, []))) = challenges w0
  /\ first_blood w0 `prefix_of` first_blood (fst (interleave cfg acts (w0, [])))
  /\ solves w0 `prefix_of` solves (fst (interleave cfg acts (w0, []))).
Proof. apply interleave_only_appended. Qed.
